(** * Persistent AI memory: stores, duplicate detection, telemetry, dispatcher

    A shallow embedding of the domain stores of [ai_memory_core.py] (both the
    [ai-memory-llm-integration] and the [llama-ai-memory] copies) and of the
    request dispatcher of [mcp_server.py], with the properties the
    specification states about them.

    Conventions of the embedding:
    - a coroutine is a function from the store's state to the new state and
      either a returned value or a raised exception;
    - [uuid.uuid4()], [datetime.now()] and SQLite's [datetime('now', ...)]
      are inputs of the operation that reads them;
    - an SQL statement is the syntax tree of the statement text, run by a
      small interpreter of the SQLite fragment the program uses;
    - a Python [int] is an unbounded integer, an SQLite INTEGER a signed
      64-bit one: binding an [int] outside that range raises. *)

From Stdlib Require Import ZArith QArith String List Sorted Lia.
From stdpp Require Import gmap strings list sorting pretty.

Local Open Scope Z_scope.
Set Warnings "-register-all".

(** ** Python values and exceptions *)

Module Py.

(** The JSON-like values that travel through requests and results.  A
    finite float is the rational it denotes; a dict keeps its items in
    insertion order. *)
Inductive value : Type :=
| VNone
| VBool (b : bool)
| VInt (z : Z)
| VFloat (q : Q)
| VStr (s : string)
| VList (l : list value)
| VDict (d : list (string * value)).

(** [bool(v)]. *)
Definition truthy (v : value) : bool :=
  match v with
  | VNone => false
  | VBool b => b
  | VInt z => negb (z =? 0)
  | VFloat q => negb (Qnum q =? 0)
  | VStr s => negb (String.eqb s "")
  | VList l => match l with [] => false | _ => true end
  | VDict d => match d with [] => false | _ => true end
  end.

(** [a or b], for two values already evaluated. *)
Definition or_ (a b : value) : value := if truthy a then a else b.

(** An instance of a subclass of [Exception]; [str(e)] is [exc_message].
    The exceptions outside [Exception] come with the dispatcher, in
    [Escaping]. *)
Record exception : Type := Exc { exc_class : string; exc_message : string }.

Inductive result (A : Type) : Type :=
| Ok (a : A)
| Raise (e : exception).
Arguments Ok {A} a.
Arguments Raise {A} e.

(** [d.get(key, default)] on the items of a dict. *)
Fixpoint items_get (d : list (string * value)) (key : string) (default : value) : value :=
  match d with
  | [] => default
  | (k, v) :: d' => if String.eqb k key then v else items_get d' key default
  end.

Definition type_name (v : value) : string :=
  match v with
  | VNone => "NoneType"
  | VBool _ => "bool"
  | VInt _ => "int"
  | VFloat _ => "float"
  | VStr _ => "str"
  | VList _ => "list"
  | VDict _ => "dict"
  end.

(** [v.get(key, default)]: only a dict has the method. *)
Definition get (v : value) (key : string) (default : value) : result value :=
  match v with
  | VDict d => Ok (items_get d key default)
  | _ => Raise (Exc "AttributeError"
                  ("'" +:+ type_name v +:+ "' object has no attribute 'get'"))
  end.

(** The numbers [execution_time_ms] ranges over. *)
Inductive number : Type :=
| NInt (z : Z)
| NFloat (q : Q).

Definition number_truthy (n : number) : bool :=
  match n with
  | NInt z => negb (z =? 0)
  | NFloat q => negb (Qnum q =? 0)
  end.

(** [int(n)]: truncation towards zero. *)
Definition int_of_number (n : number) : Z :=
  match n with
  | NInt z => z
  | NFloat q => Z.quot (Qnum q) (Zpos (Qden q))
  end.

Definition of_option_string (o : option string) : value :=
  match o with
  | Some s => VStr s
  | None => VNone
  end.

(** Truth value of an [Optional[str]] argument. *)
Definition str_truthy (o : option string) : bool :=
  match o with
  | Some s => negb (String.eqb s "")
  | None => false
  end.

End Py.

Export Py.

(** ** State and exception monad of the coroutines *)

Definition M (S A : Type) : Type := S -> S * result A.

Definition ret {S A : Type} (a : A) : M S A := fun s => (s, Ok a).

Definition raise {S A : Type} (e : exception) : M S A := fun s => (s, Raise e).

Definition bind {S A B : Type} (c : M S A) (k : A -> M S B) : M S B :=
  fun s =>
    match c s with
    | (s', Ok a) => k a s'
    | (s', Raise e) => (s', Raise e)
    end.

(** [try: body / except Exception as e: handler e]. *)
Definition try_except {S A : Type} (body : M S A) (handler : exception -> M S A) : M S A :=
  fun s =>
    match body s with
    | (s', Ok a) => (s', Ok a)
    | (s', Raise e) => handler e s'
    end.

(** A computation that cannot change the state. *)
Definition lift {S A : Type} (r : result A) : M S A := fun s => (s, r).

Notation "'let!' x ':=' c 'in' k" := (bind c (fun x => k))
  (at level 10, x name, c at level 100, k at level 200).
Notation "'do!' c 'in' k" := (bind c (fun _ => k))
  (at level 10, c at level 100, k at level 200).

(** ** The SQLite fragment behind [DatabaseManager] *)

Module Sql.

(** Storage classes the schemas of this program use. *)
Inductive sqlvalue : Type :=
| SqlNull
| SqlInt (z : Z)
| SqlText (s : string).

(** A row, as [sqlite3.Row]: the selected columns with their values. *)
Definition row : Type := list (string * sqlvalue).

(** A table: its columns (name and [DEFAULT] value), the columns of its
    [PRIMARY KEY], and its rows in rowid order. *)
Record table : Type := Table {
  tbl_columns : list (string * sqlvalue);
  tbl_primary_key : list string;
  tbl_rows : list row
}.

(** The content of one database file: tables by name. *)
Abbreviation database := (gmap string table).

Inductive comparison_op : Type :=
| OpEq   (* column = ?  *)
| OpIs   (* column IS ? *)
| OpGe.  (* column >= ? *)

(** One conjunct of a [WHERE] clause: a column against a bound value. *)
Record condition : Type := Cond {
  cond_column : string;
  cond_op : comparison_op;
  cond_param : sqlvalue
}.

(** [SELECT cols FROM t WHERE c1 AND ... ORDER BY col DESC LIMIT k];
    [sel_columns = None] is [SELECT *]. *)
Record select : Type := Select {
  sel_columns : option (list string);
  sel_table : string;
  sel_where : list condition;
  sel_order_desc : option string;
  sel_limit : option Z
}.

Inductive update : Type :=
| InsertInto (tbl : string) (cols : list string) (vals : list sqlvalue)
  (* INSERT INTO tbl (cols) VALUES (vals) *)
| UpdateAdd (tbl : string) (increments : list (string * sqlvalue))
            (where_ : list condition).
  (* UPDATE tbl SET col = col + v, ... WHERE ... *)

Definition OperationalError (msg : string) : exception := Exc "OperationalError" msg.
Definition IntegrityError (msg : string) : exception := Exc "IntegrityError" msg.
Definition IndexError (msg : string) : exception := Exc "IndexError" msg.
Definition ProgrammingError (msg : string) : exception := Exc "ProgrammingError" msg.

(** What [sqlite3] raises when it binds an [int] outside the signed 64-bit
    range of an SQLite INTEGER. *)
Definition OverflowError : exception :=
  Exc "OverflowError" "Python int too large to convert to SQLite INTEGER".

(** The integers an SQLite INTEGER holds. *)
Definition sqlite_integer (z : Z) : bool := (- 2 ^ 63 <=? z) && (z <? 2 ^ 63).

(** A value [sqlite3] can bind to a [?] of a statement. *)
Definition bindable (v : sqlvalue) : bool :=
  match v with
  | SqlInt z => sqlite_integer z
  | _ => true
  end.

(** The message of a violated [PRIMARY KEY]: the key columns, qualified. *)
Definition unique_constraint_failed (tbl : string) (pk : list string) : string :=
  "UNIQUE constraint failed: "
  +:+ String.concat ", " (map (fun c => tbl +:+ "." +:+ c) pk).

Definition incorrect_bindings (used supplied : nat) : string :=
  "Incorrect number of bindings supplied. The current statement uses "
  +:+ pretty used +:+ ", and there are " +:+ pretty supplied +:+ " supplied.".

Fixpoint assoc {A : Type} (l : list (string * A)) (key : string) : option A :=
  match l with
  | [] => None
  | (k, v) :: l' => if String.eqb k key then Some v else assoc l' key
  end.

(** The value of a column in a row; [NULL] for a column the row lacks (the
    interpreter resolves column names before it reads rows). *)
Definition column (r : row) (c : string) : sqlvalue :=
  match assoc r c with
  | Some v => v
  | None => SqlNull
  end.

(** [row[c]] of [sqlite3.Row]. *)
Definition row_item (r : row) (c : string) : result sqlvalue :=
  match assoc r c with
  | Some v => Ok v
  | None => Raise (IndexError "No item with that key")
  end.

(** Three-valued comparison: [None] is SQL's NULL (unknown).  The program
    compares TEXT columns with text or NULL and INTEGER columns with
    integers only, so no affinity conversion is involved. *)
Definition sql_eq (a b : sqlvalue) : option bool :=
  match a, b with
  | SqlNull, _ | _, SqlNull => None
  | SqlInt x, SqlInt y => Some (x =? y)
  | SqlText x, SqlText y => Some (String.eqb x y)
  | _, _ => Some false
  end.

(** [a IS b]: equality that treats NULL as a value. *)
Definition sql_is (a b : sqlvalue) : bool :=
  match a, b with
  | SqlNull, SqlNull => true
  | SqlInt x, SqlInt y => x =? y
  | SqlText x, SqlText y => String.eqb x y
  | _, _ => false
  end.

(** SQLite's sort order: NULL, then integers, then text compared bytewise. *)
Definition sql_leb (a b : sqlvalue) : bool :=
  match a, b with
  | SqlNull, _ => true
  | _, SqlNull => false
  | SqlInt x, SqlInt y => x <=? y
  | SqlInt _, SqlText _ => true
  | SqlText _, SqlInt _ => false
  | SqlText x, SqlText y => String.leb x y
  end.

Definition sql_ge (a b : sqlvalue) : option bool :=
  match a, b with
  | SqlNull, _ | _, SqlNull => None
  | _, _ => Some (sql_leb b a)
  end.

(** [a + b] on stored integers; NULL is absorbing.  Counters stay far below
    2^63, where SQLite would switch to floating point. *)
Definition sql_add (a b : sqlvalue) : sqlvalue :=
  match a, b with
  | SqlInt x, SqlInt y => SqlInt (x + y)
  | _, _ => SqlNull
  end.

(** [CASE WHEN a = b THEN 1 ELSE 0 END]. *)
Definition case_when_eq (a b : sqlvalue) : sqlvalue :=
  match sql_eq a b with
  | Some true => SqlInt 1
  | _ => SqlInt 0
  end.

(** A row is selected when the condition is true (neither false nor NULL). *)
Definition is_true (o : option bool) : bool :=
  match o with
  | Some true => true
  | _ => false
  end.

Definition eval_condition (r : row) (c : condition) : option bool :=
  match cond_op c with
  | OpEq => sql_eq (column r (cond_column c)) (cond_param c)
  | OpIs => Some (sql_is (column r (cond_column c)) (cond_param c))
  | OpGe => sql_ge (column r (cond_column c)) (cond_param c)
  end.

(** A conjunction is true exactly when every conjunct is. *)
Definition satisfies (where_ : list condition) (r : row) : bool :=
  forallb (fun c => is_true (eval_condition r c)) where_.

Definition has_column (t : table) (c : string) : bool :=
  existsb (fun cd => String.eqb (fst cd) c) (tbl_columns t).

(** Name resolution at statement preparation: the first unknown column. *)
Definition unknown_column (t : table) (cols : list string) : option string :=
  List.find (fun c => negb (has_column t c)) cols.

Definition project (cols : option (list string)) (r : row) : row :=
  match cols with
  | None => r
  | Some cs => map (fun c => (c, column r c)) cs
  end.

(** [ORDER BY key DESC]: insertion sort; rows with equal keys keep their
    rowid order. *)
Fixpoint insert_desc (key : string) (r : row) (sorted : list row) : list row :=
  match sorted with
  | [] => [r]
  | x :: rest =>
      if sql_leb (column x key) (column r key)
      then r :: x :: rest
      else x :: insert_desc key r rest
  end.

Definition order_by_desc (key : string) (rows : list row) : list row :=
  foldr (insert_desc key) [] rows.

(** [LIMIT k]: a negative [k] means no limit. *)
Definition limit (k : Z) (rows : list row) : list row :=
  if k <? 0 then rows else take (Z.to_nat k) rows.

Definition option_list {A : Type} (o : option A) : list A :=
  match o with
  | Some a => [a]
  | None => []
  end.

Definition referenced_columns (q : select) : list string :=
  match sel_columns q with Some cs => cs | None => [] end
  ++ map cond_column (sel_where q) ++ option_list (sel_order_desc q).

(** The values bound to the [?] of a SELECT: those of its [WHERE] clause,
    then its [LIMIT]. *)
Definition bound_values (q : select) : list sqlvalue :=
  map cond_param (sel_where q)
  ++ match sel_limit q with Some k => [SqlInt k] | None => [] end.

(** [DatabaseManager.execute_query]: run a SELECT and fetch all rows.  The
    statement is prepared, which resolves the table and the columns; then
    its values are bound; then it runs. *)
Definition execute_query (q : select) : M database (list row) :=
  fun db =>
    match db !! sel_table q with
    | None => (db, Raise (OperationalError ("no such table: " +:+ sel_table q)))
    | Some t =>
        match unknown_column t (referenced_columns q) with
        | Some c => (db, Raise (OperationalError ("no such column: " +:+ c)))
        | None =>
            if negb (forallb bindable (bound_values q))
            then (db, Raise OverflowError)
            else
              let matching := List.filter (satisfies (sel_where q)) (tbl_rows t) in
              let ordered :=
                match sel_order_desc q with
                | Some key => order_by_desc key matching
                | None => matching
                end in
              let limited :=
                match sel_limit q with
                | Some k => limit k ordered
                | None => ordered
                end in
              (db, Ok (map (project (sel_columns q)) limited))
        end
    end.

(** The row an INSERT builds: the given values, defaults elsewhere. *)
Definition new_row (t : table) (cols : list string) (vals : list sqlvalue) : row :=
  map (fun cd =>
         (fst cd, match assoc (combine cols vals) (fst cd) with
                  | Some v => v
                  | None => snd cd
                  end))
      (tbl_columns t).

(** Two rows collide on the primary key when every key column is equal and
    not NULL. *)
Definition same_key (pk : list string) (r1 r2 : row) : bool :=
  match pk with
  | [] => false
  | _ => forallb (fun c => is_true (sql_eq (column r1 c) (column r2 c))) pk
  end.

Definition add_to (increments : list (string * sqlvalue)) (r : row) : row :=
  map (fun cv =>
         (fst cv, match assoc increments (fst cv) with
                  | Some d => sql_add (snd cv) d
                  | None => snd cv
                  end))
      r.

Definition with_rows (t : table) (rows : list row) : table :=
  Table (tbl_columns t) (tbl_primary_key t) rows.

(** [DatabaseManager.execute_update]: run the statement and commit.  The
    statement is prepared, its values are counted and bound, then it runs;
    a statement that raises changes nothing.  The integers the statement
    text itself holds (the [1] of a first call) are in range.  Every caller
    discards the returned [lastrowid]. *)
Definition execute_update (u : update) : M database unit :=
  fun db =>
    match u with
    | InsertInto tbl cols vals =>
        match db !! tbl with
        | None => (db, Raise (OperationalError ("no such table: " +:+ tbl)))
        | Some t =>
            match unknown_column t cols with
            | Some c =>
                (db, Raise (OperationalError
                              ("table " +:+ tbl +:+ " has no column named " +:+ c)))
            | None =>
                if negb (Nat.eqb (length cols) (length vals))
                then (db, Raise (ProgrammingError
                                   (incorrect_bindings (length cols) (length vals))))
                else if negb (forallb bindable vals)
                then (db, Raise OverflowError)
                else
                  let r := new_row t cols vals in
                  if existsb (same_key (tbl_primary_key t) r) (tbl_rows t)
                  then (db, Raise (IntegrityError
                                     (unique_constraint_failed tbl (tbl_primary_key t))))
                  else (<[tbl := with_rows t (tbl_rows t ++ [r])]> db, Ok tt)
            end
        end
    | UpdateAdd tbl increments where_ =>
        match db !! tbl with
        | None => (db, Raise (OperationalError ("no such table: " +:+ tbl)))
        | Some t =>
            match unknown_column t (map fst increments ++ map cond_column where_) with
            | Some c => (db, Raise (OperationalError ("no such column: " +:+ c)))
            | None =>
                if negb (forallb bindable (map cond_param where_))
                then (db, Raise OverflowError)
                else
                  let rows :=
                    map (fun r => if satisfies where_ r then add_to increments r else r)
                        (tbl_rows t) in
                  (<[tbl := with_rows t rows]> db, Ok tt)
            end
        end
    end.

(** [CREATE TABLE IF NOT EXISTS]: an existing table is left as it is. *)
Definition create_table_if_not_exists (name : string)
    (cols : list (string * sqlvalue)) (pk : list string) (db : database) : database :=
  match db !! name with
  | Some _ => db
  | None => <[name := Table cols pk []]> db
  end.

Definition nullable (cols : list string) : list (string * sqlvalue) :=
  map (fun c => (c, SqlNull)) cols.

Definition text_or_null (o : option string) : sqlvalue :=
  match o with
  | Some s => SqlText s
  | None => SqlNull
  end.

(** The Python value [sqlite3] hands back for a stored value. *)
Definition to_py (v : sqlvalue) : value :=
  match v with
  | SqlNull => VNone
  | SqlInt z => VInt z
  | SqlText s => VStr s
  end.

(** [dict(row)]. *)
Definition dict_of_row (r : row) : value :=
  VDict (map (fun cv => (fst cv, to_py (snd cv))) r).

End Sql.

Export Sql.

(** ** The stores of [ai-memory-llm-integration/src/ai_memory_core.py] *)

Module LlmIntegration.

Section Stores.

(** [json.dumps], total on the JSON-like values of [Py.value]. *)
Variable json_dumps : value -> string.

(** *** [MCPToolCallDatabase] *)

Definition tool_calls_columns : list string :=
  ["call_id"; "timestamp"; "client_id"; "tool_name"; "parameters"; "result";
   "status"; "execution_time_ms"; "error_message"].

Definition tool_usage_stats_columns : list string :=
  ["tool_name"; "date"; "call_count"; "success_count"; "failure_count"].

Definition mcp_initialize_tables (db : database) : database :=
  create_table_if_not_exists "tool_usage_stats"
    (nullable tool_usage_stats_columns) ["tool_name"; "date"]
    (create_table_if_not_exists "tool_calls"
       (nullable tool_calls_columns) ["call_id"] db).

Definition _update_tool_stats (tool_name status : string)
    (execution_time_ms : option number) (today : string) : M database unit :=
  let! existing := execute_query
    (Select None "tool_usage_stats"
       [Cond "tool_name" OpEq (SqlText tool_name); Cond "date" OpEq (SqlText today)]
       None None) in
  match existing with
  | _ :: _ =>
      execute_update
        (UpdateAdd "tool_usage_stats"
           [("call_count", SqlInt 1);
            ("success_count", case_when_eq (SqlText status) (SqlText "success"));
            ("failure_count", case_when_eq (SqlText status) (SqlText "failure"))]
           [Cond "tool_name" OpEq (SqlText tool_name); Cond "date" OpEq (SqlText today)])
  | [] =>
      execute_update
        (InsertInto "tool_usage_stats" tool_usage_stats_columns
           [SqlText tool_name; SqlText today; SqlInt 1;
            SqlInt (if String.eqb status "success" then 1 else 0);
            SqlInt (if String.eqb status "failure" then 1 else 0)])
  end.

(** [call_id] is the [uuid4] drawn, [timestamp] the clock read at the start
    and [today] the date read by [_update_tool_stats]. *)
Definition log_tool_call (tool_name : string) (parameters result : value)
    (status : string) (execution_time_ms : option number)
    (error_message client_id : option string)
    (call_id timestamp today : string) : M database string :=
  do! execute_update
    (InsertInto "tool_calls" tool_calls_columns
       [SqlText call_id; SqlText timestamp; text_or_null client_id; SqlText tool_name;
        SqlText (json_dumps parameters);
        if truthy result then SqlText (json_dumps result) else SqlNull;
        SqlText status;
        match execution_time_ms with
        | Some n => if number_truthy n then SqlInt (int_of_number n) else SqlNull
        | None => SqlNull
        end;
        text_or_null error_message]) in
  do! _update_tool_stats tool_name status execution_time_ms today in
  ret call_id.

(** *** [ConversationDatabase] *)

Definition messages_columns : list string :=
  ["message_id"; "conversation_id"; "timestamp"; "role"; "content"; "metadata"].

Definition conversation_initialize_tables (db : database) : database :=
  create_table_if_not_exists "messages" (nullable messages_columns) ["message_id"] db.

Definition store_message (content role : string)
    (session_id conversation_id : option string) (metadata : value)
    (timestamp message_id : string) : M database value :=
  do! execute_update
    (InsertInto "messages" messages_columns
       [SqlText message_id; text_or_null conversation_id; SqlText timestamp;
        SqlText role; SqlText content;
        if truthy metadata then SqlText (json_dumps metadata) else SqlNull]) in
  ret (VDict [("message_id", VStr message_id);
              ("conversation_id", of_option_string conversation_id);
              ("session_id", of_option_string session_id)]).

(** *** [AIMemoryDatabase] *)

Definition curated_memories_columns : list string :=
  ["memory_id"; "timestamp_created"; "timestamp_updated"; "source_conversation_id";
   "memory_type"; "content"; "importance_level"; "tags"].

Definition memory_initialize_tables (db : database) : database :=
  create_table_if_not_exists "curated_memories"
    (nullable curated_memories_columns) ["memory_id"] db.

Definition tags_value (tags : option (list string)) : value :=
  match tags with
  | Some l => VList (map VStr l)
  | None => VNone
  end.

Definition create_memory (content : string) (memory_type : option string)
    (importance_level : Z) (tags : option (list string))
    (source_conversation_id : option string)
    (memory_id timestamp : string) : M database value :=
  do! execute_update
    (InsertInto "curated_memories" curated_memories_columns
       [SqlText memory_id; SqlText timestamp; SqlText timestamp;
        text_or_null source_conversation_id; text_or_null memory_type;
        SqlText content; SqlInt importance_level;
        if truthy (tags_value tags) then SqlText (json_dumps (tags_value tags))
        else SqlNull]) in
  ret (VStr memory_id).

(** *** [ScheduleDatabase] *)

Definition appointments_columns : list string :=
  ["appointment_id"; "timestamp_created"; "scheduled_datetime"; "title";
   "description"; "location"; "source_conversation_id"].

Definition reminders_columns : list string :=
  ["reminder_id"; "timestamp_created"; "due_datetime"; "content";
   "priority_level"; "source_conversation_id"].

Definition schedule_initialize_tables (db : database) : database :=
  create_table_if_not_exists "reminders" (nullable reminders_columns) ["reminder_id"]
    (create_table_if_not_exists "appointments"
       (nullable appointments_columns) ["appointment_id"] db).

Definition create_appointment (title scheduled_datetime : string)
    (description location source_conversation_id : option string)
    (appointment_id timestamp : string) : M database value :=
  do! execute_update
    (InsertInto "appointments" appointments_columns
       [SqlText appointment_id; SqlText timestamp; SqlText scheduled_datetime;
        SqlText title; text_or_null description; text_or_null location;
        text_or_null source_conversation_id]) in
  ret (VStr appointment_id).

End Stores.

End LlmIntegration.

(** ** The stores of [llama-ai-memory/src/ai_memory_core.py] *)

Module LlamaMemory.

Section Stores.

Variable json_dumps : value -> string.

(** *** [MCPToolCallDatabase] *)

Definition get_tool_call_history (tool_name : option string) (limit : Z)
  : M database (list value) :=
  let query :=
    if str_truthy tool_name
    then Select None "tool_calls" [Cond "tool_name" OpEq (text_or_null tool_name)]
           (Some "timestamp") (Some limit)
    else Select None "tool_calls" [] (Some "timestamp") (Some limit) in
  let! rows := execute_query query in
  ret (map dict_of_row rows).

(** *** [ConversationDatabase] *)

Definition messages_columns : list string :=
  ["message_id"; "conversation_id"; "timestamp"; "role"; "content"; "metadata"].

Definition conversations_columns : list string :=
  ["conversation_id"; "timestamp_created"; "title"].

Definition conversation_initialize_tables (db : database) : database :=
  create_table_if_not_exists "conversations"
    (nullable conversations_columns) ["conversation_id"]
    (create_table_if_not_exists "messages"
       (nullable messages_columns) ["message_id"] db).

(** [s or d] for an [Optional[str]] and a fresh identifier. *)
Definition or_fresh (o : option string) (d : string) : string :=
  match o with
  | Some s => if String.eqb s "" then d else s
  | None => d
  end.

(** [timestamp] and [message_id] are read first; [hour_ago] is SQLite's
    [datetime('now', '-1 hour')]; [uuid_session] and [uuid_conversation] are
    the identifiers drawn when the caller gave none. *)
Definition store_message (content role : string)
    (session_id conversation_id : option string) (metadata : value)
    (timestamp message_id hour_ago uuid_session uuid_conversation : string)
  : M database value :=
  let! duplicate :=
    (if str_truthy session_id then
       let! existing := execute_query
         (Select (Some ["message_id"]) "messages"
            [Cond "content" OpEq (SqlText content);
             Cond "role" OpEq (SqlText role);
             Cond "session_id" OpEq (text_or_null session_id);
             Cond "timestamp" OpGe (SqlText hour_ago)]
            None None) in
       match existing with
       | first :: _ =>
           let! existing_id := lift (row_item first "message_id") in
           ret (Some (VDict [("message_id", to_py existing_id);
                             ("duplicate", VBool true)]))
       | [] => ret None
       end
     else ret None) in
  match duplicate with
  | Some found => ret found
  | None =>
      let session_id := or_fresh session_id uuid_session in
      let conversation_id := or_fresh conversation_id uuid_conversation in
      do! execute_update
        (InsertInto "messages" messages_columns
           [SqlText message_id; SqlText conversation_id; SqlText timestamp;
            SqlText role; SqlText content;
            if truthy metadata then SqlText (json_dumps metadata) else SqlNull]) in
      ret (VDict [("message_id", VStr message_id);
                  ("conversation_id", VStr conversation_id);
                  ("session_id", VStr session_id);
                  ("duplicate", VBool false)])
  end.

(** [PersistentAIMemorySystem.store_conversation]: a forward to the
    conversation store. *)
Definition store_conversation := store_message.

(** *** [AIMemoryDatabase] *)

Definition curated_memories_columns : list string :=
  ["memory_id"; "timestamp_created"; "timestamp_updated"; "source_conversation_id";
   "memory_type"; "content"; "importance_level"; "tags"].

Definition memory_initialize_tables (db : database) : database :=
  create_table_if_not_exists "curated_memories"
    (nullable curated_memories_columns) ["memory_id"] db.

Definition tags_value (tags : option (list string)) : value :=
  match tags with
  | Some l => VList (map VStr l)
  | None => VNone
  end.

(** The duplicate-detection key of a memory, as its [WHERE] clause. *)
Definition memory_key (content : string) (memory_type source_conversation_id : option string)
  : list condition :=
  [Cond "content" OpEq (SqlText content);
   Cond "memory_type" OpEq (text_or_null memory_type);
   Cond "source_conversation_id" OpIs (text_or_null source_conversation_id)].

Definition create_memory (content : string) (memory_type : option string)
    (importance_level : Z) (tags : option (list string))
    (source_conversation_id : option string)
    (memory_id timestamp : string) : M database value :=
  let! existing := execute_query
    (Select (Some ["memory_id"]) "curated_memories"
       (memory_key content memory_type source_conversation_id) None None) in
  match existing with
  | first :: _ =>
      let! existing_id := lift (row_item first "memory_id") in
      ret (to_py existing_id)
  | [] =>
      do! execute_update
        (InsertInto "curated_memories" curated_memories_columns
           [SqlText memory_id; SqlText timestamp; SqlText timestamp;
            text_or_null source_conversation_id; text_or_null memory_type;
            SqlText content; SqlInt importance_level;
            if truthy (tags_value tags) then SqlText (json_dumps (tags_value tags))
            else SqlNull]) in
      ret (VStr memory_id)
  end.

(** *** [ScheduleDatabase] *)

Definition appointments_columns : list string :=
  ["appointment_id"; "timestamp_created"; "scheduled_datetime"; "title";
   "description"; "location"; "source_conversation_id"].

Definition reminders_columns : list (string * sqlvalue) :=
  nullable ["reminder_id"; "timestamp_created"; "due_datetime"; "content";
            "priority_level"; "source_conversation_id"]
  ++ [("completed", SqlInt 0)].

Definition schedule_initialize_tables (db : database) : database :=
  create_table_if_not_exists "reminders" reminders_columns ["reminder_id"]
    (create_table_if_not_exists "appointments"
       (nullable appointments_columns) ["appointment_id"] db).

(** The duplicate-detection key of an appointment. *)
Definition appointment_key (title scheduled_datetime : string)
    (location source_conversation_id : option string) : list condition :=
  [Cond "title" OpEq (SqlText title);
   Cond "scheduled_datetime" OpEq (SqlText scheduled_datetime);
   Cond "location" OpIs (text_or_null location);
   Cond "source_conversation_id" OpIs (text_or_null source_conversation_id)].

Definition create_appointment (title scheduled_datetime : string)
    (description location source_conversation_id : option string)
    (appointment_id timestamp : string) : M database value :=
  let! existing := execute_query
    (Select (Some ["appointment_id"]) "appointments"
       (appointment_key title scheduled_datetime location source_conversation_id)
       None None) in
  match existing with
  | first :: _ =>
      let! existing_id := lift (row_item first "appointment_id") in
      ret (to_py existing_id)
  | [] =>
      do! execute_update
        (InsertInto "appointments" appointments_columns
           [SqlText appointment_id; SqlText timestamp; SqlText scheduled_datetime;
            SqlText title; text_or_null description; text_or_null location;
            text_or_null source_conversation_id]) in
      ret (VStr appointment_id)
  end.

End Stores.

End LlamaMemory.

(** ** The request dispatcher of [mcp_server.py] *)

Module McpServer.

(** The request as the dispatcher reads it: [request.get("tool")], a tool
    name or [None], and [request.get("parameters")]. *)
Record request : Type := Request {
  req_tool : option string;
  req_parameters : value
}.

Section Dispatcher.

Context {St : Type}.

(** What the dispatcher sees of [self.memory_system]: its coroutine methods
    by attribute name ([None] for an attribute that is missing or is not a
    coroutine function), called with their positional arguments, and
    [mcp_db.get_tool_call_history], called with [limit] ([None] when either
    attribute is missing). *)
Record memory_system : Type := MemorySystem {
  coroutine : string -> option (list value -> M St value);
  mcp_db_get_tool_call_history : option (value -> M St (list value))
}.

Variable ms : memory_system.

Definition _log_call (tool_name : string) (parameters execution_time_ms : value)
    (status : string) (result error_message client_id : value) : M St unit :=
  try_except
    (match coroutine ms "log_tool_call" with
     | Some log_tool_call =>
         do! log_tool_call
           [VStr tool_name; or_ parameters (VDict []); execution_time_ms;
            VStr status; result; error_message; client_id] in
         ret tt
     | None => ret tt
     end)
    (fun _ => ret tt).

Definition _call_method (method_name : string) (args : list value) : M St value :=
  match coroutine ms method_name with
  | None =>
      raise (Exc "AttributeError"
               ("Method " +:+ method_name +:+ " not available on memory system"))
  | Some method => method args
  end.

Definition tool_is (tool : option string) (name : string) : bool :=
  match tool with
  | Some t => String.eqb t name
  | None => false
  end.

(** [str(tool)], as the f-string formats it. *)
Definition tool_str (tool : option string) : string :=
  match tool with
  | Some t => t
  | None => "None"
  end.

(** [tool or "unknown"]. *)
Definition tool_or_unknown (tool : option string) : string :=
  match tool with
  | Some t => if String.eqb t "" then "unknown" else t
  | None => "unknown"
  end.

Definition success (result : value) : value :=
  VDict [("status", VStr "success"); ("result", result)].

Definition error (message : string) : value :=
  VDict [("status", VStr "error"); ("error", VStr message)].

(** [msg1.get('conversation_id') if isinstance(msg1, dict) else None]. *)
Definition conversation_id_of (msg1 : value) : value :=
  match msg1 with
  | VDict d => items_get d "conversation_id" VNone
  | _ => VNone
  end.

Definition handle_mcp_request (req : request) (client_id : option string)
  : M St value :=
  let tool := req_tool req in
  let params := or_ (req_parameters req) (VDict []) in
  let client := of_option_string client_id in
  try_except
    (if tool_is tool "store_memory" || tool_is tool "create_memory" then
       let! content := lift (get params "content" VNone) in
       let! content :=
         (if truthy content then ret content
          else lift (get params "memory_content" VNone)) in
       let! memory_type := lift (get params "memory_type" VNone) in
       let! importance := lift (get params "importance_level" (VInt 5)) in
       let! tags := lift (get params "tags" VNone) in
       let! source := lift (get params "source_conversation_id" VNone) in
       let! res := _call_method "create_memory"
                     [content; memory_type; importance; tags; source] in
       do! _log_call (tool_str tool) params VNone "success" res VNone client in
       ret (success res)
     else if tool_is tool "search_memories" then
       let! query := lift (get params "query" VNone) in
       let! limit := lift (get params "limit" (VInt 10)) in
       let! res := _call_method "search_memories" [query; limit] in
       do! _log_call (tool_str tool) params VNone "success" res VNone client in
       ret (success res)
     else if tool_is tool "get_system_health" then
       let! res := _call_method "get_system_health" [] in
       do! _log_call (tool_str tool) params VNone "success" res VNone client in
       ret (success res)
     else if tool_is tool "get_tool_call_history" then
       let! limit := lift (get params "limit" (VInt 50)) in
       let! rows :=
         try_except
           (match mcp_db_get_tool_call_history ms with
            | Some get_tool_call_history => get_tool_call_history limit
            | None => ret []
            end)
           (fun _ => ret []) in
       do! _log_call (tool_str tool) params VNone "success"
             (VDict [("history_count", VInt (Z.of_nat (length rows)))])
             VNone client in
       ret (success (VDict [("history", VList rows)]))
     else if tool_is tool "store_conversation" then
       let! content := lift (get params "user_message" VNone) in
       let! content :=
         (if truthy content then ret content
          else lift (get params "content" VNone)) in
       let! assistant := lift (get params "assistant_response" VNone) in
       let! session_id := lift (get params "session_id" VNone) in
       let! metadata := lift (get params "metadata" VNone) in
       let! msg1 := _call_method "store_conversation"
                      [content; VStr "user"; session_id; VNone; metadata] in
       do! (if truthy assistant then
              let! metadata := lift (get params "metadata" VNone) in
              do! _call_method "store_conversation"
                    [assistant; VStr "assistant"; session_id; VNone; metadata] in
              ret tt
            else ret tt) in
       do! _log_call (tool_str tool) params VNone "success"
             (VDict [("conversation_id", conversation_id_of msg1)]) VNone client in
       ret (success (VDict [("conversation_id", conversation_id_of msg1)]))
     else
       ret (error ("Unknown tool: " +:+ tool_str tool)))
    (fun e =>
       do! _log_call (tool_or_unknown tool) params VNone "error" VNone
             (VStr (exc_message e)) client in
       ret (error (exc_message e))).

End Dispatcher.

Arguments memory_system : clear implicits.

End McpServer.

(** ** The coordinator's telemetry surface *)

Module Coordinator.

Import McpServer.

Section Telemetry.

Variable json_dumps : value -> string.

(** State of the domain stores other than the tool-call store. *)
Variable R : Type.

(** The [n]-th telemetry call draws [uuid4 n] and reads the clock as
    [now n] (ISO timestamp) and [today n] (ISO date). *)
Variables uuid4 now today : nat -> string.

Record world : Type := World {
  mcp_db : database;
  telemetry_calls : nat;
  domain : R
}.

Definition on_mcp_db {A : Type} (c : M database A) : M world A :=
  fun w =>
    let (db, r) := c (mcp_db w) in
    (World db (telemetry_calls w) (domain w), r).

Definition tick : M world nat :=
  fun w => (World (mcp_db w) (S (telemetry_calls w)) (domain w), Ok (telemetry_calls w)).

Definition as_text (v : value) : option (option string) :=
  match v with
  | VNone => Some None
  | VStr s => Some (Some s)
  | _ => None
  end.

Definition as_number (v : value) : option (option number) :=
  match v with
  | VNone => Some None
  | VInt z => Some (Some (NInt z))
  | VFloat q => Some (Some (NFloat q))
  | _ => None
  end.

Definition ill_typed : exception := Exc "TypeError" "argument outside its annotated type".

(** Modelled from the spec: [PersistentAIMemorySystem.log_tool_call], which
    the sources call but do not contain.  Section 4.4 makes every coordinator
    method a direct forward to the owning store with no added logic; the
    arguments arrive in the order [_log_call] passes them (tool name,
    parameters, execution time, status, result, error message, client id)
    and reach [MCPToolCallDatabase.log_tool_call] under the same names. *)
Definition log_tool_call (args : list value) : M world value :=
  match args with
  | [VStr tool_name; parameters; execution_time_ms; VStr status; result;
     error_message; client_id] =>
      match as_number execution_time_ms, as_text error_message, as_text client_id with
      | Some time, Some message, Some client =>
          let! n := tick in
          let! call_id := on_mcp_db
            (LlmIntegration.log_tool_call json_dumps tool_name parameters result
               status time message client (uuid4 n) (now n) (today n)) in
          ret (VStr call_id)
      | _, _, _ => raise ill_typed
      end
  | _ => raise ill_typed
  end.

(** Modelled from the spec: the coordinator's [mcp_db] attribute, the
    tool-call store, whose [get_tool_call_history(limit=...)] the dispatcher
    calls.  [limit] is an [int] by its annotation. *)
Definition get_tool_call_history (limit : value) : M world (list value) :=
  match limit with
  | VInt k => on_mcp_db (LlamaMemory.get_tool_call_history None k)
  | _ => raise ill_typed
  end.

(** A coordinator with the telemetry surface above and the primary
    methods [primary]. *)
Definition with_telemetry (primary : string -> option (list value -> M world value))
  : memory_system world :=
  MemorySystem
    (fun name => if String.eqb name "log_tool_call" then Some log_tool_call
                 else primary name)
    (Some get_tool_call_history).

(** Primary methods of a coordinator that offers [search_memories] alone,
    with a fixed outcome: a returned value or a raised exception. *)
Definition search_only (outcome : result value)
  : string -> option (list value -> M world value) :=
  fun name => if String.eqb name "search_memories" then Some (fun _ => lift outcome)
              else None.

End Telemetry.

Arguments World {R} _ _ _.
Arguments mcp_db {R} _.
Arguments telemetry_calls {R} _.
Arguments domain {R} _.

End Coordinator.

(** ** The dispatcher of [mcp_server_clean.py] *)

Module McpServerClean.

Section Dispatcher.

Context {St : Type}.

Variable ms : McpServer.memory_system St.

Definition _log_call (tool_name : string) (parameters execution_time_ms : value)
    (status : string) (result error_message client_id : value) : M St unit :=
  try_except
    (match McpServer.coroutine ms "log_tool_call" with
     | Some log_tool_call =>
         do! log_tool_call
           [VStr tool_name; or_ parameters (VDict []); execution_time_ms;
            VStr status; result; error_message; client_id] in
         ret tt
     | None => ret tt
     end)
    (fun _ => ret tt).

Definition _call_method (method_name : string) (args : list value) : M St value :=
  match McpServer.coroutine ms method_name with
  | None =>
      raise (Exc "AttributeError"
               ("Method " +:+ method_name +:+ " not available on memory system"))
  | Some method => method args
  end.

Definition handle_mcp_request (req : McpServer.request) (client_id : option string)
  : M St value :=
  let tool := McpServer.req_tool req in
  let params := or_ (McpServer.req_parameters req) (VDict []) in
  let client := of_option_string client_id in
  try_except
    (if McpServer.tool_is tool "store_memory" || McpServer.tool_is tool "create_memory"
     then
       let! content := lift (get params "content" VNone) in
       let! content :=
         (if truthy content then ret content
          else lift (get params "memory_content" VNone)) in
       let! memory_type := lift (get params "memory_type" VNone) in
       let! importance := lift (get params "importance_level" (VInt 5)) in
       let! tags := lift (get params "tags" VNone) in
       let! source := lift (get params "source_conversation_id" VNone) in
       let! res := _call_method "create_memory"
                     [content; memory_type; importance; tags; source] in
       do! _log_call (McpServer.tool_str tool) params VNone "success" res VNone client in
       ret (McpServer.success res)
     else if McpServer.tool_is tool "get_tool_call_history" then
       let! limit := lift (get params "limit" (VInt 50)) in
       let! rows :=
         try_except
           (match McpServer.mcp_db_get_tool_call_history ms with
            | Some get_tool_call_history => get_tool_call_history limit
            | None => ret []
            end)
           (fun _ => ret []) in
       do! _log_call (McpServer.tool_str tool) params VNone "success"
             (VDict [("history_count", VInt (Z.of_nat (length rows)))])
             VNone client in
       ret (McpServer.success (VDict [("history", VList rows)]))
     else
       ret (McpServer.error ("Unknown tool: " +:+ McpServer.tool_str tool)))
    (fun e =>
       do! _log_call (McpServer.tool_or_unknown tool) params VNone "error" VNone
             (VStr (exc_message e)) client in
       ret (McpServer.error (exc_message e))).

End Dispatcher.

End McpServerClean.

(** ** The dispatcher of [mcp_server.py] under exceptions of any class

    The clauses of the dispatcher are [except Exception]: they catch the
    instances of [Exception] and let every other exception through.  Above,
    a coroutine of the coordinator raises instances of [Exception] only;
    here it may also raise an exception outside that class. *)

Module Escaping.

(** An exception whose class is outside [Exception]:
    [asyncio.CancelledError], [KeyboardInterrupt], [SystemExit],
    [GeneratorExit]. *)
Record base_exception : Type := BaseExc { base_class : string; base_message : string }.

(** What awaiting a coroutine ends in: a value or an instance of
    [Exception], as [result] has them, or an exception outside
    [Exception]. *)
Inductive outcome (A : Type) : Type :=
| Ends (r : result A)
| Escapes (b : base_exception).
Arguments Ends {A} r.
Arguments Escapes {A} b.

Definition T (S A : Type) : Type := S -> S * outcome A.

Definition ret {S A : Type} (a : A) : T S A := fun s => (s, Ends (Ok a)).

Definition raise {S A : Type} (e : exception) : T S A := fun s => (s, Ends (Raise e)).

Definition bind {S A B : Type} (c : T S A) (k : A -> T S B) : T S B :=
  fun s =>
    match c s with
    | (s', Ends (Ok a)) => k a s'
    | (s', Ends (Raise e)) => (s', Ends (Raise e))
    | (s', Escapes b) => (s', Escapes b)
    end.

(** [try: body / except Exception as e: handler e]. *)
Definition try_except {S A : Type} (body : T S A) (handler : exception -> T S A) : T S A :=
  fun s =>
    match body s with
    | (s', Ends (Ok a)) => (s', Ends (Ok a))
    | (s', Ends (Raise e)) => handler e s'
    | (s', Escapes b) => (s', Escapes b)
    end.

Definition lift {S A : Type} (r : result A) : T S A := fun s => (s, Ends r).

Set Warnings "-notation-overridden".
Local Notation "'let!' x ':=' c 'in' k" := (bind c (fun x => k))
  (at level 10, x name, c at level 100, k at level 200).
Local Notation "'do!' c 'in' k" := (bind c (fun _ => k))
  (at level 10, c at level 100, k at level 200).
Set Warnings "notation-overridden".

Section Dispatcher.

Context {St : Type}.

(** [self.memory_system], as [McpServer.memory_system] has it, with
    coroutines that may end in an exception of any class. *)
Record memory_system : Type := MemorySystem {
  coroutine : string -> option (list value -> T St value);
  mcp_db_get_tool_call_history : option (value -> T St (list value))
}.

Variable ms : memory_system.

Definition _log_call (tool_name : string) (parameters execution_time_ms : value)
    (status : string) (result error_message client_id : value) : T St unit :=
  try_except
    (match coroutine ms "log_tool_call" with
     | Some log_tool_call =>
         do! log_tool_call
           [VStr tool_name; or_ parameters (VDict []); execution_time_ms;
            VStr status; result; error_message; client_id] in
         ret tt
     | None => ret tt
     end)
    (fun _ => ret tt).

Definition _call_method (method_name : string) (args : list value) : T St value :=
  match coroutine ms method_name with
  | None =>
      raise (Exc "AttributeError"
               ("Method " +:+ method_name +:+ " not available on memory system"))
  | Some method => method args
  end.

Definition handle_mcp_request (req : McpServer.request) (client_id : option string)
  : T St value :=
  let tool := McpServer.req_tool req in
  let params := or_ (McpServer.req_parameters req) (VDict []) in
  let client := of_option_string client_id in
  try_except
    (if McpServer.tool_is tool "store_memory" || McpServer.tool_is tool "create_memory"
     then
       let! content := lift (get params "content" VNone) in
       let! content :=
         (if truthy content then ret content
          else lift (get params "memory_content" VNone)) in
       let! memory_type := lift (get params "memory_type" VNone) in
       let! importance := lift (get params "importance_level" (VInt 5)) in
       let! tags := lift (get params "tags" VNone) in
       let! source := lift (get params "source_conversation_id" VNone) in
       let! res := _call_method "create_memory"
                     [content; memory_type; importance; tags; source] in
       do! _log_call (McpServer.tool_str tool) params VNone "success" res VNone client in
       ret (McpServer.success res)
     else if McpServer.tool_is tool "search_memories" then
       let! query := lift (get params "query" VNone) in
       let! limit := lift (get params "limit" (VInt 10)) in
       let! res := _call_method "search_memories" [query; limit] in
       do! _log_call (McpServer.tool_str tool) params VNone "success" res VNone client in
       ret (McpServer.success res)
     else if McpServer.tool_is tool "get_system_health" then
       let! res := _call_method "get_system_health" [] in
       do! _log_call (McpServer.tool_str tool) params VNone "success" res VNone client in
       ret (McpServer.success res)
     else if McpServer.tool_is tool "get_tool_call_history" then
       let! limit := lift (get params "limit" (VInt 50)) in
       let! rows :=
         try_except
           (match mcp_db_get_tool_call_history ms with
            | Some get_tool_call_history => get_tool_call_history limit
            | None => ret []
            end)
           (fun _ => ret []) in
       do! _log_call (McpServer.tool_str tool) params VNone "success"
             (VDict [("history_count", VInt (Z.of_nat (length rows)))])
             VNone client in
       ret (McpServer.success (VDict [("history", VList rows)]))
     else if McpServer.tool_is tool "store_conversation" then
       let! content := lift (get params "user_message" VNone) in
       let! content :=
         (if truthy content then ret content
          else lift (get params "content" VNone)) in
       let! assistant := lift (get params "assistant_response" VNone) in
       let! session_id := lift (get params "session_id" VNone) in
       let! metadata := lift (get params "metadata" VNone) in
       let! msg1 := _call_method "store_conversation"
                      [content; VStr "user"; session_id; VNone; metadata] in
       do! (if truthy assistant then
              let! metadata := lift (get params "metadata" VNone) in
              do! _call_method "store_conversation"
                    [assistant; VStr "assistant"; session_id; VNone; metadata] in
              ret tt
            else ret tt) in
       do! _log_call (McpServer.tool_str tool) params VNone "success"
             (VDict [("conversation_id", McpServer.conversation_id_of msg1)])
             VNone client in
       ret (McpServer.success
              (VDict [("conversation_id", McpServer.conversation_id_of msg1)]))
     else
       ret (McpServer.error ("Unknown tool: " +:+ McpServer.tool_str tool)))
    (fun e =>
       do! _log_call (McpServer.tool_or_unknown tool) params VNone "error" VNone
             (VStr (exc_message e)) client in
       ret (McpServer.error (exc_message e))).

End Dispatcher.

Arguments memory_system : clear implicits.

(** A coordinator whose coroutines raise instances of [Exception] only, seen
    as one whose coroutines may raise anything. *)
Definition of_memory_system {St : Type} (ms : McpServer.memory_system St)
  : memory_system St :=
  MemorySystem
    (fun name =>
       match McpServer.coroutine ms name with
       | Some method => Some (fun args st => let (st', r) := method args st in (st', Ends r))
       | None => None
       end)
    (match McpServer.mcp_db_get_tool_call_history ms with
     | Some read => Some (fun limit st => let (st', r) := read limit st in (st', Ends r))
     | None => None
     end).

End Escaping.

(** ** Ascending [ORDER BY] *)

Module SqlAsc.

(** [ORDER BY key ASC]: insertion sort; rows with equal keys keep their
    rowid order. *)
Fixpoint insert_asc (key : string) (r : row) (sorted : list row) : list row :=
  match sorted with
  | [] => [r]
  | x :: rest =>
      if sql_leb (column r key) (column x key)
      then r :: x :: rest
      else x :: insert_asc key r rest
  end.

Definition order_by_asc (key : string) (rows : list row) : list row :=
  foldr (insert_asc key) [] rows.

(** [execute_query] for [SELECT * FROM tbl WHERE ... ORDER BY key ASC]. *)
Definition execute_query_asc (tbl : string) (where_ : list condition) (key : string)
  : M database (list row) :=
  fun db =>
    match db !! tbl with
    | None => (db, Raise (OperationalError ("no such table: " +:+ tbl)))
    | Some t =>
        match unknown_column t (map cond_column where_ ++ [key]) with
        | Some c => (db, Raise (OperationalError ("no such column: " +:+ c)))
        | None =>
            (db, Ok (order_by_asc key (List.filter (satisfies where_) (tbl_rows t))))
        end
    end.

End SqlAsc.

(** ** More of [llama-ai-memory/src/ai_memory_core.py] *)

Module LlamaStores.

Section Stores.

Variable json_dumps : value -> string.

(** *** [ConversationDatabase] *)

Definition get_recent_messages (limit : Z) (session_id : option string)
  : M database (list value) :=
  let query :=
    if str_truthy session_id
    then Select None "messages" [Cond "session_id" OpEq (text_or_null session_id)]
           (Some "timestamp") (Some limit)
    else Select None "messages" [] (Some "timestamp") (Some limit) in
  let! rows := execute_query query in
  ret (map dict_of_row rows).

(** *** [ScheduleDatabase] *)

(** The duplicate-detection key of a reminder. *)
Definition reminder_key (content due_datetime : string)
    (source_conversation_id : option string) : list condition :=
  [Cond "content" OpEq (SqlText content);
   Cond "due_datetime" OpEq (SqlText due_datetime);
   Cond "source_conversation_id" OpIs (text_or_null source_conversation_id)].

Definition create_reminder (content due_datetime : string) (priority_level : Z)
    (source_conversation_id : option string)
    (reminder_id timestamp : string) : M database value :=
  let! existing := execute_query
    (Select (Some ["reminder_id"]) "reminders"
       (reminder_key content due_datetime source_conversation_id) None None) in
  match existing with
  | first :: _ =>
      let! existing_id := lift (row_item first "reminder_id") in
      ret (to_py existing_id)
  | [] =>
      do! execute_update
        (InsertInto "reminders"
           ["reminder_id"; "timestamp_created"; "due_datetime"; "content";
            "priority_level"; "source_conversation_id"]
           [SqlText reminder_id; SqlText timestamp; SqlText due_datetime;
            SqlText content; SqlInt priority_level;
            text_or_null source_conversation_id]) in
      ret (VStr reminder_id)
  end.

Definition get_active_reminders : M database (list value) :=
  let! rows := SqlAsc.execute_query_asc "reminders"
                 [Cond "completed" OpEq (SqlInt 0)] "due_datetime" in
  ret (map dict_of_row rows).

(** *** [VSCodeProjectDatabase] *)

Definition project_sessions_columns : list string :=
  ["session_id"; "start_timestamp"; "workspace_path"; "active_files"; "git_branch";
   "session_summary"].

Definition development_conversations_columns : list string :=
  ["conversation_id"; "session_id"; "timestamp"; "chat_context_id";
   "conversation_content"; "decisions_made"; "code_changes"].

Definition project_initialize_tables (db : database) : database :=
  create_table_if_not_exists "development_conversations"
    (nullable development_conversations_columns) ["conversation_id"]
    (create_table_if_not_exists "project_sessions"
       (nullable project_sessions_columns) ["session_id"] db).

Definition files_value (files : option (list string)) : value :=
  match files with
  | Some l => VList (map VStr l)
  | None => VNone
  end.

Definition save_development_session (workspace_path : string)
    (active_files : option (list string)) (git_branch session_summary : option string)
    (session_id timestamp : string) : M database value :=
  do! execute_update
    (InsertInto "project_sessions" project_sessions_columns
       [SqlText session_id; SqlText timestamp; SqlText workspace_path;
        if truthy (files_value active_files)
        then SqlText (json_dumps (files_value active_files)) else SqlNull;
        text_or_null git_branch; text_or_null session_summary]) in
  ret (VStr session_id).

(** [conversation_id] and [timestamp] are read first; [uuid_session] is the
    identifier drawn when the caller gave no session. *)
Definition store_development_conversation (content : string)
    (session_id chat_context_id decisions_made : option string) (code_changes : value)
    (conversation_id timestamp uuid_session : string) : M database value :=
  let session_id := LlamaMemory.or_fresh session_id uuid_session in
  do! execute_update
    (InsertInto "development_conversations" development_conversations_columns
       [SqlText conversation_id; SqlText session_id; SqlText timestamp;
        text_or_null chat_context_id; SqlText content; text_or_null decisions_made;
        if truthy code_changes then SqlText (json_dumps code_changes) else SqlNull]) in
  ret (VStr conversation_id).

Definition store_project_insight (content : string) (insight_type : option string)
    (related_files : option (list string)) (importance_level : Z)
    (source_conversation_id : option string)
    (insight_id timestamp : string) : M database value :=
  let! existing := execute_query
    (Select (Some ["insight_id"]) "project_insights"
       [Cond "content" OpEq (SqlText content);
        Cond "insight_type" OpIs (text_or_null insight_type);
        Cond "source_conversation_id" OpIs (text_or_null source_conversation_id)]
       None None) in
  match existing with
  | first :: _ =>
      let! existing_id := lift (row_item first "insight_id") in
      ret (to_py existing_id)
  | [] =>
      do! execute_update
        (InsertInto "project_insights"
           ["insight_id"; "timestamp_created"; "timestamp_updated"; "insight_type";
            "content"; "related_files"; "source_conversation_id"; "importance_level"]
           [SqlText insight_id; SqlText timestamp; SqlText timestamp;
            text_or_null insight_type; SqlText content;
            if truthy (files_value related_files)
            then SqlText (json_dumps (files_value related_files)) else SqlNull;
            text_or_null source_conversation_id; SqlInt importance_level]) in
      ret (VStr insight_id)
  end.

End Stores.

End LlamaStores.

(** ** Vocabulary of the properties *)

(** The tool names [handle_mcp_request] has a branch for. *)
Definition supported_tools : list string :=
  ["store_memory"; "create_memory"; "search_memories"; "get_system_health";
   "get_tool_call_history"; "store_conversation"].


(** The coordinator [ms] with its [log_tool_call] attribute replaced. *)
Definition with_log_tool_call {St : Type} (ms : McpServer.memory_system St)
    (log : option (list value -> M St value)) : McpServer.memory_system St :=
  McpServer.MemorySystem
    (fun name => if String.eqb name "log_tool_call" then log
                 else McpServer.coroutine ms name)
    (McpServer.mcp_db_get_tool_call_history ms).

(** The integers an SQLite INTEGER holds: the signed 64-bit ones. *)
Definition int64 (z : Z) : Prop := - 2 ^ 63 <= z < 2 ^ 63.

(** An execution time [log_tool_call] can store: none, zero, or a number
    whose integer part is a signed 64-bit integer. *)
Definition storable_time (time : option number) : Prop :=
  match time with
  | Some n => number_truthy n = true -> int64 (int_of_number n)
  | None => True
  end.

(** Earlier rows of a descending list have the larger key. *)
Definition descending (key : string) (r1 r2 : row) : Prop :=
  sql_leb (column r2 key) (column r1 key) = true.

(** No row carries [id] in its column [pk]: what a fresh [uuid4] gives. *)
Definition fresh (pk id : string) (rows : list row) : Prop :=
  Forall (fun r => column r pk <> SqlText id) rows.

(** The rows a duplicate-detection key selects. *)
Definition matching (key : list condition) (rows : list row) : list row :=
  List.filter (satisfies key) rows.

(** The rows of a table of a database file. *)
Definition rows_of (tbl : string) (db : database) : list row :=
  match db !! tbl with
  | Some t => tbl_rows t
  | None => []
  end.

(** The tool-call database file: the schema [initialize_tables] creates,
    holding the logged calls and the daily statistics. *)
Definition tool_call_db (calls stats : list row) : database :=
  <["tool_calls" :=
      Table (nullable LlmIntegration.tool_calls_columns) ["call_id"] calls]>
    (<["tool_usage_stats" :=
         Table (nullable LlmIntegration.tool_usage_stats_columns)
           ["tool_name"; "date"] stats]> ∅).

(** The row of the statistics table for a tool and a day. *)
Definition stat_row (tool_name date : string) (calls successes failures : Z) : row :=
  [("tool_name", SqlText tool_name); ("date", SqlText date);
   ("call_count", SqlInt calls); ("success_count", SqlInt successes);
   ("failure_count", SqlInt failures)].

(** The curated-memory database file, with its rows. *)
Definition memory_db (rows : list row) : database :=
  <["curated_memories" :=
      Table (nullable LlamaMemory.curated_memories_columns) ["memory_id"] rows]> ∅.

(** The schedule database file of the [llama-ai-memory] copy. *)
Definition schedule_db (appointments reminders : list row) : database :=
  <["reminders" := Table LlamaMemory.reminders_columns ["reminder_id"] reminders]>
    (<["appointments" :=
         Table (nullable LlamaMemory.appointments_columns) ["appointment_id"]
           appointments]> ∅).

(** The schedule database file of the [ai-memory-llm-integration] copy. *)
Definition integration_schedule_db (appointments reminders : list row) : database :=
  <["reminders" :=
      Table (nullable LlmIntegration.reminders_columns) ["reminder_id"] reminders]>
    (<["appointments" :=
         Table (nullable LlmIntegration.appointments_columns) ["appointment_id"]
           appointments]> ∅).

(** The conversation database file of the [llama-ai-memory] copy. *)
Definition conversation_db (messages conversations : list row) : database :=
  <["conversations" :=
      Table (nullable LlamaMemory.conversations_columns) ["conversation_id"]
        conversations]>
    (<["messages" :=
         Table (nullable LlamaMemory.messages_columns) ["message_id"] messages]> ∅).

(** The conversation database file of the [ai-memory-llm-integration] copy. *)
Definition integration_conversation_db (messages : list row) : database :=
  <["messages" :=
      Table (nullable LlmIntegration.messages_columns) ["message_id"] messages]> ∅.

(** The row [create_appointment] inserts. *)
Definition appointment_row (appointment_id timestamp scheduled_datetime title : string)
    (description location source : option string) : row :=
  [("appointment_id", SqlText appointment_id); ("timestamp_created", SqlText timestamp);
   ("scheduled_datetime", SqlText scheduled_datetime); ("title", SqlText title);
   ("description", text_or_null description); ("location", text_or_null location);
   ("source_conversation_id", text_or_null source)].

(** No two appointments share a key. *)
Definition unique_appointments (rows : list row) : Prop :=
  forall title datetime location source,
    (length (matching (LlamaMemory.appointment_key title datetime location source) rows)
     <= 1)%nat.

(** No two memories share a key whose memory type is not NULL. *)
Definition unique_memories (rows : list row) : Prop :=
  forall content memory_type source,
    (length (matching (LlamaMemory.memory_key content (Some memory_type) source) rows)
     <= 1)%nat.

(** The [WHERE] clause that selects the row of a tool and a day. *)
Definition stats_key (tool_name today : string) : list condition :=
  [Cond "tool_name" OpEq (SqlText tool_name); Cond "date" OpEq (SqlText today)].

(** The statistics rows once a call with [status] has been counted. *)
Definition stats_after (tool_name status today : string) (stats : list row) : list row :=
  match matching (stats_key tool_name today) stats with
  | _ :: _ =>
      map (fun r => if satisfies (stats_key tool_name today) r
                    then add_to [("call_count", SqlInt 1);
                                 ("success_count",
                                  case_when_eq (SqlText status) (SqlText "success"));
                                 ("failure_count",
                                  case_when_eq (SqlText status) (SqlText "failure"))] r
                    else r) stats
  | [] =>
      stats ++ [stat_row tool_name today 1
                  (if String.eqb status "success" then 1 else 0)
                  (if String.eqb status "failure" then 1 else 0)]
  end.

(** Rows of the statistics table whose counters add up. *)
Definition stat_consistent (r : row) : Prop :=
  exists tool_name date calls successes failures,
    r = stat_row tool_name date calls successes failures
    /\ calls = successes + failures.

(** A serializer for the concrete examples, none of which reads the
    serialized text. *)
Definition sample_json_dumps (v : value) : string := type_name v.

Section Reachable.

Variable json_dumps : value -> string.

(** The row [create_memory] inserts. *)
Definition memory_row (memory_id timestamp : string) (source memory_type : option string)
    (content : string) (importance : Z) (tags : option (list string)) : row :=
  [("memory_id", SqlText memory_id); ("timestamp_created", SqlText timestamp);
   ("timestamp_updated", SqlText timestamp);
   ("source_conversation_id", text_or_null source);
   ("memory_type", text_or_null memory_type); ("content", SqlText content);
   ("importance_level", SqlInt importance);
   ("tags", if truthy (LlamaMemory.tags_value tags)
            then SqlText (json_dumps (LlamaMemory.tags_value tags)) else SqlNull)].

(** The row [store_message] inserts. *)
Definition message_row (message_id : string) (conversation_id : option string)
    (timestamp role content : string) (metadata : value) : row :=
  [("message_id", SqlText message_id); ("conversation_id", text_or_null conversation_id);
   ("timestamp", SqlText timestamp); ("role", SqlText role); ("content", SqlText content);
   ("metadata", if truthy metadata then SqlText (json_dumps metadata) else SqlNull)].

(** The record [log_tool_call] appends. *)
Definition tool_call_row (call_id timestamp : string) (client_id : option string)
    (tool_name : string) (parameters result : value) (status : string)
    (execution_time_ms : option number) (error_message : option string) : row :=
  [("call_id", SqlText call_id); ("timestamp", SqlText timestamp);
   ("client_id", text_or_null client_id); ("tool_name", SqlText tool_name);
   ("parameters", SqlText (json_dumps parameters));
   ("result", if truthy result then SqlText (json_dumps result) else SqlNull);
   ("status", SqlText status);
   ("execution_time_ms",
    match execution_time_ms with
    | Some n => if number_truthy n then SqlInt (int_of_number n) else SqlNull
    | None => SqlNull
    end);
   ("error_message", text_or_null error_message)].

(** The memory stores a single writer can reach from a new file. *)
Inductive memory_reachable : database -> Prop :=
| memory_new : memory_reachable (LlamaMemory.memory_initialize_tables ∅)
| memory_created db content memory_type importance tags source memory_id timestamp :
    memory_reachable db ->
    memory_reachable
      (fst (LlamaMemory.create_memory json_dumps content memory_type importance tags
              source memory_id timestamp db)).

(** The schedule stores a single writer can reach from a new file, by
    the two operations that write it: [create_appointment] and
    [create_reminder]. *)
Inductive schedule_reachable : database -> Prop :=
| schedule_new : schedule_reachable (LlamaMemory.schedule_initialize_tables ∅)
| schedule_created db title datetime description location source appointment_id timestamp :
    schedule_reachable db ->
    schedule_reachable
      (fst (LlamaMemory.create_appointment title datetime description location source
              appointment_id timestamp db))
| schedule_reminded db content due_datetime priority source reminder_id timestamp :
    schedule_reachable db ->
    schedule_reachable
      (fst (LlamaStores.create_reminder content due_datetime priority source
              reminder_id timestamp db)).

End Reachable.


(** The tools answered by one coordinator coroutine, and that coroutine. *)
Definition primary_tools : list string :=
  ["store_memory"; "create_memory"; "search_memories"; "get_system_health";
   "store_conversation"].

Definition method_of (tool : string) : string :=
  if String.eqb tool "store_memory" then "create_memory" else tool.

Definition is_dict (v : value) : bool :=
  match v with
  | VDict _ => true
  | _ => false
  end.


(** *** Sample data of the concrete instances *)


(** A coordinator with no method at all. *)
Definition bare_system : McpServer.memory_system unit :=
  McpServer.MemorySystem (fun _ => None) None.

(** One logged call. *)
Definition sample_call : row :=
  tool_call_row sample_json_dumps "c1" "2025-03-01T10:00:00" None "create_memory"
    (VDict []) (VStr "m1") "success" None None.

(** A coordinator over the tool-call database file whose [mcp_db] is the
    tool-call store and which has no coroutine of its own; the store method
    is given the [int] its annotation asks for. *)
Definition store_backed_system : McpServer.memory_system database :=
  McpServer.MemorySystem
    (fun _ => None)
    (Some (fun limit =>
             match limit with
             | VInt k => LlamaMemory.get_tool_call_history None k
             | _ => raise (Exc "TypeError" "limit must be an int")
             end)).

(** A coordinator over the same file with no [mcp_db] attribute, as the
    [PersistentAIMemorySystem] of the [llama-ai-memory] copy, which names
    its tool-call store [mcp_tool_call_db]. *)
Definition unattached_system : McpServer.memory_system database :=
  McpServer.MemorySystem (fun _ => None) None.

(** *** Vocabulary of the further properties *)

(** The tool names the dispatcher of [mcp_server_clean.py] has a branch for. *)
Definition clean_tools : list string :=
  ["store_memory"; "create_memory"; "get_tool_call_history"].

(** The tools whose branch reads the parameters. *)
Definition parameter_tools : list string :=
  ["store_memory"; "create_memory"; "search_memories"; "get_tool_call_history";
   "store_conversation"].

(** Later rows of an ascending list have the larger key. *)
Definition ascending (key : string) (r1 r2 : row) : Prop :=
  sql_leb (column r1 key) (column r2 key) = true.

(** The row [create_reminder] inserts: [completed] takes its default. *)
Definition reminder_row (reminder_id timestamp due_datetime content : string)
    (priority : Z) (source : option string) : row :=
  [("reminder_id", SqlText reminder_id); ("timestamp_created", SqlText timestamp);
   ("due_datetime", SqlText due_datetime); ("content", SqlText content);
   ("priority_level", SqlInt priority);
   ("source_conversation_id", text_or_null source); ("completed", SqlInt 0)].

(** The project database file of the [llama-ai-memory] copy. *)
Definition project_db (sessions conversations : list row) : database :=
  <["development_conversations" :=
      Table (nullable LlamaStores.development_conversations_columns)
        ["conversation_id"] conversations]>
    (<["project_sessions" :=
         Table (nullable LlamaStores.project_sessions_columns) ["session_id"]
           sessions]> ∅).

(** A [store_conversation] coroutine that keeps the contents it stored and
    raises on the content "boom", and the coordinator that has it alone. *)
Definition recording_store (args : list value) : M (list value) value :=
  fun stored =>
    match args with
    | VStr "boom" :: _ => (stored, Raise (Exc "OperationalError" "disk full"))
    | content :: _ =>
        (stored ++ [content], Ok (VDict [("conversation_id", VStr "conv-1")]))
    | [] => (stored, Raise (Exc "TypeError" "missing argument"))
    end.

Definition recording_system : McpServer.memory_system (list value) :=
  McpServer.MemorySystem
    (fun name => if String.eqb name "store_conversation" then Some recording_store
                 else None)
    None.

(** A coordinator that keeps a journal: [log_tool_call] appends the
    arguments it was given, and [mcp_db.get_tool_call_history] returns the
    journal. *)
Definition journal_log (args : list value) : M (list value) value :=
  fun journal => (journal ++ [VList args], Ok VNone).

Definition journal_read (limit : value) : M (list value) (list value) :=
  fun journal => (journal, Ok journal).

Definition journal_system : McpServer.memory_system (list value) :=
  McpServer.MemorySystem
    (fun name => if String.eqb name "log_tool_call" then Some journal_log else None)
    (Some journal_read).

(** Logging one call per (call id, timestamp) of [ids], in order, all of one
    tool with one status on one day. *)
Fixpoint log_calls (json_dumps : value -> string) (tool_name status today : string)
    (ids : list (string * string)) (db : database) : database :=
  match ids with
  | [] => db
  | (call_id, timestamp) :: rest =>
      log_calls json_dumps tool_name status today rest
        (fst (LlmIntegration.log_tool_call json_dumps tool_name (VDict []) VNone status
                None None None call_id timestamp today db))
  end.

Section FurtherRows.

Variable json_dumps : value -> string.

(** The row [store_development_conversation] inserts. *)
Definition development_conversation_row (conversation_id session_id timestamp : string)
    (chat_context_id : option string) (content : string)
    (decisions_made : option string) (code_changes : value) : row :=
  [("conversation_id", SqlText conversation_id); ("session_id", SqlText session_id);
   ("timestamp", SqlText timestamp); ("chat_context_id", text_or_null chat_context_id);
   ("conversation_content", SqlText content);
   ("decisions_made", text_or_null decisions_made);
   ("code_changes",
    if truthy code_changes then SqlText (json_dumps code_changes) else SqlNull)].

End FurtherRows.

(** * Properties *)

(** ** The dispatcher *)

Section DispatcherFacts.

Import McpServer.

Context {St : Type}.
Implicit Types (ms : memory_system St) (st : St).

(** [_log_call] swallows whatever [log_tool_call] raises. *)
Lemma log_call_returns ms tool_name parameters time status res msg client st :
  exists st', _log_call ms tool_name parameters time status res msg client st = (st', Ok tt).
Proof.
  unfold _log_call, try_except, bind, ret.
  destruct (coroutine ms "log_tool_call") as [f|]; [|eauto].
  destruct (f _ st) as [st' [v|e]]; eauto.
Qed.

(** Run the dispatcher symbolically: telemetry steps return, every other
    step is split into its outcomes. *)
Ltac run_dispatch :=
  repeat match goal with
         | |- context [_log_call ?ms ?a ?b ?c ?d ?e ?f ?g ?s] =>
             let H := fresh "Hlog" in
             destruct (log_call_returns ms a b c d e f g s) as [? H]; rewrite H; clear H
         | |- context [match ?c with _ => _ end] =>
             lazymatch c with
             | context [match _ with _ => _ end] => fail
             | _ => destruct c eqn:?
             end
         end.

(** C3.  A tool name outside the dispatcher's table is answered with
    [{status: "error", error: "Unknown tool: <name>"}] for every parameter
    value, and the state of the system, tool-call log included, is left
    exactly as it was: nothing is recorded. *)
Theorem unknown_tool_reported_without_telemetry ms tool params client st :
  tool ∉ supported_tools ->
  handle_mcp_request ms (Request (Some tool) params) client st
  = (st, Ok (error ("Unknown tool: " +:+ tool))).
Proof.
  intros Hnot.
  assert (Hne : forall name, name ∈ supported_tools -> String.eqb tool name = false).
  { intros name Hin. apply String.eqb_neq. intros ->. contradiction. }
  unfold handle_mcp_request, try_except, bind, ret, tool_is, tool_str. cbn [req_tool].
  rewrite !Hne by (unfold supported_tools; set_solver).
  reflexivity.
Qed.

(** C5.  The envelope of a request does not depend on the coordinator's
    [log_tool_call]: whether the telemetry write raises, succeeds or is
    missing altogether, the caller receives the same result or error. *)
Theorem telemetry_outcome_never_changes_envelope ms log log' req client st :
  snd (handle_mcp_request (with_log_tool_call ms log) req client st)
  = snd (handle_mcp_request (with_log_tool_call ms log') req client st).
Proof.
  unfold handle_mcp_request, try_except, bind, lift, ret, raise, _call_method.
  cbn [coroutine mcp_db_get_tool_call_history with_log_tool_call
       String.eqb Ascii.eqb Bool.eqb].
  run_dispatch; try reflexivity; congruence.
Qed.

End DispatcherFacts.

(** ** The dispatcher under exceptions of any class *)

Section EscapingFacts.

Import McpServer.

Context {St : Type}.
Implicit Types (ms : Escaping.memory_system St) (st : St).







(** On a coordinator whose coroutines raise instances of [Exception] only,
    this dispatcher is the one of [McpServer]. *)
Lemma escaping_log_call_agrees (ms : memory_system St)
    tool_name parameters time status res msg client st :
  Escaping._log_call (Escaping.of_memory_system ms) tool_name parameters time status
    res msg client st
  = (fst (_log_call ms tool_name parameters time status res msg client st),
     Escaping.Ends (snd (_log_call ms tool_name parameters time status res msg client st))).
Proof.
  unfold Escaping._log_call, Escaping.try_except, Escaping.bind, Escaping.ret,
    _log_call, try_except, bind, ret.
  cbn [Escaping.coroutine Escaping.of_memory_system].
  destruct (coroutine ms "log_tool_call") as [f|]; [|reflexivity].
  destruct (f _ st) as [st' [v|e]]; reflexivity.
Qed.

Lemma escaping_agrees (ms : memory_system St) req client st :
  Escaping.handle_mcp_request (Escaping.of_memory_system ms) req client st
  = (fst (handle_mcp_request ms req client st),
     Escaping.Ends (snd (handle_mcp_request ms req client st))).
Proof.
  unfold Escaping.handle_mcp_request, Escaping.try_except, Escaping.bind, Escaping.lift,
    Escaping.ret, Escaping._call_method, Escaping.raise,
    handle_mcp_request, try_except, bind, lift, ret, _call_method, raise.
  cbn [Escaping.coroutine Escaping.mcp_db_get_tool_call_history Escaping.of_memory_system].
  repeat match goal with
         | |- context [Escaping._log_call _ ?a ?b ?c ?d ?e ?f ?g ?s] =>
             let H := fresh "Hlog" in
             rewrite escaping_log_call_agrees;
             destruct (log_call_returns ms a b c d e f g s) as [? H];
             rewrite H; clear H; cbn [fst snd]
         | |- context [match ?c with _ => _ end] =>
             lazymatch c with
             | context [match _ with _ => _ end] => fail
             | _ => destruct c eqn:?
             end
         end; try reflexivity; congruence.
Qed.

End EscapingFacts.

(** ** The SQL interpreter *)

Section SqlFacts.

Lemma string_leb_trans s1 s2 s3 :
  String.leb s1 s2 = true -> String.leb s2 s3 = true -> String.leb s1 s3 = true.
Proof.
  intros H12 H23. apply Is_true_true.
  apply Is_true_true in H12, H23.
  exact (transitivity (R := String.le) H12 H23).
Qed.

Lemma sql_leb_total a b : sql_leb a b = true \/ sql_leb b a = true.
Proof.
  destruct a, b; cbn; auto.
  - destruct (Z.leb_spec z z0), (Z.leb_spec z0 z); auto; lia.
  - apply String.leb_total.
Qed.

Lemma sql_leb_trans a b c :
  sql_leb a b = true -> sql_leb b c = true -> sql_leb a c = true.
Proof.
  destruct a, b, c; cbn; try congruence.
  - rewrite !Z.leb_le. lia.
  - apply string_leb_trans.
Qed.

Lemma sql_eq_sym a b : sql_eq a b = sql_eq b a.
Proof.
  destruct a, b; cbn; try reflexivity.
  - now rewrite Z.eqb_sym.
  - now rewrite String.eqb_sym.
Qed.

Lemma sql_eq_text v s : is_true (sql_eq v (SqlText s)) = true -> v = SqlText s.
Proof.
  destruct v; cbn; try discriminate.
  destruct (String.eqb_spec s0 s); [congruence | discriminate].
Qed.

Lemma is_true_some b : is_true (Some b) = b.
Proof. destruct b; reflexivity. Qed.

Lemma sqlite_integer_int64 z : sqlite_integer z = true <-> int64 z.
Proof.
  unfold sqlite_integer, int64. rewrite andb_true_iff, Z.leb_le, Z.ltb_lt. reflexivity.
Qed.

Lemma sqlite_integer_overflow z : ~ int64 z -> sqlite_integer z = false.
Proof.
  intros H. destruct (sqlite_integer z) eqn:E; [|reflexivity].
  apply sqlite_integer_int64 in E. contradiction.
Qed.

Lemma int64_dec z : {int64 z} + {~ int64 z}.
Proof.
  unfold int64. destruct (Z_le_dec (- 2 ^ 63) z), (Z_lt_dec z (2 ^ 63));
    (left; lia) || (right; lia).
Qed.

Lemma bindable_int z : int64 z -> bindable (SqlInt z) = true.
Proof. apply sqlite_integer_int64. Qed.

Lemma bindable_text_or_null o : bindable (text_or_null o) = true.
Proof. destruct o; reflexivity. Qed.

Lemma bindable_cons v l :
  bindable v = true -> forallb bindable l = true -> forallb bindable (v :: l) = true.
Proof. intros Hv Hl. cbn [forallb]. now rewrite Hv, Hl. Qed.

Lemma bindable_time time :
  storable_time time ->
  bindable match time with
           | Some n => if number_truthy n then SqlInt (int_of_number n) else SqlNull
           | None => SqlNull
           end = true.
Proof.
  destruct time as [n|]; [|reflexivity]. cbn [storable_time].
  destruct (number_truthy n); [|reflexivity].
  intros H. apply bindable_int, H. reflexivity.
Qed.

Lemma sql_is_text_or_null_refl o : sql_is (text_or_null o) (text_or_null o) = true.
Proof. destruct o; cbn; [apply String.eqb_refl | reflexivity]. Qed.

Lemma sql_is_text_or_null o1 o2 :
  sql_is (text_or_null o1) (text_or_null o2) = true -> o1 = o2.
Proof.
  destruct o1 as [s1|], o2 as [s2|]; cbn; try discriminate; [|reflexivity].
  destruct (String.eqb_spec s1 s2); [congruence | discriminate].
Qed.

Lemma Forall_insert_desc (P : row -> Prop) key r l :
  P r -> Forall P l -> Forall P (insert_desc key r l).
Proof.
  intros Hr Hl. induction Hl as [|x l Hx Hl IH]; cbn.
  - constructor; [assumption | constructor].
  - destruct (sql_leb (column x key) (column r key)); repeat constructor; auto.
Qed.

Lemma insert_desc_sorted key r l :
  StronglySorted (descending key) l ->
  StronglySorted (descending key) (insert_desc key r l).
Proof.
  induction 1 as [|x l Hl IH Hx]; cbn.
  - repeat constructor.
  - destruct (sql_leb (column x key) (column r key)) eqn:Hle.
    + constructor; [constructor; assumption|].
      constructor; [exact Hle|].
      eapply Forall_impl; [exact Hx|].
      intros y Hy. unfold descending in *. eapply sql_leb_trans; eassumption.
    + constructor; [exact IH|].
      apply Forall_insert_desc; [|exact Hx].
      unfold descending.
      destruct (sql_leb_total (column x key) (column r key)); congruence.
Qed.

Lemma order_by_desc_sorted key rows :
  StronglySorted (descending key) (order_by_desc key rows).
Proof.
  induction rows as [|r rows IH]; cbn.
  - constructor.
  - apply insert_desc_sorted, IH.
Qed.

Lemma Forall_order_by_desc (P : row -> Prop) key rows :
  Forall P rows -> Forall P (order_by_desc key rows).
Proof.
  induction 1; cbn; [constructor|]. apply Forall_insert_desc; assumption.
Qed.

Lemma limit_length k rows : 0 <= k -> Z.of_nat (length (limit k rows)) <= k.
Proof.
  intros Hk. unfold limit. destruct (Z.ltb_spec k 0); [lia|].
  rewrite length_take. lia.
Qed.

Lemma limit_sorted (R : row -> row -> Prop) k rows :
  StronglySorted R rows -> StronglySorted R (limit k rows).
Proof.
  intros Hs. unfold limit. destruct (k <? 0); [exact Hs|].
  rewrite <- (take_drop (Z.to_nat k) rows) in Hs.
  eapply StronglySorted_app_1_l, Hs.
Qed.

Lemma Forall_limit (P : row -> Prop) k rows : Forall P rows -> Forall P (limit k rows).
Proof.
  intros H. unfold limit. destruct (k <? 0); [exact H|]. apply Forall_take, H.
Qed.

Lemma Forall_filter_satisfies where_ rows :
  Forall (fun r => r ∈ rows /\ satisfies where_ r = true)
         (List.filter (satisfies where_) rows).
Proof.
  apply Forall_forall. intros r Hin.
  apply list_elem_of_In, filter_In in Hin as [Hin Hs].
  split; [|exact Hs]. apply list_elem_of_In, Hin.
Qed.

Lemma map_project_all (rows : list row) : map (project None) rows = rows.
Proof. induction rows; cbn; congruence. Qed.

Lemma matching_app key rows1 rows2 :
  matching key (rows1 ++ rows2) = matching key rows1 ++ matching key rows2.
Proof. apply List.filter_app. Qed.

(** A fresh identifier cannot violate a single-column primary key. *)
Lemma fresh_no_collision pk id r rows :
  column r pk = SqlText id -> fresh pk id rows ->
  existsb (same_key [pk] r) rows = false.
Proof.
  intros Hr Hfresh. induction Hfresh as [|x rows Hx _ IH]; [reflexivity|].
  cbn. rewrite IH, orb_false_r. rewrite Hr.
  destruct (column x pk) as [| |s]; cbn; try reflexivity.
  destruct (String.eqb_spec id s); [congruence | reflexivity].
Qed.

Lemma existsb_filter_nil {A : Type} (f g : A -> bool) (l : list A) :
  (forall x, f x = g x) -> List.filter g l = [] -> existsb f l = false.
Proof.
  intros Hfg. induction l as [|x l IH]; cbn; [reflexivity|].
  rewrite Hfg. destruct (g x); [discriminate|]. exact IH.
Qed.

End SqlFacts.

(** The values of a statement are bound: each of them fits. *)
Ltac bindable_value :=
  first [ reflexivity
        | apply bindable_text_or_null
        | apply bindable_int; assumption
        | apply bindable_time; assumption
        | match goal with
          | |- context [if ?b then _ else _] => destruct b; reflexivity
          end ].

Ltac bind_values :=
  match goal with
  | |- context [forallb bindable ?l] =>
      let H := fresh "Hbound" in
      assert (H : forallb bindable l = true)
        by (cbn [map app bound_values sel_where sel_limit cond_param];
            repeat (apply bindable_cons; [bindable_value|]); reflexivity);
      rewrite H; clear H; cbn [negb]
  end.

(** ** The tool-call store *)

Section ToolCallStore.

Import McpServer Coordinator.

Variable json_dumps : value -> string.

Lemma mcp_initialize_tables_new :
  LlmIntegration.mcp_initialize_tables ∅ = tool_call_db [] [].
Proof. reflexivity. Qed.

Lemma tool_call_db_set_calls calls calls' stats :
  <["tool_calls" :=
      Table (nullable LlmIntegration.tool_calls_columns) ["call_id"] calls']>
    (tool_call_db calls stats)
  = tool_call_db calls' stats.
Proof. unfold tool_call_db. apply insert_insert_eq. Qed.

Lemma tool_call_db_set_stats calls stats stats' :
  <["tool_usage_stats" :=
      Table (nullable LlmIntegration.tool_usage_stats_columns) ["tool_name"; "date"] stats']>
    (tool_call_db calls stats)
  = tool_call_db calls stats'.
Proof.
  unfold tool_call_db. rewrite insert_insert_ne by discriminate.
  rewrite insert_insert_eq. reflexivity.
Qed.

Lemma tool_call_db_stats calls stats :
  tool_call_db calls stats !! "tool_usage_stats"
  = Some (Table (nullable LlmIntegration.tool_usage_stats_columns)
            ["tool_name"; "date"] stats).
Proof.
  unfold tool_call_db. rewrite lookup_insert_ne by discriminate. apply lookup_insert_eq.
Qed.

Lemma tool_call_db_calls calls stats :
  tool_call_db calls stats !! "tool_calls"
  = Some (Table (nullable LlmIntegration.tool_calls_columns) ["call_id"] calls).
Proof. apply lookup_insert_eq. Qed.

Lemma history_query (tool_name : option string) k calls stats :
  int64 k ->
  LlamaMemory.get_tool_call_history tool_name k (tool_call_db calls stats)
  = (tool_call_db calls stats,
     Ok (map dict_of_row
           (limit k (order_by_desc "timestamp"
              (matching (if str_truthy tool_name
                         then [Cond "tool_name" OpEq (text_or_null tool_name)]
                         else [])
                 calls))))).
Proof.
  intros Hk.
  unfold LlamaMemory.get_tool_call_history, bind, ret, execute_query, matching.
  destruct (str_truthy tool_name);
    cbn [sel_table sel_where sel_order_desc sel_limit sel_columns];
    rewrite tool_call_db_calls;
    change (unknown_column _ _) with (@None string); cbv iota;
    bind_values; cbn [tbl_rows]; rewrite map_project_all; reflexivity.
Qed.

(** A limit outside the signed 64-bit range cannot be bound. *)
Lemma history_query_overflow (tool_name : option string) k calls stats :
  ~ int64 k ->
  LlamaMemory.get_tool_call_history tool_name k (tool_call_db calls stats)
  = (tool_call_db calls stats, Raise OverflowError).
Proof.
  intros Hk.
  unfold LlamaMemory.get_tool_call_history, bind, ret, execute_query.
  destruct (str_truthy tool_name);
    cbn [sel_table sel_where sel_order_desc sel_limit sel_columns];
    rewrite tool_call_db_calls;
    change (unknown_column _ _) with (@None string); cbv iota;
    cbn [forallb map app bound_values sel_where sel_limit cond_param bindable];
    rewrite (sqlite_integer_overflow k Hk), ?bindable_text_or_null; reflexivity.
Qed.

Lemma update_tool_stats_runs tool_name status time today calls stats :
  LlmIntegration._update_tool_stats tool_name status time today (tool_call_db calls stats)
  = (tool_call_db calls (stats_after tool_name status today stats), Ok tt).
Proof.
  unfold LlmIntegration._update_tool_stats, bind, execute_query, stats_after.
  cbn [sel_table sel_where sel_order_desc sel_limit sel_columns].
  rewrite tool_call_db_stats.
  change (unknown_column _ _) with (@None string). cbv iota. bind_values.
  cbn [tbl_rows]. rewrite map_project_all.
  fold (stats_key tool_name today). fold (matching (stats_key tool_name today) stats).
  destruct (matching (stats_key tool_name today) stats) as [|first rest] eqn:Hm.
  - unfold execute_update. rewrite tool_call_db_stats.
    change (unknown_column _ _) with (@None string). cbv iota.
    change (negb (Nat.eqb _ _)) with false. cbv iota. bind_values.
    cbn [tbl_primary_key tbl_rows].
    change (new_row _ _ _) with
      (stat_row tool_name today 1 (if String.eqb status "success" then 1 else 0)
         (if String.eqb status "failure" then 1 else 0)).
    rewrite (existsb_filter_nil _ (satisfies (stats_key tool_name today)) stats);
      [| |exact Hm].
    + unfold with_rows. cbn [tbl_columns tbl_primary_key tbl_rows].
      rewrite tool_call_db_set_stats. reflexivity.
    + intros x. unfold same_key, satisfies, stats_key, eval_condition.
      cbn [forallb cond_op cond_column cond_param].
      change (column (stat_row _ _ _ _ _) "tool_name") with (SqlText tool_name).
      change (column (stat_row _ _ _ _ _) "date") with (SqlText today).
      rewrite (sql_eq_sym (SqlText tool_name)), (sql_eq_sym (SqlText today)). reflexivity.
  - unfold execute_update. rewrite tool_call_db_stats.
    change (unknown_column _ _) with (@None string). cbv iota. bind_values.
    unfold with_rows. cbn [tbl_columns tbl_primary_key tbl_rows].
    rewrite tool_call_db_set_stats. reflexivity.
Qed.

Lemma log_tool_call_appends tool_name parameters result status time message client
    call_id timestamp today calls stats :
  fresh "call_id" call_id calls ->
  storable_time time ->
  LlmIntegration.log_tool_call json_dumps tool_name parameters result status time
    message client call_id timestamp today (tool_call_db calls stats)
  = (tool_call_db
       (calls ++ [tool_call_row json_dumps call_id timestamp client tool_name parameters
                    result status time message])
       (stats_after tool_name status today stats),
     Ok call_id).
Proof.
  intros Hfresh Htime.
  unfold LlmIntegration.log_tool_call, bind, ret.
  unfold execute_update at 1. rewrite tool_call_db_calls.
  change (unknown_column _ _) with (@None string). cbv iota.
  change (negb (Nat.eqb _ _)) with false. cbv iota. bind_values.
    cbn [tbl_primary_key tbl_rows].
  change (new_row _ _ _) with
    (tool_call_row json_dumps call_id timestamp client tool_name parameters
       result status time message).
  rewrite (fresh_no_collision "call_id" call_id) by (assumption || reflexivity).
  unfold with_rows. cbn [tbl_columns tbl_primary_key tbl_rows].
  rewrite tool_call_db_set_calls. cbv beta iota.
  rewrite update_tool_stats_runs. reflexivity.
Qed.


(** C8 (amended).  For every limit [k] with [0 <= k < 2^63] and every
    state of the log, [get_tool_call_history] returns at most [k] rows of
    the log, sorted by timestamp descending; with a non-empty [tool_name]
    filter every row is a call of that tool; and when the coordinator's
    [mcp_db.get_tool_call_history] is that of the tool-call store, the
    dispatcher's [get_tool_call_history] operation, given [limit = k],
    answers with the unfiltered rows under the [history] key of its
    result. *)
Theorem history_bounded_sorted_filtered (name : string) (k : Z) (calls stats : list row)
    (St : Type) (ms : memory_system St) (read : value -> M St (list value))
    (d : list (string * value)) (client : option string) (st st1 : St) :
  0 <= k < 2 ^ 63 ->
  name <> "" ->
  items_get d "limit" (VInt 50) = VInt k ->
  mcp_db_get_tool_call_history ms = Some read ->
  read (VInt k) st
  = (st1, snd (LlamaMemory.get_tool_call_history None k (tool_call_db calls stats))) ->
  (exists rows,
      LlamaMemory.get_tool_call_history (Some name) k (tool_call_db calls stats)
      = (tool_call_db calls stats, Ok (map dict_of_row rows))
      /\ Z.of_nat (length rows) <= k
      /\ StronglySorted (descending "timestamp") rows
      /\ Forall (fun r => r ∈ calls) rows
      /\ Forall (fun r => column r "tool_name" = SqlText name) rows)
  /\ (exists rows,
         LlamaMemory.get_tool_call_history None k (tool_call_db calls stats)
         = (tool_call_db calls stats, Ok (map dict_of_row rows))
         /\ Z.of_nat (length rows) <= k
         /\ StronglySorted (descending "timestamp") rows
         /\ Forall (fun r => r ∈ calls) rows
         /\ snd (handle_mcp_request ms
                   (Request (Some "get_tool_call_history") (VDict d)) client st)
            = Ok (success (VDict [("history", VList (map dict_of_row rows))]))).
Proof.
  intros Hk Hname Hlimit Hmcp Hread.
  assert (Hk64 : int64 k) by (unfold int64; lia).
  split.
  - eexists. split; [apply history_query, Hk64|].
    split; [apply limit_length; lia|].
    split; [apply limit_sorted, order_by_desc_sorted|].
    split; apply Forall_limit, Forall_order_by_desc;
      (eapply Forall_impl; [apply Forall_filter_satisfies|]); cbn beta.
    + tauto.
    + intros r [_ Hs]. cbn [str_truthy] in Hs.
      destruct (String.eqb_spec name ""); [contradiction|].
      cbn in Hs. rewrite andb_true_r in Hs. apply sql_eq_text, Hs.
  - eexists. split; [apply (history_query None), Hk64|].
    split; [apply limit_length; lia|].
    split; [apply limit_sorted, order_by_desc_sorted|].
    split.
    { apply Forall_limit, Forall_order_by_desc.
      eapply Forall_impl; [apply Forall_filter_satisfies|]. cbn beta. tauto. }
    unfold handle_mcp_request, try_except, bind, lift, ret.
    cbn [req_tool req_parameters tool_is tool_str String.eqb Ascii.eqb Bool.eqb orb].
    replace (or_ (VDict d) (VDict [])) with (VDict d) by (destruct d; reflexivity).
    cbn [get]. rewrite Hlimit, Hmcp, Hread.
    rewrite (history_query None) by exact Hk64. cbn [snd str_truthy].
    match goal with
    | |- context [_log_call ?ms ?a ?b ?c ?d ?e ?f ?g ?s] =>
        destruct (log_call_returns ms a b c d e f g s) as [st' Hlog]; rewrite Hlog
    end.
    reflexivity.
Qed.

(** C10.  [log_tool_call], given an execution time SQLite can store (none,
    zero, or a number whose integer part is a signed 64-bit integer),
    appends one record whose [result] column is NULL unless the result is
    truthy, in which case it is the serialized result, and whose
    [execution_time_ms] column is NULL unless the time is a non-zero
    number, in which case it is its integer part.  In particular
    the falsy results [0], [False], the empty string and the empty map, and
    an execution time of [0], are stored as NULL. *)
Theorem falsy_result_and_zero_time_stored_as_null tool_name parameters result status
    time message client call_id timestamp today calls stats :
  fresh "call_id" call_id calls ->
  storable_time time ->
  (exists logged stats',
      LlmIntegration.log_tool_call json_dumps tool_name parameters result status time
        message client call_id timestamp today (tool_call_db calls stats)
      = (tool_call_db (calls ++ [logged]) stats', Ok call_id)
      /\ column logged "result"
         = (if truthy result then SqlText (json_dumps result) else SqlNull)
      /\ column logged "execution_time_ms"
         = match time with
           | Some n => if number_truthy n then SqlInt (int_of_number n) else SqlNull
           | None => SqlNull
           end)
  /\ truthy (VInt 0) = false /\ truthy (VBool false) = false
  /\ truthy (VStr "") = false /\ truthy (VDict []) = false
  /\ number_truthy (NInt 0) = false /\ number_truthy (NFloat 0) = false.
Proof.
  intros Hfresh Htime. split; [|repeat split; reflexivity].
  do 2 eexists. split; [apply log_tool_call_appends; assumption|].
  split; reflexivity.
Qed.

(** With the statuses ["success"] and ["failure"] the daily aggregate keeps
    [call_count = success_count + failure_count]. *)
Lemma stats_consistent_for_success_and_failure tool_name status today stats :
  status = "success" \/ status = "failure" ->
  Forall stat_consistent stats ->
  Forall stat_consistent (stats_after tool_name status today stats).
Proof.
  intros Hstatus Hall. unfold stats_after.
  destruct (matching _ stats) as [|first rest].
  - apply Forall_app. split; [exact Hall|]. constructor; [|constructor].
    do 5 eexists. split; [reflexivity|].
    destruct Hstatus as [-> | ->]; reflexivity.
  - apply Forall_map. eapply Forall_impl; [exact Hall|].
    intros r (t & d & c & s & f & -> & Hsum). cbn beta.
    destruct (satisfies _ _); [|do 5 eexists; split; [reflexivity | exact Hsum]].
    destruct Hstatus as [-> | ->]; cbn; do 5 eexists;
      (split; [reflexivity | lia]).
Qed.

(** The coordinator's telemetry forward, run on a store where the drawn
    call id is fresh. *)
Lemma log_call_records (R : Type) (uuid4 now today : nat -> string)
    (primary : string -> option (list value -> M (world R) value))
    tool_name (params : list (string * value)) status result
    (message client : option string) calls stats n (dom : R) :
  fresh "call_id" (uuid4 n) calls ->
  _log_call (with_telemetry json_dumps R uuid4 now today primary)
    tool_name (VDict params) VNone status result
    (of_option_string message) (of_option_string client)
    (World (tool_call_db calls stats) n dom)
  = (World
       (tool_call_db
          (calls ++ [tool_call_row json_dumps (uuid4 n) (now n) client tool_name
                       (VDict params) result status None message])
          (stats_after tool_name status (today n) stats))
       (S n) dom,
     Ok tt).
Proof.
  intros Hfresh.
  unfold _log_call, try_except, bind.
  cbn [coroutine with_telemetry String.eqb Ascii.eqb Bool.eqb].
  replace (or_ (VDict params) (VDict [])) with (VDict params)
    by (destruct params; reflexivity).
  unfold Coordinator.log_tool_call.
  replace (as_text (of_option_string message)) with (Some message)
    by (destruct message; reflexivity).
  replace (as_text (of_option_string client)) with (Some client)
    by (destruct client; reflexivity).
  cbn [as_number]. unfold bind, tick, on_mcp_db, ret.
  cbn [mcp_db telemetry_calls domain].
  rewrite log_tool_call_appends by (assumption || exact I). reflexivity.
Qed.

(** A [search_memories] request that succeeds is recorded with the status
    ["success"], and the day's row counts it as one call and one success. *)
Lemma successful_dispatch_counts_success (R : Type)
    (uuid4 now today : nat -> string) (found : value) (query : string)
    (client : option string) (dom : R) :
  exists w',
    handle_mcp_request
      (with_telemetry json_dumps R uuid4 now today (search_only R (Ok found)))
      (Request (Some "search_memories") (VDict [("query", VStr query)])) client
      (World (LlmIntegration.mcp_initialize_tables ∅) 0%nat dom)
    = (w', Ok (success found))
    /\ rows_of "tool_usage_stats" (mcp_db w')
       = [stat_row "search_memories" (today 0%nat) 1 1 0].
Proof.
  eexists. split.
  - unfold handle_mcp_request, try_except, bind, lift, ret, _call_method.
    cbn [req_tool req_parameters tool_is tool_str
         String.eqb Ascii.eqb Bool.eqb orb or_ truthy get items_get
         coroutine with_telemetry search_only].
    unfold lift. cbv beta iota.
    rewrite mcp_initialize_tables_new.
    change VNone with (of_option_string None) at 2.
    rewrite log_call_records by constructor.
    reflexivity.
  - cbn [mcp_db]. unfold rows_of. rewrite tool_call_db_stats. reflexivity.
Qed.

(** C4, at the failing input.  On a new tool-call store, a [search_memories]
    request whose coordinator method raises [e] is answered with the error
    envelope and recorded with the status ["error"]: the day's statistics
    row counts one call that is neither a success nor a failure. *)
Theorem failed_dispatch_counts_neither_success_nor_failure (R : Type)
    (uuid4 now today : nat -> string) (e : exception) (query : string)
    (client : option string) (dom : R) :
  exists w',
    handle_mcp_request
      (with_telemetry json_dumps R uuid4 now today (search_only R (Raise e)))
      (Request (Some "search_memories") (VDict [("query", VStr query)])) client
      (World (LlmIntegration.mcp_initialize_tables ∅) 0%nat dom)
    = (w', Ok (error (exc_message e)))
    /\ rows_of "tool_usage_stats" (mcp_db w')
       = [stat_row "search_memories" (today 0%nat) 1 0 0]
    /\ ~ stat_consistent (stat_row "search_memories" (today 0%nat) 1 0 0).
Proof.
  eexists. split; [|split].
  - unfold handle_mcp_request, try_except, bind, lift, ret, _call_method.
    cbn [req_tool req_parameters tool_is tool_str tool_or_unknown
         String.eqb Ascii.eqb Bool.eqb orb or_ truthy get items_get
         coroutine with_telemetry search_only].
    unfold lift. cbv beta iota.
    rewrite mcp_initialize_tables_new.
    change (VStr (exc_message e)) with (of_option_string (Some (exc_message e))).
    rewrite log_call_records by constructor.
    reflexivity.
  - cbn [mcp_db]. unfold rows_of. rewrite tool_call_db_stats. reflexivity.
  - intros (t & d & c & s & f & Heq & Hsum). inversion Heq. lia.
Qed.

End ToolCallStore.


(** ** The curated-memory store *)

Section MemoryStore.

Variable json_dumps : value -> string.

Local Abbreviation memory_row := (memory_row json_dumps).
Local Abbreviation memory_reachable := (memory_reachable json_dumps).

Lemma rows_of_memory_db rows : rows_of "curated_memories" (memory_db rows) = rows.
Proof. unfold rows_of, memory_db. rewrite lookup_insert_eq. reflexivity. Qed.

Lemma create_memory_hit content ty imp tags src id ts rows first rest :
  matching (LlamaMemory.memory_key content ty src) rows = first :: rest ->
  LlamaMemory.create_memory json_dumps content ty imp tags src id ts (memory_db rows)
  = (memory_db rows, Ok (to_py (column first "memory_id"))).
Proof.
  unfold matching. intros Hhit.
  unfold LlamaMemory.create_memory, bind, lift, ret, execute_query, memory_db.
  cbn [sel_table sel_where sel_columns sel_order_desc sel_limit].
  rewrite lookup_insert_eq. cbn [tbl_rows].
  change (unknown_column _ _) with (@None string). cbv iota. bind_values.
  rewrite Hhit. reflexivity.
Qed.

Lemma create_memory_miss content ty imp tags src id ts rows :
  matching (LlamaMemory.memory_key content ty src) rows = [] ->
  int64 imp ->
  LlamaMemory.create_memory json_dumps content ty imp tags src id ts (memory_db rows)
  = if existsb (same_key ["memory_id"] (memory_row id ts src ty content imp tags)) rows
    then (memory_db rows,
          Raise (IntegrityError "UNIQUE constraint failed: curated_memories.memory_id"))
    else (memory_db (rows ++ [memory_row id ts src ty content imp tags]), Ok (VStr id)).
Proof.
  unfold matching. intros Hmiss Himp.
  unfold LlamaMemory.create_memory, bind, lift, ret, execute_query, execute_update, memory_db.
  cbn [sel_table sel_where sel_columns sel_order_desc sel_limit].
  rewrite lookup_insert_eq. cbn [tbl_rows].
  change (unknown_column _ (referenced_columns _)) with (@None string). cbv iota.
  bind_values.
  rewrite Hmiss. cbn [map]. rewrite lookup_insert_eq.
  change (unknown_column _ _) with (@None string). cbv iota.
  change (negb (Nat.eqb _ _)) with false. cbv iota. bind_values.
  cbn [tbl_primary_key tbl_rows].
  change (new_row _ _ _) with (memory_row id ts src ty content imp tags).
  destruct (existsb _ rows); [reflexivity|].
  unfold with_rows. cbn [tbl_columns tbl_primary_key]. rewrite insert_insert_eq. reflexivity.
Qed.

(** An importance outside the signed 64-bit range cannot be bound: the
    insert raises and stores nothing. *)
Lemma create_memory_overflow content ty imp tags src id ts rows :
  matching (LlamaMemory.memory_key content ty src) rows = [] ->
  ~ int64 imp ->
  LlamaMemory.create_memory json_dumps content ty imp tags src id ts (memory_db rows)
  = (memory_db rows, Raise OverflowError).
Proof.
  unfold matching. intros Hmiss Himp.
  unfold LlamaMemory.create_memory, bind, lift, ret, execute_query, execute_update, memory_db.
  cbn [sel_table sel_where sel_columns sel_order_desc sel_limit].
  rewrite lookup_insert_eq. cbn [tbl_rows].
  change (unknown_column _ (referenced_columns _)) with (@None string). cbv iota.
  bind_values.
  rewrite Hmiss. cbn [map]. rewrite lookup_insert_eq.
  change (unknown_column _ _) with (@None string). cbv iota.
  change (negb (Nat.eqb _ _)) with false. cbv iota.
  cbn [forallb bindable]. rewrite (sqlite_integer_overflow imp Himp).
  rewrite !bindable_text_or_null. reflexivity.
Qed.

Lemma memory_key_on_row c ty src id ts src' ty' c' imp tags :
  satisfies (LlamaMemory.memory_key c ty src) (memory_row id ts src' ty' c' imp tags)
  = String.eqb c' c
    && (is_true (sql_eq (text_or_null ty') (text_or_null ty))
        && (sql_is (text_or_null src') (text_or_null src) && true)).
Proof.
  rewrite <- (is_true_some (sql_is _ _)), <- (is_true_some (String.eqb _ _)).
  reflexivity.
Qed.

Lemma memory_row_matches c ty src id ts imp tags :
  satisfies (LlamaMemory.memory_key c (Some ty) src)
    (memory_row id ts src (Some ty) c imp tags) = true.
Proof.
  rewrite memory_key_on_row. cbn [text_or_null sql_eq is_true].
  rewrite !String.eqb_refl, sql_is_text_or_null_refl. reflexivity.
Qed.

Lemma memory_row_matches_inv c ty src id ts src' ty' c' imp tags :
  satisfies (LlamaMemory.memory_key c ty src)
    (memory_row id ts src' ty' c' imp tags) = true ->
  c' = c /\ ty' = ty /\ src' = src /\ ty <> None.
Proof.
  rewrite memory_key_on_row, andb_true_r. intros H.
  apply andb_prop in H as [Hc H]. apply andb_prop in H as [Hty Hsrc].
  apply sql_is_text_or_null in Hsrc.
  destruct (String.eqb_spec c' c); [|discriminate].
  destruct ty' as [t'|], ty as [t|]; cbn in Hty; try discriminate.
  destruct (String.eqb_spec t' t); [|discriminate].
  repeat split; congruence.
Qed.

(** A memory whose type is NULL matches no key, its own included:
    [memory_type = NULL] is never true. *)
Lemma null_type_never_matches c src rows :
  matching (LlamaMemory.memory_key c None src) rows = [].
Proof.
  unfold matching. induction rows as [|r rows IH]; [reflexivity|].
  cbn [List.filter]. rewrite IH.
  replace (satisfies (LlamaMemory.memory_key c None src) r) with false; [reflexivity|].
  unfold satisfies, LlamaMemory.memory_key. cbn [forallb text_or_null].
  unfold eval_condition at 2. cbn [cond_op cond_column cond_param].
  destruct (column r "memory_type"); cbn [sql_eq is_true]; now rewrite !andb_false_r.
Qed.

(** So two identical memories without a type are both stored. *)
Lemma untyped_memory_stored_twice c src imp tags id1 ts1 id2 ts2 :
  id1 <> id2 ->
  int64 imp ->
  LlamaMemory.create_memory json_dumps c None imp tags src id2 ts2
    (fst (LlamaMemory.create_memory json_dumps c None imp tags src id1 ts1 (memory_db [])))
  = (memory_db [memory_row id1 ts1 src None c imp tags;
                memory_row id2 ts2 src None c imp tags],
     Ok (VStr id2)).
Proof.
  intros Hne Himp.
  rewrite (create_memory_miss _ _ _ _ _ _ _ _ (null_type_never_matches _ _ _) Himp).
  cbn [existsb fst app].
  rewrite (create_memory_miss _ _ _ _ _ _ _ _ (null_type_never_matches _ _ _) Himp).
  rewrite (fresh_no_collision "memory_id" id2); [reflexivity | reflexivity |].
  constructor; [|constructor].
  change (column _ "memory_id") with (SqlText id1). congruence.
Qed.

Lemma memory_reachable_unique db :
  memory_reachable db -> exists rows, db = memory_db rows /\ unique_memories rows.
Proof.
  induction 1 as [|db c ty imp tags src id ts _ [rows [-> Huniq]]].
  - exists []. split; [reflexivity|]. intros c ty src. cbn. lia.
  - destruct (matching (LlamaMemory.memory_key c ty src) rows) as [|first rest] eqn:Hm.
    + destruct (int64_dec imp) as [Himp|Himp];
        [|rewrite (create_memory_overflow _ _ _ _ _ _ _ _ Hm Himp); cbn [fst]; eauto].
      rewrite (create_memory_miss _ _ _ _ _ _ _ _ Hm Himp).
      destruct (existsb _ rows); cbn [fst]; [eauto|].
      eexists. split; [reflexivity|].
      intros c0 ty0 src0. rewrite matching_app, length_app.
      unfold matching at 2. cbn [List.filter].
      destruct (satisfies _ (memory_row _ _ _ _ _ _ _)) eqn:Hs; cbn [length].
      * apply memory_row_matches_inv in Hs as (-> & -> & -> & _).
        rewrite Hm. cbn. lia.
      * specialize (Huniq c0 ty0 src0). lia.
    + rewrite (create_memory_hit _ _ _ _ _ _ _ _ _ _ Hm). cbn [fst]. eauto.
Qed.

Lemma integration_create_memory_inserts c ty imp tags src id ts rows :
  fresh "memory_id" id rows ->
  int64 imp ->
  LlmIntegration.create_memory json_dumps c ty imp tags src id ts (memory_db rows)
  = (memory_db (rows ++ [memory_row id ts src ty c imp tags]), Ok (VStr id)).
Proof.
  intros Hfresh Himp.
  unfold LlmIntegration.create_memory, bind, ret, execute_update, memory_db.
  rewrite lookup_insert_eq.
  change (unknown_column _ _) with (@None string). cbv iota.
  change (negb (Nat.eqb _ _)) with false. cbv iota. bind_values.
  cbn [tbl_primary_key tbl_rows].
  change (new_row _ _ _) with (memory_row id ts src ty c imp tags).
  rewrite (fresh_no_collision "memory_id" id) by (assumption || reflexivity).
  unfold with_rows. cbn [tbl_columns tbl_primary_key]. rewrite insert_insert_eq. reflexivity.
Qed.

(** C1 (amended).  In the [llama-ai-memory] store, on any store a single
    writer can reach, two [create_memory] calls with the same content, the
    same non-null memory type and the same source, the first with an
    importance SQLite can store (a signed 64-bit integer), return the same
    memory id, the second inserts nothing, and exactly one row matches the
    key afterwards, whatever the other arguments are.  In the
    [ai-memory-llm-integration] store [create_memory] detects no duplicate:
    every call inserts a row and returns the identifier just drawn. *)
Theorem create_memory_idempotent_on_typed_key
    db c ty src imp1 tags1 imp2 tags2 id1 ts1 id2 ts2 oty rows :
  memory_reachable db ->
  fresh "memory_id" id1 (rows_of "curated_memories" db) ->
  fresh "memory_id" id1 rows ->
  int64 imp1 ->
  (exists db1 mid,
      LlamaMemory.create_memory json_dumps c (Some ty) imp1 tags1 src id1 ts1 db
      = (db1, Ok mid)
      /\ LlamaMemory.create_memory json_dumps c (Some ty) imp2 tags2 src id2 ts2 db1
         = (db1, Ok mid)
      /\ length (matching (LlamaMemory.memory_key c (Some ty) src)
                   (rows_of "curated_memories" db1)) = 1%nat)
  /\ LlmIntegration.create_memory json_dumps c oty imp1 tags1 src id1 ts1 (memory_db rows)
     = (memory_db (rows ++ [memory_row id1 ts1 src oty c imp1 tags1]), Ok (VStr id1)).
Proof.
  intros Hreach Hfresh Hfresh' Himp.
  split; [|apply integration_create_memory_inserts; assumption].
  destruct (memory_reachable_unique db Hreach) as [rows0 [-> Huniq]].
  rewrite rows_of_memory_db in Hfresh.
  destruct (matching (LlamaMemory.memory_key c (Some ty) src) rows0) as [|first rest] eqn:Hm.
  - rewrite (create_memory_miss _ _ _ _ _ _ _ _ Hm Himp).
    rewrite (fresh_no_collision "memory_id" id1) by (assumption || reflexivity).
    assert (Hm' : matching (LlamaMemory.memory_key c (Some ty) src)
                    (rows0 ++ [memory_row id1 ts1 src (Some ty) c imp1 tags1])
                  = [memory_row id1 ts1 src (Some ty) c imp1 tags1]).
    { rewrite matching_app, Hm. unfold matching. cbn [List.filter app].
      rewrite memory_row_matches. reflexivity. }
    do 2 eexists. split; [reflexivity|]. split.
    + rewrite (create_memory_hit _ _ _ _ _ _ _ _ _ _ Hm'). reflexivity.
    + rewrite rows_of_memory_db, Hm'. reflexivity.
  - do 2 eexists. split; [apply (create_memory_hit _ _ _ _ _ _ _ _ _ _ Hm)|]. split.
    + apply (create_memory_hit _ _ _ _ _ _ _ _ _ _ Hm).
    + rewrite rows_of_memory_db. specialize (Huniq c ty src).
      rewrite Hm in *. cbn in *. lia.
Qed.

End MemoryStore.

(** ** The schedule store *)

Section ScheduleStore.

Lemma schedule_db_appointments apps rems :
  schedule_db apps rems !! "appointments"
  = Some (Table (nullable LlamaMemory.appointments_columns) ["appointment_id"] apps).
Proof.
  unfold schedule_db. rewrite lookup_insert_ne by discriminate. apply lookup_insert_eq.
Qed.

Lemma schedule_db_set_appointments apps apps' rems :
  <["appointments" :=
      Table (nullable LlamaMemory.appointments_columns) ["appointment_id"] apps']>
    (schedule_db apps rems)
  = schedule_db apps' rems.
Proof.
  unfold schedule_db. rewrite insert_insert_ne by discriminate.
  rewrite insert_insert_eq. reflexivity.
Qed.

Lemma rows_of_schedule_db apps rems : rows_of "appointments" (schedule_db apps rems) = apps.
Proof. unfold rows_of. rewrite schedule_db_appointments. reflexivity. Qed.

Lemma create_appointment_hit title datetime desc loc src id ts apps rems first rest :
  matching (LlamaMemory.appointment_key title datetime loc src) apps = first :: rest ->
  LlamaMemory.create_appointment title datetime desc loc src id ts (schedule_db apps rems)
  = (schedule_db apps rems, Ok (to_py (column first "appointment_id"))).
Proof.
  unfold matching. intros Hhit.
  unfold LlamaMemory.create_appointment, bind, lift, ret, execute_query.
  cbn [sel_table sel_where sel_columns sel_order_desc sel_limit].
  rewrite schedule_db_appointments. cbn [tbl_rows].
  change (unknown_column _ _) with (@None string). cbv iota. bind_values.
  rewrite Hhit. reflexivity.
Qed.

Lemma create_appointment_miss title datetime desc loc src id ts apps rems :
  matching (LlamaMemory.appointment_key title datetime loc src) apps = [] ->
  LlamaMemory.create_appointment title datetime desc loc src id ts (schedule_db apps rems)
  = if existsb (same_key ["appointment_id"]
                  (appointment_row id ts datetime title desc loc src)) apps
    then (schedule_db apps rems,
          Raise (IntegrityError "UNIQUE constraint failed: appointments.appointment_id"))
    else (schedule_db (apps ++ [appointment_row id ts datetime title desc loc src]) rems,
          Ok (VStr id)).
Proof.
  unfold matching. intros Hmiss.
  unfold LlamaMemory.create_appointment, bind, lift, ret, execute_query, execute_update.
  cbn [sel_table sel_where sel_columns sel_order_desc sel_limit].
  rewrite schedule_db_appointments. cbn [tbl_rows].
  change (unknown_column _ (referenced_columns _)) with (@None string). cbv iota.
  bind_values.
  rewrite Hmiss. cbn [map]. rewrite schedule_db_appointments.
  change (unknown_column _ _) with (@None string). cbv iota.
  change (negb (Nat.eqb _ _)) with false. cbv iota. bind_values.
  cbn [tbl_primary_key tbl_rows].
  change (new_row _ _ _) with (appointment_row id ts datetime title desc loc src).
  destruct (existsb _ apps); [reflexivity|].
  unfold with_rows. cbn [tbl_columns tbl_primary_key].
  rewrite schedule_db_set_appointments. reflexivity.
Qed.

Lemma appointment_key_on_row title datetime loc src id ts datetime' title' desc loc' src' :
  satisfies (LlamaMemory.appointment_key title datetime loc src)
    (appointment_row id ts datetime' title' desc loc' src')
  = String.eqb title' title
    && (String.eqb datetime' datetime
        && (sql_is (text_or_null loc') (text_or_null loc)
            && (sql_is (text_or_null src') (text_or_null src) && true))).
Proof.
  transitivity
    (is_true (Some (String.eqb title' title))
     && (is_true (Some (String.eqb datetime' datetime))
         && (is_true (Some (sql_is (text_or_null loc') (text_or_null loc)))
             && (is_true (Some (sql_is (text_or_null src') (text_or_null src)))
                 && true)))); [reflexivity|].
  rewrite !is_true_some. reflexivity.
Qed.

Lemma appointment_row_matches title datetime loc src id ts desc :
  satisfies (LlamaMemory.appointment_key title datetime loc src)
    (appointment_row id ts datetime title desc loc src) = true.
Proof.
  rewrite appointment_key_on_row, !String.eqb_refl, !sql_is_text_or_null_refl.
  reflexivity.
Qed.

Lemma appointment_row_matches_inv
    title datetime loc src id ts datetime' title' desc loc' src' :
  satisfies (LlamaMemory.appointment_key title datetime loc src)
    (appointment_row id ts datetime' title' desc loc' src') = true ->
  title' = title /\ datetime' = datetime /\ loc' = loc /\ src' = src.
Proof.
  rewrite appointment_key_on_row, andb_true_r. intros H.
  apply andb_prop in H as [Ht H]. apply andb_prop in H as [Hd H].
  apply andb_prop in H as [Hl Hs].
  apply sql_is_text_or_null in Hl, Hs.
  destruct (String.eqb_spec title' title); [|discriminate].
  destruct (String.eqb_spec datetime' datetime); [|discriminate].
  auto.
Qed.

Lemma schedule_db_reminders apps rems :
  schedule_db apps rems !! "reminders"
  = Some (Table LlamaMemory.reminders_columns ["reminder_id"] rems).
Proof. apply lookup_insert_eq. Qed.

Lemma schedule_db_set_reminders apps rems rems' :
  <["reminders" := Table LlamaMemory.reminders_columns ["reminder_id"] rems']>
    (schedule_db apps rems)
  = schedule_db apps rems'.
Proof. apply insert_insert_eq. Qed.

Lemma create_reminder_hit content due priority src id ts apps rems first rest :
  matching (LlamaStores.reminder_key content due src) rems = first :: rest ->
  LlamaStores.create_reminder content due priority src id ts (schedule_db apps rems)
  = (schedule_db apps rems, Ok (to_py (column first "reminder_id"))).
Proof.
  unfold matching. intros Hhit.
  unfold LlamaStores.create_reminder, bind, lift, ret, execute_query.
  cbn [sel_table sel_where sel_columns sel_order_desc sel_limit].
  rewrite schedule_db_reminders. cbn [tbl_rows].
  change (unknown_column _ _) with (@None string). cbv iota. bind_values.
  rewrite Hhit. reflexivity.
Qed.

Lemma create_reminder_miss content due priority src id ts apps rems :
  matching (LlamaStores.reminder_key content due src) rems = [] ->
  int64 priority ->
  LlamaStores.create_reminder content due priority src id ts (schedule_db apps rems)
  = if existsb (same_key ["reminder_id"] (reminder_row id ts due content priority src)) rems
    then (schedule_db apps rems,
          Raise (IntegrityError "UNIQUE constraint failed: reminders.reminder_id"))
    else (schedule_db apps (rems ++ [reminder_row id ts due content priority src]),
          Ok (VStr id)).
Proof.
  unfold matching. intros Hmiss Hpriority.
  unfold LlamaStores.create_reminder, bind, lift, ret, execute_query, execute_update.
  cbn [sel_table sel_where sel_columns sel_order_desc sel_limit].
  rewrite schedule_db_reminders. cbn [tbl_rows].
  change (unknown_column _ (referenced_columns _)) with (@None string). cbv iota.
  bind_values.
  rewrite Hmiss. cbn [map]. rewrite schedule_db_reminders.
  change (unknown_column _ _) with (@None string). cbv iota.
  change (negb (Nat.eqb _ _)) with false. cbv iota. bind_values.
  cbn [tbl_primary_key tbl_rows].
  change (new_row _ _ _) with (reminder_row id ts due content priority src).
  destruct (existsb _ rems); [reflexivity|].
  unfold with_rows. cbn [tbl_columns tbl_primary_key].
  rewrite schedule_db_set_reminders. reflexivity.
Qed.

(** A priority outside the signed 64-bit range cannot be bound: the insert
    raises and stores nothing. *)
Lemma create_reminder_overflow content due priority src id ts apps rems :
  matching (LlamaStores.reminder_key content due src) rems = [] ->
  ~ int64 priority ->
  LlamaStores.create_reminder content due priority src id ts (schedule_db apps rems)
  = (schedule_db apps rems, Raise OverflowError).
Proof.
  unfold matching. intros Hmiss Hpriority.
  unfold LlamaStores.create_reminder, bind, lift, ret, execute_query, execute_update.
  cbn [sel_table sel_where sel_columns sel_order_desc sel_limit].
  rewrite schedule_db_reminders. cbn [tbl_rows].
  change (unknown_column _ (referenced_columns _)) with (@None string). cbv iota.
  bind_values.
  rewrite Hmiss. cbn [map]. rewrite schedule_db_reminders.
  change (unknown_column _ _) with (@None string). cbv iota.
  change (negb (Nat.eqb _ _)) with false. cbv iota.
  cbn [forallb bindable]. rewrite (sqlite_integer_overflow priority Hpriority).
  rewrite !bindable_text_or_null. reflexivity.
Qed.

(** [create_reminder] leaves the appointments as they are. *)
Lemma create_reminder_keeps_appointments content due priority src id ts apps rems :
  exists rems',
    fst (LlamaStores.create_reminder content due priority src id ts (schedule_db apps rems))
    = schedule_db apps rems'.
Proof.
  destruct (matching (LlamaStores.reminder_key content due src) rems)
    as [|first rest] eqn:Hm.
  - destruct (int64_dec priority) as [Hp|Hp].
    + rewrite (create_reminder_miss _ _ _ _ _ _ _ _ Hm Hp).
      destruct (existsb _ rems); cbn [fst]; eauto.
    + rewrite (create_reminder_overflow _ _ _ _ _ _ _ _ Hm Hp). cbn [fst]. eauto.
  - rewrite (create_reminder_hit _ _ _ _ _ _ _ _ _ _ Hm). cbn [fst]. eauto.
Qed.

Lemma schedule_reachable_unique db :
  schedule_reachable db ->
  exists apps rems, db = schedule_db apps rems /\ unique_appointments apps.
Proof.
  induction 1 as [|db title datetime desc loc src id ts _ (apps & rems & -> & Huniq)
                  |db content due priority src id ts _ (apps & rems & -> & Huniq)];
    [| |destruct (create_reminder_keeps_appointments content due priority src id ts
                   apps rems) as [rems' ->]; eauto].
  - exists [], []. split; [reflexivity|]. intros t d l s. cbn. lia.
  - destruct (matching (LlamaMemory.appointment_key title datetime loc src) apps)
      as [|first rest] eqn:Hm.
    + rewrite (create_appointment_miss _ _ _ _ _ _ _ _ _ Hm).
      destruct (existsb _ apps); cbn [fst]; [eauto|].
      do 2 eexists. split; [reflexivity|].
      intros t0 d0 l0 s0. rewrite matching_app, length_app.
      unfold matching at 2. cbn [List.filter].
      destruct (satisfies _ (appointment_row _ _ _ _ _ _ _)) eqn:Hs; cbn [length].
      * apply appointment_row_matches_inv in Hs as (-> & -> & -> & ->).
        rewrite Hm. cbn. lia.
      * specialize (Huniq t0 d0 l0 s0). lia.
    + rewrite (create_appointment_hit _ _ _ _ _ _ _ _ _ _ _ Hm). cbn [fst]. eauto.
Qed.

Lemma integration_create_appointment_inserts title datetime desc loc src id ts apps rems :
  fresh "appointment_id" id apps ->
  LlmIntegration.create_appointment title datetime desc loc src id ts
    (integration_schedule_db apps rems)
  = (integration_schedule_db
       (apps ++ [appointment_row id ts datetime title desc loc src]) rems,
     Ok (VStr id)).
Proof.
  intros Hfresh.
  unfold LlmIntegration.create_appointment, bind, ret, execute_update,
    integration_schedule_db.
  rewrite lookup_insert_ne by discriminate. rewrite lookup_insert_eq.
  change (unknown_column _ _) with (@None string). cbv iota.
  change (negb (Nat.eqb _ _)) with false. cbv iota. bind_values.
  cbn [tbl_primary_key tbl_rows].
  change (new_row _ _ _) with (appointment_row id ts datetime title desc loc src).
  rewrite (fresh_no_collision "appointment_id" id) by (assumption || reflexivity).
  unfold with_rows. cbn [tbl_columns tbl_primary_key].
  rewrite insert_insert_ne by discriminate. rewrite insert_insert_eq. reflexivity.
Qed.

(** C7 (amended).  In the [llama-ai-memory] store, on any store a single
    writer can reach, a second [create_appointment] with the same title,
    scheduled datetime, location and source returns the first call's
    appointment id and inserts nothing, at any later time and whatever the
    description, so that exactly one row matches the key.  In the
    [ai-memory-llm-integration] store [create_appointment] detects no
    duplicate: every call inserts a row and returns the identifier just
    drawn. *)
Theorem create_appointment_idempotent_on_key
    db title datetime loc src desc1 desc2 id1 ts1 id2 ts2 apps rems :
  schedule_reachable db ->
  fresh "appointment_id" id1 (rows_of "appointments" db) ->
  fresh "appointment_id" id1 apps ->
  (exists db1 aid,
      LlamaMemory.create_appointment title datetime desc1 loc src id1 ts1 db
      = (db1, Ok aid)
      /\ LlamaMemory.create_appointment title datetime desc2 loc src id2 ts2 db1
         = (db1, Ok aid)
      /\ length (matching (LlamaMemory.appointment_key title datetime loc src)
                   (rows_of "appointments" db1)) = 1%nat)
  /\ LlmIntegration.create_appointment title datetime desc1 loc src id1 ts1
       (integration_schedule_db apps rems)
     = (integration_schedule_db
          (apps ++ [appointment_row id1 ts1 datetime title desc1 loc src]) rems,
        Ok (VStr id1)).
Proof.
  intros Hreach Hfresh Hfresh'.
  split; [|apply integration_create_appointment_inserts, Hfresh'].
  destruct (schedule_reachable_unique db Hreach) as (apps0 & rems0 & -> & Huniq).
  rewrite rows_of_schedule_db in Hfresh.
  destruct (matching (LlamaMemory.appointment_key title datetime loc src) apps0)
    as [|first rest] eqn:Hm.
  - rewrite (create_appointment_miss _ _ _ _ _ _ _ _ _ Hm).
    rewrite (fresh_no_collision "appointment_id" id1) by (assumption || reflexivity).
    assert (Hm' : matching (LlamaMemory.appointment_key title datetime loc src)
                    (apps0 ++ [appointment_row id1 ts1 datetime title desc1 loc src])
                  = [appointment_row id1 ts1 datetime title desc1 loc src]).
    { rewrite matching_app, Hm. unfold matching. cbn [List.filter app].
      rewrite appointment_row_matches. reflexivity. }
    do 2 eexists. split; [reflexivity|]. split.
    + rewrite (create_appointment_hit _ _ _ _ _ _ _ _ _ _ _ Hm'). reflexivity.
    + rewrite rows_of_schedule_db, Hm'. reflexivity.
  - do 2 eexists.
    split; [apply (create_appointment_hit _ _ _ _ _ _ _ _ _ _ _ Hm)|]. split.
    + apply (create_appointment_hit _ _ _ _ _ _ _ _ _ _ _ Hm).
    + rewrite rows_of_schedule_db. specialize (Huniq title datetime loc src).
      rewrite Hm in *. cbn in *. lia.
Qed.

End ScheduleStore.

(** ** The conversation store *)

Section ConversationStore.

Variable json_dumps : value -> string.

Local Abbreviation message_row := (message_row json_dumps).

Lemma conversation_db_messages msgs convs :
  conversation_db msgs convs !! "messages"
  = Some (Table (nullable LlamaMemory.messages_columns) ["message_id"] msgs).
Proof.
  unfold conversation_db. rewrite lookup_insert_ne by discriminate. apply lookup_insert_eq.
Qed.

Lemma conversation_db_set_messages msgs msgs' convs :
  <["messages" := Table (nullable LlamaMemory.messages_columns) ["message_id"] msgs']>
    (conversation_db msgs convs)
  = conversation_db msgs' convs.
Proof.
  unfold conversation_db. rewrite insert_insert_ne by discriminate.
  rewrite insert_insert_eq. reflexivity.
Qed.

Lemma conversation_initialize_tables_new :
  LlamaMemory.conversation_initialize_tables ∅ = conversation_db [] [].
Proof. reflexivity. Qed.

(** The [messages] table has no [session_id] column, so the duplicate
    query cannot be prepared. *)
Lemma llama_store_message_with_session_raises
    content role a s conv metadata ts mid hour us uc msgs convs :
  LlamaMemory.store_message json_dumps content role (Some (String a s)) conv metadata
    ts mid hour us uc (conversation_db msgs convs)
  = (conversation_db msgs convs, Raise (OperationalError "no such column: session_id")).
Proof.
  unfold LlamaMemory.store_message, bind, execute_query.
  cbn [str_truthy String.eqb negb sel_table].
  rewrite conversation_db_messages. reflexivity.
Qed.

(** Without a session id the [llama-ai-memory] store draws a session and a
    conversation identifier and stores the message under the latter. *)
Lemma llama_store_message_generates_ids content role metadata ts mid hour us uc msgs convs :
  fresh "message_id" mid msgs ->
  LlamaMemory.store_message json_dumps content role None None metadata
    ts mid hour us uc (conversation_db msgs convs)
  = (conversation_db (msgs ++ [message_row mid (Some uc) ts role content metadata]) convs,
     Ok (VDict [("message_id", VStr mid); ("conversation_id", VStr uc);
                ("session_id", VStr us); ("duplicate", VBool false)])).
Proof.
  intros Hfresh.
  unfold LlamaMemory.store_message, bind, ret, execute_update.
  cbn [str_truthy LlamaMemory.or_fresh].
  rewrite conversation_db_messages.
  change (unknown_column _ _) with (@None string). cbv iota.
  change (negb (Nat.eqb _ _)) with false. cbv iota. bind_values.
  cbn [tbl_primary_key tbl_rows].
  change (new_row _ _ _) with (message_row mid (Some uc) ts role content metadata).
  rewrite (fresh_no_collision "message_id" mid) by (assumption || reflexivity).
  unfold with_rows. cbn [tbl_columns tbl_primary_key].
  rewrite conversation_db_set_messages. reflexivity.
Qed.

Lemma integration_store_message_inserts content role session conv metadata ts mid msgs :
  fresh "message_id" mid msgs ->
  LlmIntegration.store_message json_dumps content role session conv metadata ts mid
    (integration_conversation_db msgs)
  = (integration_conversation_db (msgs ++ [message_row mid conv ts role content metadata]),
     Ok (VDict [("message_id", VStr mid);
                ("conversation_id", of_option_string conv);
                ("session_id", of_option_string session)])).
Proof.
  intros Hfresh.
  unfold LlmIntegration.store_message, bind, ret, execute_update,
    integration_conversation_db.
  rewrite lookup_insert_eq.
  change (unknown_column _ _) with (@None string). cbv iota.
  change (negb (Nat.eqb _ _)) with false. cbv iota. bind_values.
  cbn [tbl_primary_key tbl_rows].
  change (new_row _ _ _) with (message_row mid conv ts role content metadata).
  rewrite (fresh_no_collision "message_id" mid) by (assumption || reflexivity).
  unfold with_rows. cbn [tbl_columns tbl_primary_key].
  rewrite insert_insert_eq. reflexivity.
Qed.

(** C2, at the failing inputs.  With a session id given, the
    [llama-ai-memory] store raises before it reads or writes a row, on every
    store and at every time, so it neither reports a duplicate nor inserts
    the message; the [ai-memory-llm-integration] store inserts the second
    identical message of a session under a new id and sets no duplicate
    flag. *)
Theorem store_conversation_never_detects_duplicate
    content role a s conv metadata ts mid hour us uc msgs convs ts1 ts2 :
  LlamaMemory.store_conversation json_dumps content role (Some (String a s)) conv metadata
    ts mid hour us uc (conversation_db msgs convs)
  = (conversation_db msgs convs, Raise (OperationalError "no such column: session_id"))
  /\ LlmIntegration.store_message json_dumps "hi" "user" (Some "S") None VNone ts2 "m2"
       (fst (LlmIntegration.store_message json_dumps "hi" "user" (Some "S") None VNone
               ts1 "m1" (LlmIntegration.conversation_initialize_tables ∅)))
     = (integration_conversation_db
          [message_row "m1" None ts1 "user" "hi" VNone;
           message_row "m2" None ts2 "user" "hi" VNone],
        Ok (VDict [("message_id", VStr "m2"); ("conversation_id", VNone);
                   ("session_id", VStr "S")])).
Proof.
  split; [apply llama_store_message_with_session_raises|].
  change (LlmIntegration.conversation_initialize_tables ∅)
    with (integration_conversation_db []).
  rewrite integration_store_message_inserts by constructor. cbn [fst app].
  rewrite integration_store_message_inserts; [reflexivity|].
  constructor; [discriminate | constructor].
Qed.

(** C9, at the failing input.  The [ai-memory-llm-integration] store, called
    without session and conversation ids, draws neither: the message is
    stored with a NULL conversation id and the result carries [None] for
    both. *)
Theorem integration_store_message_returns_null_ids content role metadata ts mid msgs :
  fresh "message_id" mid msgs ->
  LlmIntegration.store_message json_dumps content role None None metadata ts mid
    (integration_conversation_db msgs)
  = (integration_conversation_db (msgs ++ [message_row mid None ts role content metadata]),
     Ok (VDict [("message_id", VStr mid); ("conversation_id", VNone);
                ("session_id", VNone)])).
Proof. apply integration_store_message_inserts. Qed.

End ConversationStore.

(** ** Concrete instances *)

Lemma unknown_tool_witness :
  ("not_a_tool" ∉ supported_tools)
  /\ McpServer.handle_mcp_request bare_system
       (McpServer.Request (Some "not_a_tool") (VDict [])) None tt
     = (tt, Ok (McpServer.error "Unknown tool: not_a_tool")).
Proof.
  assert (H : "not_a_tool" ∉ supported_tools).
  { unfold supported_tools. intros H.
    repeat (apply elem_of_cons in H as [H|H]; [discriminate H|]).
    inversion H. }
  split; [exact H|].
  exact (unknown_tool_reported_without_telemetry
           bare_system "not_a_tool" (VDict []) None tt H).
Defined.

Lemma history_witness :
  0 <= 1 < 2 ^ 63
  /\ "create_memory" <> ""
  /\ items_get [("limit", VInt 1)] "limit" (VInt 50) = VInt 1
  /\ (exists rows,
         LlamaMemory.get_tool_call_history (Some "create_memory") 1
           (tool_call_db [sample_call] [])
         = (tool_call_db [sample_call] [], Ok (map dict_of_row rows))
         /\ Z.of_nat (length rows) <= 1
         /\ StronglySorted (descending "timestamp") rows
         /\ Forall (fun r => r ∈ [sample_call]) rows
         /\ Forall (fun r => column r "tool_name" = SqlText "create_memory") rows)
  /\ (exists rows,
         LlamaMemory.get_tool_call_history None 1 (tool_call_db [sample_call] [])
         = (tool_call_db [sample_call] [], Ok (map dict_of_row rows))
         /\ Z.of_nat (length rows) <= 1
         /\ StronglySorted (descending "timestamp") rows
         /\ Forall (fun r => r ∈ [sample_call]) rows
         /\ snd (McpServer.handle_mcp_request store_backed_system
                   (McpServer.Request (Some "get_tool_call_history")
                      (VDict [("limit", VInt 1)]))
                   None (tool_call_db [sample_call] []))
            = Ok (McpServer.success (VDict [("history", VList (map dict_of_row rows))]))).
Proof.
  assert (H1 : 0 <= 1 < 2 ^ 63) by lia.
  assert (H2 : "create_memory" <> "") by discriminate.
  assert (H3 : items_get [("limit", VInt 1)] "limit" (VInt 50) = VInt 1) by reflexivity.
  repeat (split; [assumption|]).
  exact (history_bounded_sorted_filtered "create_memory" 1 [sample_call] []
           database store_backed_system
           (fun limit =>
              match limit with
              | VInt k => LlamaMemory.get_tool_call_history None k
              | _ => raise (Exc "TypeError" "limit must be an int")
              end)
           [("limit", VInt 1)] None (tool_call_db [sample_call] [])
           (tool_call_db [sample_call] []) H1 H2 H3 eq_refl eq_refl).
Defined.

Lemma falsy_result_witness :
  fresh "call_id" "c1" []
  /\ storable_time (Some (NInt 0))
  /\ exists logged stats',
      LlmIntegration.log_tool_call sample_json_dumps "create_memory" (VDict []) (VInt 0)
        "success" (Some (NInt 0)) None None "c1" "2025-03-01T10:00:00" "2025-03-01"
        (tool_call_db [] [])
      = (tool_call_db ([] ++ [logged]) stats', Ok "c1")
      /\ column logged "result" = SqlNull
      /\ column logged "execution_time_ms" = SqlNull.
Proof.
  assert (H : fresh "call_id" "c1" []) by constructor.
  assert (H0 : storable_time (Some (NInt 0))) by (intros _; cbn [int_of_number]; unfold int64; lia).
  repeat (split; [assumption|]).
  exact (proj1 (falsy_result_and_zero_time_stored_as_null sample_json_dumps
                  "create_memory" (VDict []) (VInt 0) "success" (Some (NInt 0)) None None
                  "c1" "2025-03-01T10:00:00" "2025-03-01" [] [] H H0)).
Defined.

Lemma create_memory_witness :
  memory_reachable sample_json_dumps (LlamaMemory.memory_initialize_tables ∅)
  /\ fresh "memory_id" "id-1"
       (rows_of "curated_memories" (LlamaMemory.memory_initialize_tables ∅))
  /\ fresh "memory_id" "id-1" []
  /\ int64 5
  /\ exists db1 mid,
      LlamaMemory.create_memory sample_json_dumps "x" (Some "note") 5 None None
        "id-1" "2025-03-01T10:00:00" (LlamaMemory.memory_initialize_tables ∅)
      = (db1, Ok mid)
      /\ LlamaMemory.create_memory sample_json_dumps "x" (Some "note") 5 None None
           "id-2" "2025-03-01T10:00:01" db1
         = (db1, Ok mid)
      /\ length (matching (LlamaMemory.memory_key "x" (Some "note") None)
                   (rows_of "curated_memories" db1)) = 1%nat.
Proof.
  assert (H1 : memory_reachable sample_json_dumps (LlamaMemory.memory_initialize_tables ∅))
    by constructor.
  assert (H2 : fresh "memory_id" "id-1"
                 (rows_of "curated_memories" (LlamaMemory.memory_initialize_tables ∅)))
    by constructor.
  assert (H3 : fresh "memory_id" "id-1" []) by constructor.
  assert (H4 : int64 5) by (unfold int64; lia).
  repeat (split; [assumption|]).
  exact (proj1 (create_memory_idempotent_on_typed_key sample_json_dumps
                  (LlamaMemory.memory_initialize_tables ∅) "x" "note" None 5 None 5 None
                  "id-1" "2025-03-01T10:00:00" "id-2" "2025-03-01T10:00:01"
                  (Some "note") [] H1 H2 H3 H4)).
Defined.

Lemma create_appointment_witness :
  schedule_reachable (LlamaMemory.schedule_initialize_tables ∅)
  /\ fresh "appointment_id" "a-1"
       (rows_of "appointments" (LlamaMemory.schedule_initialize_tables ∅))
  /\ fresh "appointment_id" "a-1" []
  /\ exists db1 aid,
      LlamaMemory.create_appointment "Dentist" "2025-03-01T10:00:00" None None None
        "a-1" "2025-02-01T09:00:00" (LlamaMemory.schedule_initialize_tables ∅)
      = (db1, Ok aid)
      /\ LlamaMemory.create_appointment "Dentist" "2025-03-01T10:00:00" None None None
           "a-2" "2025-02-01T09:00:01" db1
         = (db1, Ok aid)
      /\ length (matching
                   (LlamaMemory.appointment_key "Dentist" "2025-03-01T10:00:00" None None)
                   (rows_of "appointments" db1)) = 1%nat.
Proof.
  assert (H1 : schedule_reachable (LlamaMemory.schedule_initialize_tables ∅))
    by constructor.
  assert (H2 : fresh "appointment_id" "a-1"
                 (rows_of "appointments" (LlamaMemory.schedule_initialize_tables ∅)))
    by constructor.
  assert (H3 : fresh "appointment_id" "a-1" []) by constructor.
  repeat (split; [assumption|]).
  exact (proj1 (create_appointment_idempotent_on_key
                  (LlamaMemory.schedule_initialize_tables ∅)
                  "Dentist" "2025-03-01T10:00:00" None None None None
                  "a-1" "2025-02-01T09:00:00" "a-2" "2025-02-01T09:00:01" [] [] H1 H2 H3)).
Defined.

Lemma integration_null_ids_witness :
  fresh "message_id" "m1" []
  /\ LlmIntegration.store_message sample_json_dumps "hi" "user" None None VNone
       "2025-03-01T10:00:00" "m1" (integration_conversation_db [])
     = (integration_conversation_db
          ([] ++ [message_row sample_json_dumps "m1" None "2025-03-01T10:00:00"
                    "user" "hi" VNone]),
        Ok (VDict [("message_id", VStr "m1"); ("conversation_id", VNone);
                   ("session_id", VNone)])).
Proof.
  assert (H : fresh "message_id" "m1" []) by constructor.
  split; [exact H|].
  exact (integration_store_message_returns_null_ids sample_json_dumps "hi" "user" VNone
           "2025-03-01T10:00:00" "m1" [] H).
Defined.

(** The [ai-memory-llm-integration] store keeps both of two identical
    memories, under two ids; and in the [llama-ai-memory] store an
    importance of 2^63 cannot be stored: the call raises and returns no
    id. *)
Lemma create_memory_not_always_idempotent :
  ~ (exists mid,
        snd (LlmIntegration.create_memory sample_json_dumps "x" (Some "note") 5 None None
               "id-1" "2025-03-01T10:00:00" (LlmIntegration.memory_initialize_tables ∅))
        = Ok mid
        /\ snd (LlmIntegration.create_memory sample_json_dumps "x" (Some "note") 5 None None
                  "id-2" "2025-03-01T10:00:01"
                  (fst (LlmIntegration.create_memory sample_json_dumps "x" (Some "note") 5
                          None None "id-1" "2025-03-01T10:00:00"
                          (LlmIntegration.memory_initialize_tables ∅))))
           = Ok mid)
  /\ LlamaMemory.create_memory sample_json_dumps "x" (Some "note") (2 ^ 63) None None
       "id-1" "2025-03-01T10:00:00" (LlamaMemory.memory_initialize_tables ∅)
     = (LlamaMemory.memory_initialize_tables ∅, Raise OverflowError).
Proof.
  split.
  - intros (mid & H1 & H2). vm_compute in H1, H2. congruence.
  - reflexivity.
Qed.

(** The [ai-memory-llm-integration] store keeps both of two identical
    appointments, under two ids. *)
Lemma create_appointment_not_idempotent_in_integration :
  ~ (exists aid,
        snd (LlmIntegration.create_appointment "Dentist" "2025-03-01T10:00:00" None None
               None "a-1" "2025-02-01T09:00:00"
               (LlmIntegration.schedule_initialize_tables ∅))
        = Ok aid
        /\ snd (LlmIntegration.create_appointment "Dentist" "2025-03-01T10:00:00" None
                  None None "a-2" "2025-02-01T09:00:01"
                  (fst (LlmIntegration.create_appointment "Dentist" "2025-03-01T10:00:00"
                          None None None "a-1" "2025-02-01T09:00:00"
                          (LlmIntegration.schedule_initialize_tables ∅))))
           = Ok aid).
Proof.
  intros (aid & H1 & H2). vm_compute in H1, H2. congruence.
Qed.

(** Where [get_tool_call_history] leaves the claim, on a log of one call of
    [create_memory].  A limit of 2^63 cannot be bound: the store raises, and
    the dispatcher answers with an empty history.  The empty string as
    filter selects the calls of every tool.  With [limit = -1] the logged
    call is returned: a negative limit is no limit.  And a coordinator
    without an [mcp_db] attribute is answered with an empty history. *)
Lemma history_limit_and_filter_unchecked :
  LlamaMemory.get_tool_call_history None (2 ^ 63) (tool_call_db [sample_call] [])
  = (tool_call_db [sample_call] [], Raise OverflowError)
  /\ snd (McpServer.handle_mcp_request store_backed_system
            (McpServer.Request (Some "get_tool_call_history")
               (VDict [("limit", VInt (2 ^ 63))]))
            None (tool_call_db [sample_call] []))
     = Ok (McpServer.success (VDict [("history", VList [])]))
  /\ snd (LlamaMemory.get_tool_call_history (Some "") 10 (tool_call_db [sample_call] []))
     = Ok [dict_of_row sample_call]
  /\ column sample_call "tool_name" <> SqlText ""
  /\ snd (LlamaMemory.get_tool_call_history None (-1) (tool_call_db [sample_call] []))
     = Ok [dict_of_row sample_call]
  /\ snd (McpServer.handle_mcp_request unattached_system
            (McpServer.Request (Some "get_tool_call_history") (VDict [("limit", VInt 10)]))
            None (tool_call_db [sample_call] []))
     = Ok (McpServer.success (VDict [("history", VList [])])).
Proof.
  split; [reflexivity|]. split; [reflexivity|]. split; [reflexivity|].
  split; [discriminate|]. split; reflexivity.
Qed.



(** * Further properties *)

(** ** The dispatchers *)

Section DispatcherExtras.

Import McpServer.

Context {St : Type}.
Implicit Types (ms : memory_system St) (st : St).

(** Run a dispatcher symbolically, as for the claims. *)
Ltac run_handler :=
  repeat match goal with
         | |- context [_log_call ?ms ?a ?b ?c ?d ?e ?f ?g ?s] =>
             let H := fresh "Hlog" in
             destruct (log_call_returns ms a b c d e f g s) as [? H]; rewrite H; clear H
         | |- context [match ?c with _ => _ end] =>
             lazymatch c with
             | context [match _ with _ => _ end] => fail
             | _ => destruct c eqn:?
             end
         end.

Lemma or_dict d : or_ (VDict d) (VDict []) = VDict d.
Proof. destruct d; reflexivity. Qed.

(** X1.  [store_memory] is an alias of [create_memory]: the two tool names
    give the same envelope for the same parameters, coordinator and state. *)
Theorem store_memory_is_alias_of_create_memory ms params client st :
  snd (handle_mcp_request ms (Request (Some "store_memory") params) client st)
  = snd (handle_mcp_request ms (Request (Some "create_memory") params) client st).
Proof.
  unfold handle_mcp_request, try_except, bind, lift, ret, raise, _call_method.
  cbn [req_tool req_parameters tool_is tool_str tool_or_unknown
       String.eqb Ascii.eqb Bool.eqb orb].
  run_handler; try reflexivity; congruence.
Qed.

(** X2.  When the coordinator lacks the coroutine a tool needs, the request
    is answered with the error envelope "Method <name> not available on
    memory system", for every parameter dict. *)
Theorem missing_method_reported ms tool d client st :
  tool ∈ primary_tools ->
  coroutine ms (method_of tool) = None ->
  snd (handle_mcp_request ms (Request (Some tool) (VDict d)) client st)
  = Ok (error ("Method " +:+ method_of tool +:+ " not available on memory system")).
Proof.
  intros Hin Hnone. unfold primary_tools in Hin.
  repeat (apply elem_of_cons in Hin as [-> | Hin]); [..|inversion Hin];
    unfold method_of in *; cbn [String.eqb Ascii.eqb Bool.eqb] in *;
    unfold handle_mcp_request, try_except, bind, lift, ret, raise, _call_method;
    cbn [req_tool req_parameters tool_is tool_str tool_or_unknown
         String.eqb Ascii.eqb Bool.eqb orb];
    rewrite or_dict; cbn [get]; rewrite Hnone; unfold raise; run_handler;
    try reflexivity; congruence.
Qed.

(** X3.  A failure to read the history is swallowed: when the coordinator
    has no tool-call store, or reading it raises, [get_tool_call_history] is
    answered with a success envelope holding an empty history. *)
Theorem history_failure_gives_empty_history ms d client st :
  match mcp_db_get_tool_call_history ms with
  | None => True
  | Some read => exists st1 e, read (items_get d "limit" (VInt 50)) st = (st1, Raise e)
  end ->
  snd (handle_mcp_request ms (Request (Some "get_tool_call_history") (VDict d)) client st)
  = Ok (success (VDict [("history", VList [])])).
Proof.
  intros Hfail.
  unfold handle_mcp_request, try_except, bind, lift, ret.
  cbn [req_tool req_parameters tool_is tool_str String.eqb Ascii.eqb Bool.eqb orb].
  rewrite or_dict. cbn [get].
  destruct (mcp_db_get_tool_call_history ms) as [read|].
  - destruct Hfail as (st1 & e & ->). run_handler; reflexivity.
  - run_handler; reflexivity.
Qed.

(** X4.  Parameters that are truthy but not a dict make every tool that
    reads them fail before the coordinator is reached: the answer is the
    error envelope "'<type>' object has no attribute 'get'", and the state
    is changed by the telemetry of that failure only. *)
Theorem non_dict_parameters_rejected ms tool params client st :
  tool ∈ parameter_tools ->
  truthy params = true ->
  is_dict params = false ->
  exists st',
    handle_mcp_request ms (Request (Some tool) params) client st
    = (st', Ok (error ("'" +:+ type_name params +:+ "' object has no attribute 'get'")))
    /\ _log_call ms tool params VNone "error" VNone
         (VStr ("'" +:+ type_name params +:+ "' object has no attribute 'get'"))
         (of_option_string client) st
       = (st', Ok tt).
Proof.
  intros Hin Htruthy Hdict.
  assert (Hget : forall key default,
             get params key default
             = Raise (Exc "AttributeError"
                        ("'" +:+ type_name params +:+ "' object has no attribute 'get'"))).
  { intros. destruct params; try reflexivity. discriminate. }
  destruct (log_call_returns ms tool params VNone "error" VNone
              (VStr ("'" +:+ type_name params +:+ "' object has no attribute 'get'"))
              (of_option_string client) st) as [st' Hlog].
  exists st'. split; [|exact Hlog].
  unfold parameter_tools in Hin.
  repeat (apply elem_of_cons in Hin as [-> | Hin]); [..|inversion Hin];
    unfold handle_mcp_request, try_except, bind, lift, ret;
    cbn [req_tool req_parameters tool_is tool_str tool_or_unknown
         String.eqb Ascii.eqb Bool.eqb orb];
    unfold or_; rewrite Htruthy, Hget; cbn [exc_message];
    unfold or_ in Hlog; rewrite ?Htruthy in Hlog; rewrite Hlog; reflexivity.
Qed.

(** X5.  [store_conversation] does not undo the user message when storing
    the assistant response fails: the caller receives the error of the
    second write, and the state is the one the two calls left, plus the
    telemetry of the failure. *)
Theorem store_conversation_keeps_first_write ms store d client st s1 s2 msg1 e :
  coroutine ms "store_conversation" = Some store ->
  truthy (items_get d "assistant_response" VNone) = true ->
  store [or_ (items_get d "user_message" VNone) (items_get d "content" VNone);
         VStr "user"; items_get d "session_id" VNone; VNone;
         items_get d "metadata" VNone] st = (s1, Ok msg1) ->
  store [items_get d "assistant_response" VNone; VStr "assistant";
         items_get d "session_id" VNone; VNone; items_get d "metadata" VNone] s1
  = (s2, Raise e) ->
  exists st',
    handle_mcp_request ms (Request (Some "store_conversation") (VDict d)) client st
    = (st', Ok (error (exc_message e)))
    /\ _log_call ms "store_conversation" (VDict d) VNone "error" VNone
         (VStr (exc_message e)) (of_option_string client) s2
       = (st', Ok tt).
Proof.
  intros Hstore Hassistant Hfirst Hsecond.
  destruct (log_call_returns ms "store_conversation" (VDict d) VNone "error" VNone
              (VStr (exc_message e)) (of_option_string client) s2) as [st' Hlog].
  exists st'. split; [|exact Hlog].
  unfold handle_mcp_request, try_except, bind, lift, ret, _call_method.
  cbn [req_tool req_parameters tool_is tool_str tool_or_unknown
       String.eqb Ascii.eqb Bool.eqb orb].
  rewrite or_dict. cbn [get]. rewrite Hstore.
  unfold or_ in Hfirst.
  destruct (truthy (items_get d "user_message" VNone));
    rewrite Hfirst, Hassistant; unfold bind, lift; rewrite Hsecond, Hlog; reflexivity.
Qed.

(** X6.  Without an assistant response (missing, [None] or empty),
    [store_conversation] makes one store call, for the user message with the
    role "user" and no conversation id, and answers with the conversation id
    found in what that call returned. *)
Theorem store_conversation_without_assistant ms store d client st s1 msg1 :
  coroutine ms "store_conversation" = Some store ->
  truthy (items_get d "assistant_response" VNone) = false ->
  store [or_ (items_get d "user_message" VNone) (items_get d "content" VNone);
         VStr "user"; items_get d "session_id" VNone; VNone;
         items_get d "metadata" VNone] st = (s1, Ok msg1) ->
  exists st',
    handle_mcp_request ms (Request (Some "store_conversation") (VDict d)) client st
    = (st', Ok (success (VDict [("conversation_id", conversation_id_of msg1)])))
    /\ _log_call ms "store_conversation" (VDict d) VNone "success"
         (VDict [("conversation_id", conversation_id_of msg1)]) VNone
         (of_option_string client) s1
       = (st', Ok tt).
Proof.
  intros Hstore Hassistant Hfirst.
  destruct (log_call_returns ms "store_conversation" (VDict d) VNone "success"
              (VDict [("conversation_id", conversation_id_of msg1)]) VNone
              (of_option_string client) s1) as [st' Hlog].
  exists st'. split; [|exact Hlog].
  unfold handle_mcp_request, try_except, bind, lift, ret, _call_method.
  cbn [req_tool req_parameters tool_is tool_str tool_or_unknown
       String.eqb Ascii.eqb Bool.eqb orb].
  rewrite or_dict. cbn [get]. rewrite Hstore.
  unfold or_ in Hfirst.
  destruct (truthy (items_get d "user_message" VNone));
    rewrite Hfirst, Hassistant; unfold bind, ret; rewrite Hlog; reflexivity.
Qed.

(** X9.  Reading the history through the dispatcher is itself logged, after
    the read: when the coordinator's [mcp_db.get_tool_call_history] returns
    [rows], its [log_tool_call] is called once, in the state the read left,
    with the status "success" and the number of rows as result, and the
    answer holds the rows that were read, whatever the telemetry call
    does. *)
Theorem history_request_is_logged_after_the_read ms read log d client st st1 rows :
  mcp_db_get_tool_call_history ms = Some read ->
  coroutine ms "log_tool_call" = Some log ->
  read (items_get d "limit" (VInt 50)) st = (st1, Ok rows) ->
  handle_mcp_request ms (Request (Some "get_tool_call_history") (VDict d)) client st
  = (fst (log [VStr "get_tool_call_history"; VDict d; VNone; VStr "success";
               VDict [("history_count", VInt (Z.of_nat (length rows)))]; VNone;
               of_option_string client] st1),
     Ok (success (VDict [("history", VList rows)]))).
Proof.
  intros Hmcp Hlog Hread.
  unfold handle_mcp_request, try_except, bind, lift, ret.
  cbn [req_tool req_parameters tool_is tool_str String.eqb Ascii.eqb Bool.eqb orb].
  rewrite or_dict. cbn [get]. rewrite Hmcp, Hread.
  unfold _log_call, try_except, bind, ret. rewrite Hlog, or_dict.
  destruct (log _ st1) as [st' [v|e]]; reflexivity.
Qed.

(** X7.  On the tools it supports, the dispatcher of [mcp_server_clean.py]
    behaves exactly as the one of [mcp_server.py]. *)
Theorem clean_dispatcher_agrees ms tool params client st :
  tool ∈ clean_tools ->
  McpServerClean.handle_mcp_request ms (Request (Some tool) params) client st
  = handle_mcp_request ms (Request (Some tool) params) client st.
Proof.
  intros Hin. unfold clean_tools in Hin.
  repeat (apply elem_of_cons in Hin as [-> | Hin]); [..|inversion Hin]; reflexivity.
Qed.

(** X8.  Every other tool name, [search_memories], [get_system_health] and
    [store_conversation] included, is an unknown tool for the dispatcher of
    [mcp_server_clean.py]: it is answered with the error envelope and the
    state is left as it was. *)
Theorem clean_dispatcher_unknown_tool ms tool params client st :
  tool ∉ clean_tools ->
  McpServerClean.handle_mcp_request ms (Request (Some tool) params) client st
  = (st, Ok (error ("Unknown tool: " +:+ tool))).
Proof.
  intros Hnot.
  assert (Hne : forall name, name ∈ clean_tools -> String.eqb tool name = false).
  { intros name Hin. apply String.eqb_neq. intros ->. contradiction. }
  unfold McpServerClean.handle_mcp_request, try_except, bind, ret, tool_is, tool_str.
  cbn [req_tool].
  rewrite !Hne by (unfold clean_tools; set_solver).
  reflexivity.
Qed.

End DispatcherExtras.

(** ** The tool-call store, further *)

Section ToolCallExtras.

Import McpServer Coordinator.

Variable json_dumps : value -> string.

Lemma unmatched_rows_kept key (f : row -> row) rows :
  matching key rows = [] ->
  map (fun r => if satisfies key r then f r else r) rows = rows.
Proof.
  unfold matching. induction rows as [|r rows IH]; cbn; [reflexivity|].
  destruct (satisfies key r); [discriminate|]. intros H. now rewrite IH.
Qed.

Lemma stat_row_satisfies_key tool_name today c s f :
  satisfies (stats_key tool_name today) (stat_row tool_name today c s f) = true.
Proof.
  transitivity (is_true (Some (String.eqb tool_name tool_name))
                && (is_true (Some (String.eqb today today)) && true)); [reflexivity|].
  now rewrite !String.eqb_refl.
Qed.

(** X11.  A call of a tool that already has a row for the day adds one to
    [call_count], one to [success_count] when the status is "success", one
    to [failure_count] when it is "failure", and changes no other row. *)
Theorem update_tool_stats_increments_the_days_row
    tool_name status time today calls before after c s f :
  matching (stats_key tool_name today) before = [] ->
  matching (stats_key tool_name today) after = [] ->
  LlmIntegration._update_tool_stats tool_name status time today
    (tool_call_db calls (before ++ stat_row tool_name today c s f :: after))
  = (tool_call_db calls
       (before
        ++ stat_row tool_name today (c + 1)
             (s + if String.eqb status "success" then 1 else 0)
             (f + if String.eqb status "failure" then 1 else 0)
        :: after),
     Ok tt).
Proof.
  intros Hbefore Hafter. rewrite update_tool_stats_runs. unfold stats_after.
  rewrite matching_app, Hbefore. unfold matching at 1. cbn [List.filter app].
  rewrite stat_row_satisfies_key.
  rewrite map_app. cbn [map]. rewrite stat_row_satisfies_key.
  rewrite !unmatched_rows_kept by assumption.
  do 3 f_equal. unfold stat_row, add_to, case_when_eq. cbn.
  destruct (String.eqb status "success"), (String.eqb status "failure"); reflexivity.
Qed.

(** X10.  Logging a call with the status "success" or "failure", under a
    fresh call id and with an execution time SQLite can store, keeps
    [call_count = success_count + failure_count] on every row of the
    statistics table. *)
Theorem log_tool_call_keeps_counters_consistent tool_name parameters result status time
    message client call_id timestamp today calls stats :
  fresh "call_id" call_id calls ->
  storable_time time ->
  status = "success" \/ status = "failure" ->
  Forall stat_consistent stats ->
  exists calls' stats',
    LlmIntegration.log_tool_call json_dumps tool_name parameters result status time
      message client call_id timestamp today (tool_call_db calls stats)
    = (tool_call_db calls' stats', Ok call_id)
    /\ Forall stat_consistent stats'.
Proof.
  intros Hfresh Htime Hstatus Hall. do 2 eexists.
  split; [apply log_tool_call_appends; assumption|].
  apply stats_consistent_for_success_and_failure; assumption.
Qed.

Lemma taken_id_collides pk id r x rows :
  column r pk = SqlText id -> x ∈ rows -> column x pk = SqlText id ->
  existsb (same_key [pk] r) rows = true.
Proof.
  intros Hr Hin Hx. apply existsb_exists. exists x.
  split; [apply list_elem_of_In, Hin|].
  cbn. rewrite Hr, Hx. cbn. now rewrite String.eqb_refl.
Qed.

(** X13.  When the drawn call id is already in the log, [log_tool_call],
    given an execution time SQLite can store, raises the integrity error of
    the primary key and changes neither the log nor the statistics. *)
Theorem log_tool_call_rejects_taken_id tool_name parameters result status time
    message client call_id timestamp today calls stats taken :
  taken ∈ calls ->
  column taken "call_id" = SqlText call_id ->
  storable_time time ->
  LlmIntegration.log_tool_call json_dumps tool_name parameters result status time
    message client call_id timestamp today (tool_call_db calls stats)
  = (tool_call_db calls stats,
     Raise (IntegrityError "UNIQUE constraint failed: tool_calls.call_id")).
Proof.
  intros Hin Htaken Htime.
  unfold LlmIntegration.log_tool_call, bind.
  unfold execute_update at 1. rewrite tool_call_db_calls.
  change (unknown_column _ _) with (@None string). cbv iota.
  change (negb (Nat.eqb _ _)) with false. cbv iota. bind_values.
  cbn [tbl_primary_key tbl_rows].
  change (new_row _ _ _) with
    (tool_call_row json_dumps call_id timestamp client tool_name parameters
       result status time message).
  rewrite (taken_id_collides "call_id" call_id _ taken) by (assumption || reflexivity).
  reflexivity.
Qed.

Lemma insert_desc_perm key r l : insert_desc key r l ≡ₚ r :: l.
Proof.
  induction l as [|x l IH]; cbn; [reflexivity|].
  destruct (sql_leb _ _); [reflexivity|].
  rewrite IH. apply Permutation_swap.
Qed.

Lemma order_by_desc_perm key rows : order_by_desc key rows ≡ₚ rows.
Proof.
  induction rows as [|r rows IH]; cbn; [reflexivity|].
  rewrite insert_desc_perm. now rewrite IH.
Qed.

Lemma limit_all k (rows : list row) :
  k < 0 \/ Z.of_nat (length rows) <= k -> limit k rows = rows.
Proof.
  intros H. unfold limit. destruct (Z.ltb_spec k 0); [reflexivity|].
  apply take_ge. lia.
Qed.

Lemma matching_all rows : matching [] rows = rows.
Proof.
  unfold matching. induction rows as [|r rows IH]; cbn; [reflexivity|]. now rewrite IH.
Qed.

(** X14.  With a limit SQLite can bind (a signed 64-bit integer) that is
    negative or at least the size of the log, [get_tool_call_history]
    without a filter returns every logged call exactly once. *)
Theorem history_returns_whole_log k calls stats :
  int64 k ->
  k < 0 \/ Z.of_nat (length calls) <= k ->
  exists rows,
    LlamaMemory.get_tool_call_history None k (tool_call_db calls stats)
    = (tool_call_db calls stats, Ok (map dict_of_row rows))
    /\ rows ≡ₚ calls.
Proof.
  intros Hk64 Hk. eexists. split; [apply history_query, Hk64|].
  cbn [str_truthy]. rewrite matching_all.
  rewrite limit_all; [apply order_by_desc_perm|].
  now rewrite (Permutation_length (order_by_desc_perm "timestamp" calls)).
Qed.

End ToolCallExtras.

Section Counting.

Variable json_dumps : value -> string.

Lemma rows_of_stats calls stats : rows_of "tool_usage_stats" (tool_call_db calls stats) = stats.
Proof. unfold rows_of. rewrite tool_call_db_stats. reflexivity. Qed.

Lemma stat_row_eq tool_name today c s f c' s' f' :
  c = c' -> s = s' -> f = f' ->
  [stat_row tool_name today c s f] = [stat_row tool_name today c' s' f'].
Proof. now intros -> -> ->. Qed.

Lemma stats_after_first tool_name status today :
  stats_after tool_name status today []
  = [stat_row tool_name today 1 (if String.eqb status "success" then 1 else 0)
       (if String.eqb status "failure" then 1 else 0)].
Proof. reflexivity. Qed.

Lemma stats_after_next tool_name status today c s f :
  stats_after tool_name status today [stat_row tool_name today c s f]
  = [stat_row tool_name today (c + 1)
       (s + if String.eqb status "success" then 1 else 0)
       (f + if String.eqb status "failure" then 1 else 0)].
Proof.
  unfold stats_after, matching. cbn [List.filter map].
  assert (H : satisfies (stats_key tool_name today) (stat_row tool_name today c s f) = true).
  { transitivity (is_true (Some (String.eqb tool_name tool_name))
                  && (is_true (Some (String.eqb today today)) && true)); [reflexivity|].
    now rewrite !String.eqb_refl. }
  rewrite H. unfold stat_row, add_to, case_when_eq. cbn.
  destruct (String.eqb status "success"), (String.eqb status "failure"); reflexivity.
Qed.

Lemma log_calls_counts tool_name status today ids calls c s f :
  NoDup (map fst ids) ->
  Forall (fun id => fresh "call_id" (fst id) calls) ids ->
  rows_of "tool_usage_stats"
    (log_calls json_dumps tool_name status today ids
       (tool_call_db calls [stat_row tool_name today c s f]))
  = [stat_row tool_name today (c + Z.of_nat (length ids))
       (s + if String.eqb status "success" then Z.of_nat (length ids) else 0)
       (f + if String.eqb status "failure" then Z.of_nat (length ids) else 0)].
Proof.
  revert calls c s f.
  induction ids as [|[id ts] ids IH]; intros calls c s f Hnodup Hfresh.
  - cbn [log_calls length]. rewrite rows_of_stats.
    destruct (String.eqb status "success"), (String.eqb status "failure");
      apply stat_row_eq; cbn [length]; lia.
  - cbn [log_calls]. apply NoDup_cons in Hnodup as [Hnotin Hnodup].
    apply Forall_cons in Hfresh as [Hid Hfresh].
    rewrite (log_tool_call_appends json_dumps) by (assumption || exact I).
    cbn [fst]. rewrite stats_after_next. rewrite IH; [| assumption |].
    + destruct (String.eqb status "success"), (String.eqb status "failure");
        apply stat_row_eq; cbn [length]; lia.
    + apply Forall_forall. intros [id' ts'] Hin. cbn [fst].
      apply Forall_app. split.
      * eapply (proj1 (Forall_forall _ _) Hfresh (id', ts')), Hin.
      * constructor; [|constructor].
        change (column _ "call_id") with (SqlText id).
        intros [= ->]. apply Hnotin. cbn [map fst] in *.
        apply list_elem_of_fmap. exists (id', ts'). split; [reflexivity | exact Hin].
Qed.

(** X12.  After any number [n >= 1] of logged calls of one tool with one status on
    one day, with distinct call ids on a new store, the statistics table
    holds one row for the tool and the day: [call_count = n], and
    [success_count] or [failure_count] is [n] when the status is "success"
    or "failure" and 0 otherwise. *)
Theorem logged_calls_are_counted tool_name status today id ts ids :
  NoDup (map fst ((id, ts) :: ids)) ->
  rows_of "tool_usage_stats"
    (log_calls json_dumps tool_name status today ((id, ts) :: ids)
       (LlmIntegration.mcp_initialize_tables ∅))
  = [stat_row tool_name today (Z.of_nat (length ((id, ts) :: ids)))
       (if String.eqb status "success" then Z.of_nat (length ((id, ts) :: ids)) else 0)
       (if String.eqb status "failure" then Z.of_nat (length ((id, ts) :: ids)) else 0)].
Proof.
  intros Hnodup. cbn [log_calls].
  rewrite mcp_initialize_tables_new.
  rewrite (log_tool_call_appends json_dumps) by (constructor || exact I).
  cbn [fst app]. rewrite stats_after_first.
  cbn [map fst] in Hnodup. apply NoDup_cons in Hnodup as [Hnotin Hnodup].
  rewrite log_calls_counts; [| assumption |].
  - destruct (String.eqb status "success"), (String.eqb status "failure");
      apply stat_row_eq; cbn [length]; lia.
  - apply Forall_forall. intros [id' ts'] Hin. cbn [fst].
    constructor; [|constructor].
    change (column _ "call_id") with (SqlText id).
    intros [= ->]. apply Hnotin.
    apply list_elem_of_fmap. exists (id', ts'). split; [reflexivity | exact Hin].
Qed.

End Counting.

(** ** The stores of the [llama-ai-memory] copy, further *)

Section LlamaExtras.

Variable json_dumps : value -> string.

Local Abbreviation message_row := (message_row json_dumps).

Lemma reminder_row_matches content due src id ts priority :
  satisfies (LlamaStores.reminder_key content due src)
    (reminder_row id ts due content priority src) = true.
Proof.
  transitivity
    (is_true (Some (String.eqb content content))
     && (is_true (Some (String.eqb due due))
         && (is_true (Some (sql_is (text_or_null src) (text_or_null src))) && true)));
    [reflexivity|].
  rewrite !is_true_some, !String.eqb_refl, sql_is_text_or_null_refl. reflexivity.
Qed.

(** X15.  [create_reminder] is idempotent on (content, due_datetime,
    source_conversation_id): after a call with a priority SQLite can store
    (a signed 64-bit integer), a second call with the same key, whatever its
    priority and at any later time, returns the first call's reminder id and
    inserts nothing. *)
Theorem create_reminder_idempotent_on_key
    content due src priority1 priority2 id1 ts1 id2 ts2 apps rems :
  fresh "reminder_id" id1 rems ->
  int64 priority1 ->
  exists db1 rid,
    LlamaStores.create_reminder content due priority1 src id1 ts1 (schedule_db apps rems)
    = (db1, Ok rid)
    /\ LlamaStores.create_reminder content due priority2 src id2 ts2 db1 = (db1, Ok rid).
Proof.
  intros Hfresh Hpriority.
  destruct (matching (LlamaStores.reminder_key content due src) rems)
    as [|first rest] eqn:Hm.
  - rewrite (create_reminder_miss _ _ _ _ _ _ _ _ Hm Hpriority).
    rewrite (fresh_no_collision "reminder_id" id1) by (assumption || reflexivity).
    assert (Hm' : matching (LlamaStores.reminder_key content due src)
                    (rems ++ [reminder_row id1 ts1 due content priority1 src])
                  = [reminder_row id1 ts1 due content priority1 src]).
    { rewrite matching_app, Hm. unfold matching. cbn [List.filter app].
      rewrite reminder_row_matches. reflexivity. }
    do 2 eexists. split; [reflexivity|].
    rewrite (create_reminder_hit _ _ _ _ _ _ _ _ _ _ Hm'). reflexivity.
  - do 2 eexists. split; apply (create_reminder_hit _ _ _ _ _ _ _ _ _ _ Hm).
Qed.

Lemma insert_asc_perm key r l : SqlAsc.insert_asc key r l ≡ₚ r :: l.
Proof.
  induction l as [|x l IH]; cbn; [reflexivity|].
  destruct (sql_leb _ _); [reflexivity|].
  rewrite IH. apply Permutation_swap.
Qed.

Lemma order_by_asc_perm key rows : SqlAsc.order_by_asc key rows ≡ₚ rows.
Proof.
  induction rows as [|r rows IH]; cbn; [reflexivity|].
  rewrite insert_asc_perm. now rewrite IH.
Qed.

Lemma insert_asc_sorted key r l :
  StronglySorted (ascending key) l ->
  StronglySorted (ascending key) (SqlAsc.insert_asc key r l).
Proof.
  induction 1 as [|x l Hl IH Hx]; cbn.
  - repeat constructor.
  - destruct (sql_leb (column r key) (column x key)) eqn:Hle.
    + constructor; [constructor; assumption|].
      constructor; [exact Hle|].
      eapply Forall_impl; [exact Hx|].
      intros y Hy. unfold ascending in *. eapply sql_leb_trans; eassumption.
    + constructor; [exact IH|].
      rewrite insert_asc_perm. constructor; [|exact Hx].
      unfold ascending.
      destruct (sql_leb_total (column r key) (column x key)); congruence.
Qed.

Lemma order_by_asc_sorted key rows :
  StronglySorted (ascending key) (SqlAsc.order_by_asc key rows).
Proof.
  induction rows as [|r rows IH]; cbn; [constructor|]. apply insert_asc_sorted, IH.
Qed.

Lemma sql_eq_int v z : is_true (sql_eq v (SqlInt z)) = true <-> v = SqlInt z.
Proof.
  destruct v; cbn; split; try discriminate.
  - destruct (Z.eqb_spec z0 z); [congruence | discriminate].
  - intros [= ->]. now rewrite Z.eqb_refl.
Qed.

Lemma active_reminders_query apps rems :
  LlamaStores.get_active_reminders (schedule_db apps rems)
  = (schedule_db apps rems,
     Ok (map dict_of_row
           (SqlAsc.order_by_asc "due_datetime"
              (matching [Cond "completed" OpEq (SqlInt 0)] rems)))).
Proof.
  unfold LlamaStores.get_active_reminders, bind, ret, SqlAsc.execute_query_asc.
  rewrite schedule_db_reminders. reflexivity.
Qed.

(** X16.  [get_active_reminders] returns exactly the reminders whose [completed]
    column is 0, each once, in ascending order of due date. *)
Theorem active_reminders_are_the_uncompleted_by_due_date apps rems :
  exists rows,
    LlamaStores.get_active_reminders (schedule_db apps rems)
    = (schedule_db apps rems, Ok (map dict_of_row rows))
    /\ StronglySorted (ascending "due_datetime") rows
    /\ rows ≡ₚ matching [Cond "completed" OpEq (SqlInt 0)] rems
    /\ forall r, r ∈ rows <-> r ∈ rems /\ column r "completed" = SqlInt 0.
Proof.
  eexists. split; [apply active_reminders_query|].
  split; [apply order_by_asc_sorted|].
  split; [apply order_by_asc_perm|].
  intros r. rewrite order_by_asc_perm. unfold matching.
  rewrite list_elem_of_In, filter_In, <- list_elem_of_In.
  unfold satisfies, eval_condition. cbn [forallb cond_op cond_column cond_param].
  rewrite andb_true_r. now rewrite sql_eq_int.
Qed.

(** X17.  A reminder that [create_reminder] has just inserted, its priority
    being one SQLite can store, is active: the insert names no [completed]
    value, the column default 0 applies, and [get_active_reminders] returns
    the new row. *)
Theorem new_reminder_is_active content due priority src id ts apps rems :
  fresh "reminder_id" id rems ->
  matching (LlamaStores.reminder_key content due src) rems = [] ->
  int64 priority ->
  exists db1 rows,
    LlamaStores.create_reminder content due priority src id ts (schedule_db apps rems)
    = (db1, Ok (VStr id))
    /\ LlamaStores.get_active_reminders db1 = (db1, Ok (map dict_of_row rows))
    /\ reminder_row id ts due content priority src ∈ rows.
Proof.
  intros Hfresh Hmiss Hpriority.
  rewrite (create_reminder_miss _ _ _ _ _ _ _ _ Hmiss Hpriority).
  rewrite (fresh_no_collision "reminder_id" id) by (assumption || reflexivity).
  do 2 eexists. split; [reflexivity|]. split; [apply active_reminders_query|].
  rewrite order_by_asc_perm, matching_app. apply elem_of_app. right.
  unfold matching. cbn. apply list_elem_of_singleton. reflexivity.
Qed.

Lemma project_initialize_tables_new :
  LlamaStores.project_initialize_tables ∅ = project_db [] [].
Proof. reflexivity. Qed.

(** X18.  [store_project_insight] cannot succeed: [initialize_tables] never creates
    the [project_insights] table, so on every content of the project store
    the call raises "no such table: project_insights" and changes nothing. *)
Theorem store_project_insight_always_raises content insight_type related_files
    importance src id ts sessions conversations :
  LlamaStores.store_project_insight json_dumps content insight_type related_files
    importance src id ts (project_db sessions conversations)
  = (project_db sessions conversations,
     Raise (OperationalError "no such table: project_insights")).
Proof.
  unfold LlamaStores.store_project_insight, bind, execute_query, project_db.
  cbn [sel_table]. rewrite !lookup_insert_ne by discriminate.
  rewrite lookup_empty. reflexivity.
Qed.

(** X19.  Every development conversation is stored under a session id: the one
    given, or, when it is missing or the empty string, the identifier
    drawn. *)
Theorem development_conversation_always_has_session content session context decisions
    code_changes id ts uuid_session sessions conversations :
  fresh "conversation_id" id conversations ->
  uuid_session <> "" ->
  exists session_id,
    LlamaStores.store_development_conversation json_dumps content session context
      decisions code_changes id ts uuid_session (project_db sessions conversations)
    = (project_db sessions
         (conversations
          ++ [development_conversation_row json_dumps id session_id ts context content
                decisions code_changes]),
       Ok (VStr id))
    /\ session_id <> ""
    /\ (if str_truthy session then session = Some session_id
        else session_id = uuid_session).
Proof.
  intros Hfresh Huuid. exists (LlamaMemory.or_fresh session uuid_session).
  split; [|split].
  - unfold LlamaStores.store_development_conversation, bind, ret, execute_update, project_db.
    rewrite lookup_insert_eq.
    change (unknown_column _ _) with (@None string). cbv iota.
    change (negb (Nat.eqb _ _)) with false. cbv iota. bind_values.
    cbn [tbl_primary_key tbl_rows].
    change (new_row _ _ _) with
      (development_conversation_row json_dumps id
         (LlamaMemory.or_fresh session uuid_session) ts context content decisions
         code_changes).
    rewrite (fresh_no_collision "conversation_id" id) by (assumption || reflexivity).
    unfold with_rows. cbn [tbl_columns tbl_primary_key].
    rewrite insert_insert_eq. reflexivity.
  - destruct session as [s|]; cbn; [|assumption].
    destruct (String.eqb_spec s ""); assumption.
  - destruct session as [s|]; cbn; [|reflexivity].
    destruct (String.eqb_spec s ""); reflexivity.
Qed.

(** X20.  [get_recent_messages] with a session filter cannot succeed: the
    [messages] table has no [session_id] column, so the call raises on every
    content of the store. *)
Theorem recent_messages_of_a_session_raises k a s msgs convs :
  LlamaStores.get_recent_messages k (Some (String a s)) (conversation_db msgs convs)
  = (conversation_db msgs convs, Raise (OperationalError "no such column: session_id")).
Proof.
  unfold LlamaStores.get_recent_messages, bind, execute_query.
  cbn [str_truthy String.eqb negb sel_table].
  rewrite conversation_db_messages. reflexivity.
Qed.

(** X21.  Without a session filter and with a limit [k] that SQLite can
    bind, [0 <= k < 2^63], [get_recent_messages] returns at most [k] stored
    messages, the latest first. *)
Theorem recent_messages_bounded_latest_first k msgs convs :
  0 <= k < 2 ^ 63 ->
  exists rows,
    LlamaStores.get_recent_messages k None (conversation_db msgs convs)
    = (conversation_db msgs convs, Ok (map dict_of_row rows))
    /\ Z.of_nat (length rows) <= k
    /\ StronglySorted (descending "timestamp") rows
    /\ Forall (fun r => r ∈ msgs) rows.
Proof.
  intros Hk. assert (Hk64 : int64 k) by (unfold int64; lia).
  eexists. split.
  - unfold LlamaStores.get_recent_messages, bind, ret, execute_query.
    cbn [str_truthy sel_table sel_where sel_order_desc sel_limit sel_columns].
    rewrite conversation_db_messages.
    change (unknown_column _ _) with (@None string). cbv iota. bind_values.
    cbn [tbl_rows]. rewrite map_project_all. reflexivity.
  - split; [apply limit_length; lia|].
    split; [apply limit_sorted, order_by_desc_sorted|].
    apply Forall_limit, Forall_order_by_desc.
    eapply Forall_impl; [apply Forall_filter_satisfies|]. cbn beta. tauto.
Qed.

(** X22.  Without a session id (missing or empty) [store_message] checks for no
    duplicate: a second identical message is stored again, under its own
    message, session and conversation ids. *)
Theorem store_message_without_session_stores_duplicates
    content role session metadata ts1 ts2 mid1 mid2 hour1 hour2 us1 us2 uc1 uc2 msgs convs :
  str_truthy session = false ->
  fresh "message_id" mid1 msgs ->
  fresh "message_id" mid2 msgs ->
  mid1 <> mid2 ->
  LlamaMemory.store_message json_dumps content role session None metadata
    ts2 mid2 hour2 us2 uc2
    (fst (LlamaMemory.store_message json_dumps content role session None metadata
            ts1 mid1 hour1 us1 uc1 (conversation_db msgs convs)))
  = (conversation_db
       (msgs ++ [message_row mid1 (Some uc1) ts1 role content metadata;
                 message_row mid2 (Some uc2) ts2 role content metadata]) convs,
     Ok (VDict [("message_id", VStr mid2); ("conversation_id", VStr uc2);
                ("session_id", VStr us2); ("duplicate", VBool false)])).
Proof.
  intros Hsession Hf1 Hf2 Hne.
  assert (Hrun : forall ts mid hour us uc rows,
             fresh "message_id" mid rows ->
             LlamaMemory.store_message json_dumps content role session None metadata
               ts mid hour us uc (conversation_db rows convs)
             = (conversation_db (rows ++ [message_row mid (Some uc) ts role content metadata])
                  convs,
                Ok (VDict [("message_id", VStr mid); ("conversation_id", VStr uc);
                           ("session_id", VStr us); ("duplicate", VBool false)]))).
  { intros ts mid hour us uc rows Hfresh.
    destruct session as [s|].
    - cbn in Hsession. destruct (String.eqb_spec s ""); [subst s|discriminate].
      rewrite <- (llama_store_message_generates_ids json_dumps content role metadata
                    ts mid hour us uc rows convs Hfresh).
      reflexivity.
    - apply llama_store_message_generates_ids, Hfresh. }
  rewrite Hrun by assumption. cbn [fst].
  rewrite Hrun.
  - rewrite <- app_assoc. reflexivity.
  - apply Forall_app. split; [assumption|].
    constructor; [|constructor].
    change (column _ "message_id") with (SqlText mid1). congruence.
Qed.

(** X23.  [store_message] never writes the [conversations] table: the
    conversation id it generates exists only on the message row. *)
Theorem store_message_never_creates_a_conversation
    content role session conversation metadata ts mid hour us uc msgs convs :
  rows_of "conversations"
    (fst (LlamaMemory.store_message json_dumps content role session conversation
            metadata ts mid hour us uc (conversation_db msgs convs)))
  = convs.
Proof.
  assert (Hconvs : forall rows, rows_of "conversations" (conversation_db rows convs) = convs).
  { intros rows. unfold rows_of, conversation_db. now rewrite lookup_insert_eq. }
  destruct (str_truthy session) eqn:Hs.
  - destruct session as [[|a s]|]; try discriminate.
    rewrite llama_store_message_with_session_raises. apply Hconvs.
  - unfold LlamaMemory.store_message, bind, ret, execute_update.
    rewrite Hs. rewrite conversation_db_messages.
    change (unknown_column _ _) with (@None string). cbv iota.
    change (negb (Nat.eqb _ _)) with false. cbv iota. bind_values.
    cbn [tbl_primary_key tbl_rows].
    destruct (existsb _ msgs); cbn [fst]; [apply Hconvs|].
    unfold with_rows. cbn [tbl_columns tbl_primary_key].
    rewrite conversation_db_set_messages. apply Hconvs.
Qed.

(** X24.  A memory without a type (the default) is never recognised as a
    duplicate: on every store, a second [create_memory] with the same
    content and source and no type, both with an importance SQLite can
    store, inserts a second row and returns the new id. *)
Theorem untyped_memories_are_never_deduplicated
    c src imp1 tags1 imp2 tags2 id1 ts1 id2 ts2 rows :
  fresh "memory_id" id1 rows ->
  fresh "memory_id" id2 rows ->
  id1 <> id2 ->
  int64 imp1 ->
  int64 imp2 ->
  LlamaMemory.create_memory json_dumps c None imp2 tags2 src id2 ts2
    (fst (LlamaMemory.create_memory json_dumps c None imp1 tags1 src id1 ts1
            (memory_db rows)))
  = (memory_db (rows ++ [memory_row json_dumps id1 ts1 src None c imp1 tags1;
                         memory_row json_dumps id2 ts2 src None c imp2 tags2]),
     Ok (VStr id2)).
Proof.
  intros Hf1 Hf2 Hne Himp1 Himp2.
  rewrite (create_memory_miss _ _ _ _ _ _ _ _ _ (null_type_never_matches _ _ _) Himp1).
  rewrite (fresh_no_collision "memory_id" id1) by (assumption || reflexivity).
  cbn [fst].
  rewrite (create_memory_miss _ _ _ _ _ _ _ _ _ (null_type_never_matches _ _ _) Himp2).
  rewrite (fresh_no_collision "memory_id" id2); [| reflexivity |].
  - rewrite <- app_assoc. reflexivity.
  - apply Forall_app. split; [assumption|].
    constructor; [|constructor].
    change (column _ "memory_id") with (SqlText id1). congruence.
Qed.

End LlamaExtras.

(** ** Concrete instances of the further properties *)

Lemma missing_method_witness :
  ("search_memories" ∈ primary_tools)
  /\ McpServer.coroutine bare_system (method_of "search_memories") = None
  /\ snd (McpServer.handle_mcp_request bare_system
            (McpServer.Request (Some "search_memories") (VDict [("query", VStr "x")]))
            None tt)
     = Ok (McpServer.error "Method search_memories not available on memory system").
Proof.
  assert (H1 : "search_memories" ∈ primary_tools).
  { apply list_elem_of_In. cbn. auto. }
  assert (H2 : McpServer.coroutine bare_system (method_of "search_memories") = None)
    by reflexivity.
  repeat (split; [assumption|]).
  exact (missing_method_reported bare_system "search_memories" [("query", VStr "x")]
           None tt H1 H2).
Defined.

Lemma history_failure_witness :
  match McpServer.mcp_db_get_tool_call_history bare_system with
  | None => True
  | Some read => exists st1 e, read (items_get [] "limit" (VInt 50)) tt = (st1, Raise e)
  end
  /\ snd (McpServer.handle_mcp_request bare_system
            (McpServer.Request (Some "get_tool_call_history") (VDict [])) None tt)
     = Ok (McpServer.success (VDict [("history", VList [])])).
Proof.
  assert (H : match McpServer.mcp_db_get_tool_call_history bare_system with
              | None => True
              | Some read =>
                  exists st1 e, read (items_get [] "limit" (VInt 50)) tt = (st1, Raise e)
              end) by exact I.
  split; [exact H|].
  exact (history_failure_gives_empty_history bare_system [] None tt H).
Defined.

Lemma non_dict_parameters_witness :
  ("create_memory" ∈ parameter_tools)
  /\ truthy (VStr "abc") = true
  /\ is_dict (VStr "abc") = false
  /\ exists st',
      McpServer.handle_mcp_request bare_system
        (McpServer.Request (Some "create_memory") (VStr "abc")) None tt
      = (st', Ok (McpServer.error "'str' object has no attribute 'get'"))
      /\ McpServer._log_call bare_system "create_memory" (VStr "abc") VNone "error" VNone
           (VStr "'str' object has no attribute 'get'") VNone tt
         = (st', Ok tt).
Proof.
  assert (H1 : "create_memory" ∈ parameter_tools).
  { apply list_elem_of_In. cbn. auto. }
  assert (H2 : truthy (VStr "abc") = true) by reflexivity.
  assert (H3 : is_dict (VStr "abc") = false) by reflexivity.
  repeat (split; [assumption|]).
  exact (non_dict_parameters_rejected bare_system "create_memory" (VStr "abc") None tt
           H1 H2 H3).
Defined.

Lemma store_conversation_first_write_witness :
  McpServer.coroutine recording_system "store_conversation" = Some recording_store
  /\ truthy (items_get [("user_message", VStr "hello"); ("assistant_response", VStr "boom")]
               "assistant_response" VNone) = true
  /\ recording_store [VStr "hello"; VStr "user"; VNone; VNone; VNone] []
     = ([VStr "hello"], Ok (VDict [("conversation_id", VStr "conv-1")]))
  /\ recording_store [VStr "boom"; VStr "assistant"; VNone; VNone; VNone] [VStr "hello"]
     = ([VStr "hello"], Raise (Exc "OperationalError" "disk full"))
  /\ exists st',
      McpServer.handle_mcp_request recording_system
        (McpServer.Request (Some "store_conversation")
           (VDict [("user_message", VStr "hello"); ("assistant_response", VStr "boom")]))
        None []
      = (st', Ok (McpServer.error "disk full"))
      /\ McpServer._log_call recording_system "store_conversation"
           (VDict [("user_message", VStr "hello"); ("assistant_response", VStr "boom")])
           VNone "error" VNone (VStr "disk full") VNone [VStr "hello"]
         = (st', Ok tt).
Proof.
  do 4 (split; [reflexivity|]).
  exact (store_conversation_keeps_first_write recording_system recording_store
           [("user_message", VStr "hello"); ("assistant_response", VStr "boom")]
           None [] [VStr "hello"] [VStr "hello"]
           (VDict [("conversation_id", VStr "conv-1")])
           (Exc "OperationalError" "disk full")
           eq_refl eq_refl eq_refl eq_refl).
Defined.

Lemma store_conversation_without_assistant_witness :
  McpServer.coroutine recording_system "store_conversation" = Some recording_store
  /\ truthy (items_get [("user_message", VStr "hello")] "assistant_response" VNone) = false
  /\ recording_store [VStr "hello"; VStr "user"; VNone; VNone; VNone] []
     = ([VStr "hello"], Ok (VDict [("conversation_id", VStr "conv-1")]))
  /\ exists st',
      McpServer.handle_mcp_request recording_system
        (McpServer.Request (Some "store_conversation")
           (VDict [("user_message", VStr "hello")])) None []
      = (st', Ok (McpServer.success (VDict [("conversation_id", VStr "conv-1")])))
      /\ McpServer._log_call recording_system "store_conversation"
           (VDict [("user_message", VStr "hello")]) VNone "success"
           (VDict [("conversation_id", VStr "conv-1")]) VNone VNone [VStr "hello"]
         = (st', Ok tt).
Proof.
  do 3 (split; [reflexivity|]).
  exact (store_conversation_without_assistant recording_system recording_store
           [("user_message", VStr "hello")] None [] [VStr "hello"]
           (VDict [("conversation_id", VStr "conv-1")]) eq_refl eq_refl eq_refl).
Defined.

Lemma clean_dispatcher_agrees_witness :
  ("create_memory" ∈ clean_tools)
  /\ McpServerClean.handle_mcp_request bare_system
       (McpServer.Request (Some "create_memory") (VDict [("content", VStr "x")])) None tt
     = McpServer.handle_mcp_request bare_system
         (McpServer.Request (Some "create_memory") (VDict [("content", VStr "x")])) None tt.
Proof.
  assert (H : "create_memory" ∈ clean_tools) by (apply list_elem_of_In; cbn; auto).
  split; [exact H|].
  exact (clean_dispatcher_agrees bare_system "create_memory"
           (VDict [("content", VStr "x")]) None tt H).
Defined.

Lemma clean_dispatcher_unknown_witness :
  ("search_memories" ∉ clean_tools)
  /\ McpServerClean.handle_mcp_request bare_system
       (McpServer.Request (Some "search_memories") (VDict [("query", VStr "x")])) None tt
     = (tt, Ok (McpServer.error "Unknown tool: search_memories")).
Proof.
  assert (H : "search_memories" ∉ clean_tools).
  { unfold clean_tools. intros H.
    repeat (apply elem_of_cons in H as [H|H]; [discriminate H|]).
    inversion H. }
  split; [exact H|].
  exact (clean_dispatcher_unknown_tool bare_system "search_memories"
           (VDict [("query", VStr "x")]) None tt H).
Defined.

Lemma history_request_logged_witness :
  McpServer.mcp_db_get_tool_call_history journal_system = Some journal_read
  /\ McpServer.coroutine journal_system "log_tool_call" = Some journal_log
  /\ journal_read (items_get [("limit", VInt 5)] "limit" (VInt 50)) [VStr "earlier"]
     = ([VStr "earlier"], Ok [VStr "earlier"])
  /\ McpServer.handle_mcp_request journal_system
       (McpServer.Request (Some "get_tool_call_history") (VDict [("limit", VInt 5)]))
       (Some "client-1") [VStr "earlier"]
     = (fst (journal_log
               [VStr "get_tool_call_history"; VDict [("limit", VInt 5)]; VNone;
                VStr "success";
                VDict [("history_count", VInt (Z.of_nat (length [VStr "earlier"])))];
                VNone; of_option_string (Some "client-1")]
               [VStr "earlier"]),
        Ok (McpServer.success (VDict [("history", VList [VStr "earlier"])]))).
Proof.
  do 3 (split; [reflexivity|]).
  exact (history_request_is_logged_after_the_read journal_system journal_read journal_log
           [("limit", VInt 5)] (Some "client-1") [VStr "earlier"] [VStr "earlier"]
           [VStr "earlier"] eq_refl eq_refl eq_refl).
Defined.

Lemma counters_consistent_witness :
  fresh "call_id" "c1" []
  /\ storable_time (Some (NFloat 12.5))
  /\ ("success" = "success" \/ "success" = "failure")
  /\ Forall stat_consistent []
  /\ exists calls' stats',
      LlmIntegration.log_tool_call sample_json_dumps "create_memory" (VDict []) (VStr "m1")
        "success" (Some (NFloat 12.5)) None None "c1" "2025-03-01T10:00:00" "2025-03-01"
        (tool_call_db [] [])
      = (tool_call_db calls' stats', Ok "c1")
      /\ Forall stat_consistent stats'.
Proof.
  assert (H1 : fresh "call_id" "c1" []) by constructor.
  assert (H0 : storable_time (Some (NFloat 12.5))) by (intros _; vm_compute; split; congruence).
  assert (H2 : "success" = "success" \/ "success" = "failure") by (left; reflexivity).
  assert (H3 : Forall stat_consistent []) by constructor.
  repeat (split; [assumption|]).
  exact (log_tool_call_keeps_counters_consistent sample_json_dumps "create_memory"
           (VDict []) (VStr "m1") "success" (Some (NFloat 12.5)) None None "c1"
           "2025-03-01T10:00:00" "2025-03-01" [] [] H1 H0 H2 H3).
Defined.

Lemma stats_increment_witness :
  matching (stats_key "create_memory" "2025-03-01") [] = []
  /\ LlmIntegration._update_tool_stats "create_memory" "failure" None "2025-03-01"
       (tool_call_db [] ([] ++ stat_row "create_memory" "2025-03-01" 3 2 1 :: []))
     = (tool_call_db []
          ([] ++ stat_row "create_memory" "2025-03-01" (3 + 1)
                   (2 + if String.eqb "failure" "success" then 1 else 0)
                   (1 + if String.eqb "failure" "failure" then 1 else 0) :: []),
        Ok tt).
Proof.
  assert (H : matching (stats_key "create_memory" "2025-03-01") [] = []) by reflexivity.
  split; [exact H|].
  exact (update_tool_stats_increments_the_days_row "create_memory" "failure" None
           "2025-03-01" [] [] [] 3 2 1 H H).
Defined.

Lemma logged_calls_counted_witness :
  NoDup (map fst [("c1", "2025-03-01T10:00:00"); ("c2", "2025-03-01T10:05:00")])
  /\ rows_of "tool_usage_stats"
       (log_calls sample_json_dumps "create_memory" "success" "2025-03-01"
          [("c1", "2025-03-01T10:00:00"); ("c2", "2025-03-01T10:05:00")]
          (LlmIntegration.mcp_initialize_tables ∅))
     = [stat_row "create_memory" "2025-03-01"
          (Z.of_nat (length [("c1", "2025-03-01T10:00:00"); ("c2", "2025-03-01T10:05:00")]))
          (if String.eqb "success" "success"
           then Z.of_nat (length [("c1", "2025-03-01T10:00:00");
                                  ("c2", "2025-03-01T10:05:00")])
           else 0)
          (if String.eqb "success" "failure"
           then Z.of_nat (length [("c1", "2025-03-01T10:00:00");
                                  ("c2", "2025-03-01T10:05:00")])
           else 0)].
Proof.
  assert (H : NoDup (map fst [("c1", "2025-03-01T10:00:00");
                               ("c2", "2025-03-01T10:05:00")])).
  { apply NoDup_cons. split.
    - intros H. apply list_elem_of_singleton in H. discriminate H.
    - apply NoDup_singleton. }
  split; [exact H|].
  exact (logged_calls_are_counted sample_json_dumps "create_memory" "success" "2025-03-01"
           "c1" "2025-03-01T10:00:00" [("c2", "2025-03-01T10:05:00")] H).
Defined.

Lemma taken_id_witness :
  (sample_call ∈ [sample_call])
  /\ column sample_call "call_id" = SqlText "c1"
  /\ storable_time None
  /\ LlmIntegration.log_tool_call sample_json_dumps "create_memory" (VDict []) (VStr "m2")
       "success" None None None "c1" "2025-03-01T10:10:00" "2025-03-01"
       (tool_call_db [sample_call] [])
     = (tool_call_db [sample_call] [],
        Raise (IntegrityError "UNIQUE constraint failed: tool_calls.call_id")).
Proof.
  assert (H1 : sample_call ∈ [sample_call]) by (apply list_elem_of_singleton; reflexivity).
  assert (H2 : column sample_call "call_id" = SqlText "c1") by reflexivity.
  assert (H3 : storable_time None) by exact I.
  repeat (split; [assumption|]).
  exact (log_tool_call_rejects_taken_id sample_json_dumps "create_memory" (VDict [])
           (VStr "m2") "success" None None None "c1" "2025-03-01T10:10:00" "2025-03-01"
           [sample_call] [] sample_call H1 H2 H3).
Defined.

Lemma whole_log_witness :
  int64 (-1)
  /\ (-1 < 0 \/ Z.of_nat (length [sample_call]) <= -1)
  /\ exists rows,
      LlamaMemory.get_tool_call_history None (-1) (tool_call_db [sample_call] [])
      = (tool_call_db [sample_call] [], Ok (map dict_of_row rows))
      /\ rows ≡ₚ [sample_call].
Proof.
  assert (H0 : int64 (-1)) by (unfold int64; lia).
  assert (H : -1 < 0 \/ Z.of_nat (length [sample_call]) <= -1) by (left; lia).
  repeat (split; [assumption|]).
  exact (history_returns_whole_log (-1) [sample_call] [] H0 H).
Defined.

Lemma create_reminder_witness :
  fresh "reminder_id" "r-1" []
  /\ int64 5
  /\ exists db1 rid,
      LlamaStores.create_reminder "Call the dentist" "2025-03-01T09:00:00" 5 None
        "r-1" "2025-02-01T09:00:00" (schedule_db [] [])
      = (db1, Ok rid)
      /\ LlamaStores.create_reminder "Call the dentist" "2025-03-01T09:00:00" 9 None
           "r-2" "2025-02-01T09:00:01" db1
         = (db1, Ok rid).
Proof.
  assert (H : fresh "reminder_id" "r-1" []) by constructor.
  assert (H0 : int64 5) by (unfold int64; lia).
  repeat (split; [assumption|]).
  exact (create_reminder_idempotent_on_key "Call the dentist" "2025-03-01T09:00:00" None
           5 9 "r-1" "2025-02-01T09:00:00" "r-2" "2025-02-01T09:00:01" [] [] H H0).
Defined.

Lemma new_reminder_witness :
  fresh "reminder_id" "r-1" []
  /\ matching (LlamaStores.reminder_key "Call the dentist" "2025-03-01T09:00:00" None) []
     = []
  /\ int64 5
  /\ exists db1 rows,
      LlamaStores.create_reminder "Call the dentist" "2025-03-01T09:00:00" 5 None
        "r-1" "2025-02-01T09:00:00" (schedule_db [] [])
      = (db1, Ok (VStr "r-1"))
      /\ LlamaStores.get_active_reminders db1 = (db1, Ok (map dict_of_row rows))
      /\ reminder_row "r-1" "2025-02-01T09:00:00" "2025-03-01T09:00:00"
           "Call the dentist" 5 None ∈ rows.
Proof.
  assert (H1 : fresh "reminder_id" "r-1" []) by constructor.
  assert (H2 : matching (LlamaStores.reminder_key "Call the dentist"
                           "2025-03-01T09:00:00" None) [] = []) by reflexivity.
  assert (H3 : int64 5) by (unfold int64; lia).
  repeat (split; [assumption|]).
  exact (new_reminder_is_active "Call the dentist" "2025-03-01T09:00:00" 5 None
           "r-1" "2025-02-01T09:00:00" [] [] H1 H2 H3).
Defined.

Lemma development_conversation_witness :
  fresh "conversation_id" "d-1" []
  /\ "s-1" <> ""
  /\ exists session_id,
      LlamaStores.store_development_conversation sample_json_dumps "refactor plan"
        (Some "") None None VNone "d-1" "2025-03-01T10:00:00" "s-1" (project_db [] [])
      = (project_db []
           ([] ++ [development_conversation_row sample_json_dumps "d-1" session_id
                     "2025-03-01T10:00:00" None "refactor plan" None VNone]),
         Ok (VStr "d-1"))
      /\ session_id <> ""
      /\ (if str_truthy (Some "") then Some "" = Some session_id
          else session_id = "s-1").
Proof.
  assert (H1 : fresh "conversation_id" "d-1" []) by constructor.
  assert (H2 : "s-1" <> "") by discriminate.
  repeat (split; [assumption|]).
  exact (development_conversation_always_has_session sample_json_dumps "refactor plan"
           (Some "") None None VNone "d-1" "2025-03-01T10:00:00" "s-1" [] [] H1 H2).
Defined.

Lemma recent_messages_witness :
  0 <= 1 < 2 ^ 63
  /\ exists rows,
      LlamaStores.get_recent_messages 1 None (conversation_db [] [])
      = (conversation_db [] [], Ok (map dict_of_row rows))
      /\ Z.of_nat (length rows) <= 1
      /\ StronglySorted (descending "timestamp") rows
      /\ Forall (fun r => r ∈ []) rows.
Proof.
  assert (H : 0 <= 1 < 2 ^ 63) by lia.
  split; [exact H|].
  exact (recent_messages_bounded_latest_first 1 [] [] H).
Defined.

Lemma store_message_duplicates_witness :
  str_truthy None = false
  /\ fresh "message_id" "m1" []
  /\ fresh "message_id" "m2" []
  /\ "m1" <> "m2"
  /\ LlamaMemory.store_message sample_json_dumps "hi" "user" None None VNone
       "2025-03-01T10:00:01" "m2" "2025-03-01 09:00:01" "s2" "c2"
       (fst (LlamaMemory.store_message sample_json_dumps "hi" "user" None None VNone
               "2025-03-01T10:00:00" "m1" "2025-03-01 09:00:00" "s1" "c1"
               (conversation_db [] [])))
     = (conversation_db
          ([] ++ [message_row sample_json_dumps "m1" (Some "c1") "2025-03-01T10:00:00"
                    "user" "hi" VNone;
                  message_row sample_json_dumps "m2" (Some "c2") "2025-03-01T10:00:01"
                    "user" "hi" VNone]) [],
        Ok (VDict [("message_id", VStr "m2"); ("conversation_id", VStr "c2");
                   ("session_id", VStr "s2"); ("duplicate", VBool false)])).
Proof.
  assert (H1 : str_truthy None = false) by reflexivity.
  assert (H2 : fresh "message_id" "m1" []) by constructor.
  assert (H3 : fresh "message_id" "m2" []) by constructor.
  assert (H4 : "m1" <> "m2") by discriminate.
  repeat (split; [assumption|]).
  exact (store_message_without_session_stores_duplicates sample_json_dumps "hi" "user"
           None VNone "2025-03-01T10:00:00" "2025-03-01T10:00:01" "m1" "m2"
           "2025-03-01 09:00:00" "2025-03-01 09:00:01" "s1" "s2" "c1" "c2" [] []
           H1 H2 H3 H4).
Defined.

Lemma untyped_memories_witness :
  fresh "memory_id" "id-1" []
  /\ fresh "memory_id" "id-2" []
  /\ "id-1" <> "id-2"
  /\ int64 5
  /\ int64 5
  /\ LlamaMemory.create_memory sample_json_dumps "x" None 5 None None
       "id-2" "2025-03-01T10:00:01"
       (fst (LlamaMemory.create_memory sample_json_dumps "x" None 5 None None
               "id-1" "2025-03-01T10:00:00" (memory_db [])))
     = (memory_db ([] ++ [memory_row sample_json_dumps "id-1" "2025-03-01T10:00:00"
                            None None "x" 5 None;
                          memory_row sample_json_dumps "id-2" "2025-03-01T10:00:01"
                            None None "x" 5 None]),
        Ok (VStr "id-2")).
Proof.
  assert (H1 : fresh "memory_id" "id-1" []) by constructor.
  assert (H2 : fresh "memory_id" "id-2" []) by constructor.
  assert (H3 : "id-1" <> "id-2") by discriminate.
  assert (H4 : int64 5) by (unfold int64; lia).
  repeat (split; [assumption|]).
  exact (untyped_memories_are_never_deduplicated sample_json_dumps "x" None 5 None 5 None
           "id-1" "2025-03-01T10:00:00" "id-2" "2025-03-01T10:00:01" [] H1 H2 H3 H4 H4).
Defined.
